(** * GA4 monthly analytics agent: a shallow embedding of [adk_agent.py]

    The development follows the source file top to bottom:
    - [Py]: the Python built-ins the program relies on (exceptions, [str]
      methods, [int]/[float] coercion, the stable [list.sort]);
    - [Ga4]: the tabular response and the three aggregators
      ([process_ga4_response], [process_time_series_response],
      [process_campaign_response]) and [calculate_evolution_rates];
    - [Report]: the parts of [generate_html_report] that compute values
      (executive summary, focus sections);
    - [Markdown]: [markdown_to_html];
    - [Job]: [run_monthly_analysis] as a program over its collaborators.

    Modelling conventions.  A Python [str] is a [string] holding its UTF-8
    encoding, which keeps the order of [sorted]; white space is that of
    [str.isspace()], case folding is the ASCII one.  A Python [int]
    is a [Z].  A Python [float] is modelled by an exact rational [Q]:
    rounding, overflow and NaN are not represented, and the integer [0] some
    defaults use is identified with [0.0].  A [dict] with a fixed set of
    keys is a record, a [dict] used as a finite map is a [gmap]. *)

From Stdlib Require Import ZArith QArith String Ascii List.
From stdpp Require Import base option gmap strings list sorting.

Local Open Scope string_scope.
Local Open Scope Z_scope.

(** ** Python built-ins *)

Module Py.

(** The exceptions that can escape the modelled functions.
    [ExternalError] stands for whatever a collaborator (HTTP client,
    Gmail, Cloud Storage, Gemini) raises. *)
Inductive exn : Type :=
| IndexError
| ValueError
| TypeError
| ExternalError (msg : string).

Inductive res (A : Type) : Type :=
| Ok (a : A)
| Raise (e : exn).
Arguments Ok {A} a.
Arguments Raise {A} e.

#[global] Instance res_ret : MRet res := λ A a, Ok a.

#[global] Instance res_bind : MBind res := λ A B k m,
  match m with
  | Ok a => k a
  | Raise e => Raise e
  end.

(** [foldM] is a [for] loop whose body may raise: the first exception
    aborts the loop. *)
Fixpoint foldM {A S} (body : S → A → res S) (s : S) (l : list A) : res S :=
  match l with
  | [] => Ok s
  | x :: l' => s' ← body s x; foldM body s' l'
  end.

Fixpoint mapM {A B} (f : A → res B) (l : list A) : res (list B) :=
  match l with
  | [] => Ok []
  | x :: l' => y ← f x; ys ← mapM f l'; Ok (y :: ys)
  end.

(** *** [str] methods *)

Definition is_upper (c : ascii) : bool :=
  let n := nat_of_ascii c in (65 <=? n)%nat && (n <=? 90)%nat.

Definition lower_char (c : ascii) : ascii :=
  if is_upper c then ascii_of_nat (nat_of_ascii c + 32) else c.

(** [s.lower()] *)
Fixpoint lower (s : string) : string :=
  match s with
  | EmptyString => EmptyString
  | String c s' => String (lower_char c) (lower s')
  end.

(** [s.startswith(p)] *)
Fixpoint startswith (p s : string) : bool :=
  match p, s with
  | EmptyString, _ => true
  | String a p', String b s' => if Ascii.eqb a b then startswith p' s' else false
  | String _ _, EmptyString => false
  end.

(** [sub in s] *)
Fixpoint contains (sub s : string) : bool :=
  startswith sub s ||
  match s with
  | EmptyString => false
  | String _ s' => contains sub s'
  end.

(** [s[n:]] *)
Fixpoint drop (n : nat) (s : string) : string :=
  match n, s with
  | O, _ => s
  | S n', String _ s' => drop n' s'
  | S _, EmptyString => EmptyString
  end.

(** The characters [str.strip()] removes are those of [str.isspace()].
    In ASCII: tab, LF, VT, FF, CR, the four separators 0x1c-0x1f, and the
    space. *)
Definition is_space (c : ascii) : bool :=
  let n := nat_of_ascii c in
  ((9 <=? n)%nat && (n <=? 13)%nat) || ((28 <=? n)%nat && (n <=? 32)%nat).

(** Beyond ASCII, by their UTF-8 encoding: U+0085 and U+00A0 take two
    bytes (C2 85, C2 A0). *)
Definition is_space2 (c0 c1 : ascii) : bool :=
  let n0 := nat_of_ascii c0 in
  let n1 := nat_of_ascii c1 in
  (n0 =? 194)%nat && ((n1 =? 133)%nat || (n1 =? 160)%nat).

(** U+1680 (E1 9A 80), U+2000 to U+200A (E2 80 80 to E2 80 8A), U+2028,
    U+2029 and U+202F (E2 80 A8, A9, AF), U+205F (E2 81 9F) and U+3000
    (E3 80 80) take three. *)
Definition is_space3 (c0 c1 c2 : ascii) : bool :=
  let n0 := nat_of_ascii c0 in
  let n1 := nat_of_ascii c1 in
  let n2 := nat_of_ascii c2 in
  ((n0 =? 225)%nat && (n1 =? 154)%nat && (n2 =? 128)%nat)
  || ((n0 =? 226)%nat && (n1 =? 128)%nat
      && (((128 <=? n2)%nat && (n2 <=? 138)%nat)
          || (n2 =? 168)%nat || (n2 =? 169)%nat || (n2 =? 175)%nat))
  || ((n0 =? 226)%nat && (n1 =? 129)%nat && (n2 =? 159)%nat)
  || ((n0 =? 227)%nat && (n1 =? 128)%nat && (n2 =? 128)%nat).

(** [s.lstrip()] *)
Fixpoint lstrip (s : string) : string :=
  match s with
  | EmptyString => EmptyString
  | String c0 s0 =>
      if is_space c0 then lstrip s0
      else match s0 with
           | String c1 s1 =>
               if is_space2 c0 c1 then lstrip s1
               else match s1 with
                    | String c2 s2 =>
                        if is_space3 c0 c1 c2 then lstrip s2 else s
                    | EmptyString => s
                    end
           | EmptyString => s
           end
  end.

(** Whether a text consists of white-space characters only. *)
Fixpoint all_space (s : string) : bool :=
  match s with
  | EmptyString => true
  | String c0 s0 =>
      if is_space c0 then all_space s0
      else match s0 with
           | String c1 s1 =>
               if is_space2 c0 c1 then all_space s1
               else match s1 with
                    | String c2 s2 => is_space3 c0 c1 c2 && all_space s2
                    | EmptyString => false
                    end
           | EmptyString => false
           end
  end.

(** [s.rstrip()]: a byte is kept when something other than white space
    begins at it or after it. *)
Fixpoint rstrip (s : string) : string :=
  match s with
  | EmptyString => EmptyString
  | String c s' => if all_space s then EmptyString else String c (rstrip s')
  end.

(** [s.strip()] *)
Definition strip (s : string) : string := rstrip (lstrip s).

Definition newline : ascii := ascii_of_nat 10.

(** [s.split('\n')]: always at least one piece. *)
Fixpoint split_lines (s : string) : list string :=
  match s with
  | EmptyString => [EmptyString]
  | String c s' =>
      if Ascii.eqb c newline then EmptyString :: split_lines s'
      else match split_lines s' with
           | [] => [String c EmptyString]
           | l :: ls => String c l :: ls
           end
  end.

(** ['\n'.join(ls)] *)
Fixpoint join_lines (ls : list string) : string :=
  match ls with
  | [] => EmptyString
  | [l] => l
  | l :: ls' => l ++ String newline (join_lines ls')
  end.

(** *** Numeric coercion

    [int(s)] and [float(s)] are built-ins, not code of the program: the
    development is parametric in them.  [None] is a [ValueError]. *)
Class Numerals := {
  int_of_str : string → option Z;
  float_of_str : string → option Q;
}.

Definition int `{Numerals} (s : string) : res Z :=
  match int_of_str s with
  | Some z => Ok z
  | None => Raise ValueError
  end.

Definition float `{Numerals} (s : string) : res Q :=
  match float_of_str s with
  | Some q => Ok q
  | None => Raise ValueError
  end.

(** *** [list.sort(key=..., reverse=True)]

    Python's sort is stable, also with [reverse=True]: elements with equal
    keys keep their order.  Inserting the elements from the last to the
    first, each before the first element whose key is not greater, is
    such a sort. *)
Section sort.
Context {A : Type} (key : A → Z).

Fixpoint insert_desc (x : A) (l : list A) : list A :=
  match l with
  | [] => [x]
  | y :: l' => if (key y <=? key x)%Z then x :: y :: l' else y :: insert_desc x l'
  end.

Fixpoint sort_desc (l : list A) : list A :=
  match l with
  | [] => []
  | x :: l' => insert_desc x (sort_desc l')
  end.
End sort.

End Py.

Import Py.

(** ** The analytics response and the aggregators *)

Module Ga4.

(** *** The tabular response, as [GA4MCPClient.run_report] returns it

    A cell is the dict [{"value": v}]; [None] is a cell without the key.
    A row is a dict whose two keys may each be absent.  The response is
    represented by its ["rows"] entry: [None] when the response is empty or
    has no such key (the warning the aggregators log in that case is left
    out: they are pure functions here). *)
Abbreviation cell := (option string) (only parsing).

Record row : Type := Row {
  dimensionValues : option (list cell);
  metricValues : option (list cell);
}.

Definition raw_data : Type := option (list row).

(** The JSON body of the HTTP API, before [run_report] converts it: every
    key may be absent. *)
Record api_row : Type := ApiRow {
  api_dimensions : option (list string);
  api_metrics : option (list string);
}.

Record api_result : Type := ApiResult {
  api_rows : option (list api_row);
}.

(** The conversion at the end of [run_report]: both keys of a converted row
    and the ["rows"] key of the converted response are always present. *)
Definition convert_row (r : api_row) : row :=
  {| dimensionValues := Some (Some <$> default [] (api_dimensions r));
     metricValues := Some (Some <$> default [] (api_metrics r)) |}.

Definition convert_result (result : api_result) : raw_data :=
  Some (convert_row <$> default [] (api_rows result)).

(** *** [process_ga4_response] *)

(** [channel_data]: one dict per row, with a fixed set of keys. *)
Record ChannelMetric : Type := {
  channel : string;
  sessions : Z;
  conversions : Z;
  revenue : Q;
  engagement_rate : Q;
  avg_session_duration : Q;
}.

(** [processed_data]; a focus slot holding [{}] is [None]. *)
Record Snapshot : Type := {
  channels : list ChannelMetric;
  total_sessions : Z;
  total_conversions : Z;
  total_revenue : Q;
  email_focus : option ChannelMetric;
  social_focus : option ChannelMetric;
}.

(** What the aggregator returns: [None] is the empty dict [{}]. *)
Definition processed : Type := option Snapshot.

Definition empty_snapshot : Snapshot :=
  {| channels := []; total_sessions := 0; total_conversions := 0;
     total_revenue := 0%Q; email_focus := None; social_focus := None |}.

Section aggregators.
Context `{Numerals}.

(** [row.get("dimensionValues", [{}])[0].get("value", "Unknown")]: the
    default list is used only when the key is absent; indexing an empty
    list raises. *)
Definition first_dimension (r : row) : res string :=
  match default [None] (dimensionValues r) with
  | [] => Raise IndexError
  | c :: _ => Ok (default "Unknown" c)
  end.

(** [int(metrics[i].get("value", 0)) if len(metrics) > i else 0] *)
Definition metric_int (metrics : list cell) (i : nat) : res Z :=
  match metrics !! i with
  | Some (Some v) => int v
  | Some None => Ok 0
  | None => Ok 0
  end.

(** [float(metrics[i].get("value", 0)) if len(metrics) > i else 0] *)
Definition metric_float (metrics : list cell) (i : nat) : res Q :=
  match metrics !! i with
  | Some (Some v) => float v
  | Some None => Ok 0%Q
  | None => Ok 0%Q
  end.

(** The dict literal [channel_data]: the entries are evaluated in order. *)
Definition channel_data_of_row (r : row) : res ChannelMetric :=
  ch ← first_dimension r;
  let metrics := default [] (metricValues r) in
  s ← metric_int metrics 0;
  c ← metric_int metrics 1;
  rv ← metric_float metrics 2;
  er ← metric_float metrics 3;
  du ← metric_float metrics 4;
  Ok {| channel := ch; sessions := s; conversions := c; revenue := rv;
        engagement_rate := er; avg_session_duration := du |}.

Definition is_email (label : string) : bool :=
  contains "email" (lower label).

Definition is_social (label : string) : bool :=
  let l := lower label in
  contains "social" l || contains "facebook" l || contains "instagram" l.

(** The accumulation part of the loop body. *)
Definition accumulate (acc : Snapshot) (cd : ChannelMetric) : Snapshot :=
  {| channels := channels acc ++ [cd];
     total_sessions := total_sessions acc + sessions cd;
     total_conversions := total_conversions acc + conversions cd;
     total_revenue := (total_revenue acc + revenue cd)%Q;
     email_focus :=
       if is_email (channel cd) then Some cd else email_focus acc;
     social_focus :=
       if is_email (channel cd) then social_focus acc
       else if is_social (channel cd) then Some cd
       else social_focus acc |}.

Definition ga4_step (acc : Snapshot) (r : row) : res Snapshot :=
  cd ← channel_data_of_row r;
  Ok (accumulate acc cd).

Definition sort_channels (s : Snapshot) : Snapshot :=
  {| channels := sort_desc sessions (channels s);
     total_sessions := total_sessions s;
     total_conversions := total_conversions s;
     total_revenue := total_revenue s;
     email_focus := email_focus s;
     social_focus := social_focus s |}.

Definition process_ga4_response (raw : raw_data) : res processed :=
  match raw with
  | None => Ok None
  | Some rows =>
      acc ← foldM ga4_step empty_snapshot rows;
      Ok (Some (sort_channels acc))
  end.

(** *** [process_time_series_response] *)

Record TimeSeries : Type := {
  dates : list string;
  by_channel : gmap string (list Z);
}.

(** The loop state: [data_by_date_channel] and [all_channels]. *)
Record ts_state : Type := TsState {
  data_by_date_channel : gmap string (gmap string Z);
  all_channels : gset string;
}.

(** What one iteration reads from its row: the date, the channel and the
    session count.  [None] is the program's [len(dims) < 2: continue]. *)
Definition ts_point (r : row) : res (option (string * string * Z)) :=
  match default [] (dimensionValues r) with
  | d0 :: d1 :: _ =>
      let date := default "" d0 in
      let ch := default "Unknown" d1 in
      let metrics := default [] (metricValues r) in
      s ← metric_int metrics 0;
      Ok (Some (date, ch, s))
  | _ => Ok None
  end.

(** What the iteration then stores. *)
Definition ts_record (st : ts_state) (pt : string * string * Z) : ts_state :=
  let '(date, ch, s) := pt in
  let data := data_by_date_channel st in
  let data := match data !! date with
              | None => <[date := ∅]> data
              | Some _ => data
              end in
  {| data_by_date_channel :=
       <[date := <[ch := s]> (default ∅ (data !! date))]> data;
     all_channels := all_channels st ∪ {[ch]} |}.

Definition ts_step (st : ts_state) (r : row) : res ts_state :=
  pt ← ts_point r;
  Ok (from_option (ts_record st) st pt).

(** [sorted(keys)]: the keys of a dict are distinct and [str] is totally
    ordered, so every sorting algorithm returns the same list. *)
Definition sorted_keys {V} (m : gmap string V) : list string :=
  merge_sort String.le (elements (dom m)).

(** The inner comprehension: [data.get(date, {}).get(channel, 0)]. *)
Definition series_of (data : gmap string (gmap string Z))
    (sorted_dates : list string) (ch : string) : list Z :=
  (λ date, default 0 (default ∅ (data !! date) !! ch)) <$> sorted_dates.

Definition process_time_series_response (raw : raw_data)
    : res (option TimeSeries) :=
  match raw with
  | None => Ok None
  | Some rows =>
      st ← foldM ts_step (TsState ∅ ∅) rows;
      let sorted_dates := sorted_keys (data_by_date_channel st) in
      let series_by_channel :=
        set_fold (λ ch acc,
                    <[ch := series_of (data_by_date_channel st) sorted_dates ch]> acc)
                 (∅ : gmap string (list Z)) (all_channels st) in
      Ok (Some {| dates := sorted_dates; by_channel := series_by_channel |})
  end.

(** *** [process_campaign_response] *)

Record CampaignRow : Type := {
  campaign : string;
  campaign_sessions : Z;
}.

Definition placeholder_names : list string :=
  ["(not set)"; "(none)"; "unknown"; ""].

(** [campaign_name.lower() in [...]] *)
Definition is_placeholder (campaign_name : string) : bool :=
  bool_decide (lower campaign_name ∈ placeholder_names).

(** What one iteration reads from its row; [None] is the [continue] taken
    for a placeholder name, before the session count is read. *)
Definition campaign_data_of_row (r : row) : res (option CampaignRow) :=
  campaign_name ← first_dimension r;
  let metrics := default [] (metricValues r) in
  if is_placeholder campaign_name then Ok None
  else
    s ← metric_int metrics 0;
    Ok (Some {| campaign := campaign_name; campaign_sessions := s |}).

Definition campaign_step (campaigns : list CampaignRow) (r : row)
    : res (list CampaignRow) :=
  campaign_data ← campaign_data_of_row r;
  Ok (campaigns ++ option_list campaign_data)%list.

Definition process_campaign_response (raw : raw_data)
    : res (list CampaignRow) :=
  match raw with
  | None => Ok []
  | Some rows =>
      campaigns ← foldM campaign_step [] rows;
      Ok (sort_desc campaign_sessions campaigns)
  end.

End aggregators.

(** *** [calculate_evolution_rates] *)

(** [d.get("channels", [])] *)
Definition channels_of (d : processed) : list ChannelMetric :=
  match d with
  | Some s => channels s
  | None => []
  end.

Definition previous_by_channel (previous_data : processed) : gmap string Z :=
  foldl (λ m ch, <[channel ch := sessions ch]> m) ∅ (channels_of previous_data).

(** [((current - previous) / previous) * 100]: true division of two
    [int]s, then a product with [100]. *)
Definition percent_change (current previous : Z) : Q :=
  (inject_Z (current - previous) / inject_Z previous * 100)%Q.

Definition calculate_evolution_rates (current_data previous_data : processed)
    : gmap string Q :=
  let previous_by_channel := previous_by_channel previous_data in
  foldl (λ evolution_rates ch,
           let channel_name := channel ch in
           let current_sessions := sessions ch in
           let previous_sessions :=
             default 0 (previous_by_channel !! channel_name) in
           if 0 <? previous_sessions then
             <[channel_name := percent_change current_sessions previous_sessions]>
               evolution_rates
           else if 0 <? current_sessions then
             <[channel_name := 100%Q]> evolution_rates
           else
             <[channel_name := 0%Q]> evolution_rates)
        (∅ : gmap string Q) (channels_of current_data).

End Ga4.

(** ** The computed parts of [generate_html_report] *)

Module Report.
Import Ga4.

(** A value stored in a [channel_data] dict. *)
Inductive pyval : Type :=
| PInt (z : Z)
| PFloat (q : Q)
| PStr (s : string).

(** [channel_data] seen as the dict it is. *)
Definition channel_dict (c : ChannelMetric) : gmap string pyval :=
  <["channel" := PStr (channel c)]>
  (<["sessions" := PInt (sessions c)]>
  (<["conversions" := PInt (conversions c)]>
  (<["revenue" := PFloat (revenue c)]>
  (<["engagement_rate" := PFloat (engagement_rate c)]>
  (<["avg_session_duration" := PFloat (avg_session_duration c)]> ∅))))).

(** A focus slot: [{}] or a [channel_data]. *)
Definition focus_dict (f : option ChannelMetric) : gmap string pyval :=
  match f with
  | Some c => channel_dict c
  | None => ∅
  end.

(** [v == 0] *)
Definition is_zero (v : pyval) : bool :=
  match v with
  | PInt z => z =? 0
  | PFloat q => Qeq_bool q 0
  | PStr _ => false
  end.

(** [v > 0]: comparing a [str] with an [int] raises. *)
Definition is_positive (v : pyval) : res bool :=
  match v with
  | PInt z => Ok (0 <? z)
  | PFloat q => Ok (negb (Qle_bool q 0))
  | PStr _ => Raise TypeError
  end.

Definition number (v : pyval) : res Q :=
  match v with
  | PInt z => Ok (inject_Z z)
  | PFloat q => Ok q
  | PStr _ => Raise TypeError
  end.

(** [((curr_val - prev_val) / prev_val) * 100] *)
Definition ratio (curr_val prev_val : pyval) : res Q :=
  c ← number curr_val;
  p ← number prev_val;
  Ok ((c - p) / p * 100)%Q.

(** The three [return] statements of [get_focus_evolution], in source
    order. *)
Inductive exit_point : Type :=
| ReturnGuard
| ReturnZeroBaseline
| ReturnRatio.

(** [get_focus_evolution], together with the [return] statement that
    produced the result.  [previous] is [None] for Python's [None]. *)
Definition get_focus_evolution_at (current : gmap string pyval)
    (previous : option (gmap string pyval)) (metric : string)
    : exit_point * res Q :=
  match previous with
  | None => (ReturnGuard, Ok 0%Q)
  | Some prev =>
      if bool_decide (prev = ∅) then (ReturnGuard, Ok 0%Q)
      else match prev !! metric with
           | None => (ReturnGuard, Ok 0%Q)
           | Some pm =>
               if is_zero pm then (ReturnGuard, Ok 0%Q)
               else
                 let curr_val := default (PInt 0) (current !! metric) in
                 let prev_val := default (PInt 0) (prev !! metric) in
                 if is_zero prev_val then
                   (ReturnZeroBaseline,
                    b ← is_positive curr_val;
                    Ok (if b : bool then 100%Q else 0%Q))
                 else (ReturnRatio, ratio curr_val prev_val)
           end
  end.

Definition get_focus_evolution (current : gmap string pyval)
    (previous : option (gmap string pyval)) (metric : string) : res Q :=
  (get_focus_evolution_at current previous metric).2.

(** What [format_evolution] and [format_evolution_inline] print: an arrow
    and a colour chosen by the sign, and the rate rounded by [:.0f]. *)
Inductive indicator : Type :=
| Up (evo : Q)
| Down (evo : Q)
| Neutral.

Definition format_evolution (evo : Q) : indicator :=
  if negb (Qle_bool evo 0) then Up evo
  else if negb (Qle_bool 0 evo) then Down evo
  else Neutral.

Definition format_evolution_inline : Q → indicator := format_evolution.

(** The argument of [format_evolution_inline] in the executive summary,
    for the total selected by [total]:
    [((data[t] - prev_data.get(t, 0)) / prev_data.get(t, 1)) * 100
       if prev_data and prev_data.get(t, 0) > 0 else 0]. *)
Definition total_evolution (total : Snapshot → Z) (data : Snapshot)
    (prev_data : processed) : Q :=
  match prev_data with
  | Some prev =>
      if 0 <? total prev then
        (inject_Z (total data - total prev) / inject_Z (total prev) * 100)%Q
      else 0%Q
  | None => 0%Q
  end.

Record summary : Type := {
  summary_sessions : Z;
  summary_sessions_evolution : indicator;
  summary_conversions : Z;
  summary_conversions_evolution : indicator;
  top_channel : option ChannelMetric;
}.

Record focus_section : Type := {
  focus_sessions : Z;
  focus_sessions_evolution : indicator;
  focus_conversions : Z;
  focus_conversions_evolution : indicator;
  focus_engagement_rate : Q;
  focus_engagement_evolution : indicator;
}.

(** The rendered report: the fixed "no data" page, or the page whose
    computed parts are the executive summary and the two focus sections
    (an absent section is the empty string in the source). *)
Inductive document : Type :=
| NoData
| Page (s : summary) (email_section social_section : option focus_section).

(** The body of [if data.get("email_focus"):] and of its social twin. *)
Definition render_focus (focus : ChannelMetric)
    (previous : option (gmap string pyval)) : res focus_section :=
  let current := channel_dict focus in
  evo_sessions ← get_focus_evolution current previous "sessions";
  evo_conversions ← get_focus_evolution current previous "conversions";
  evo_engagement ← get_focus_evolution current previous "engagement_rate";
  Ok {| focus_sessions := sessions focus;
        focus_sessions_evolution := format_evolution evo_sessions;
        focus_conversions := conversions focus;
        focus_conversions_evolution := format_evolution evo_conversions;
        focus_engagement_rate := engagement_rate focus;
        focus_engagement_evolution := format_evolution evo_engagement |}.

Definition render_focus_slot (slot : option ChannelMetric)
    (previous : option (gmap string pyval)) : res (option focus_section) :=
  match slot with
  | Some focus => s ← render_focus focus previous; Ok (Some s)
  | None => Ok None
  end.

Definition generate_html_report (data prev_data : processed) : res document :=
  match data with
  | None => Ok NoData
  | Some d =>
      match channels d with
      | [] => Ok NoData
      | _ :: _ =>
          let prev_email := (λ p, focus_dict (email_focus p)) <$> prev_data in
          let prev_social := (λ p, focus_dict (social_focus p)) <$> prev_data in
          email_section ← render_focus_slot (email_focus d) prev_email;
          social_section ← render_focus_slot (social_focus d) prev_social;
          Ok (Page
                {| summary_sessions := total_sessions d;
                   summary_sessions_evolution :=
                     format_evolution_inline (total_evolution total_sessions d prev_data);
                   summary_conversions := total_conversions d;
                   summary_conversions_evolution :=
                     format_evolution_inline (total_evolution total_conversions d prev_data);
                   top_channel := head (channels d) |}
                email_section social_section)
      end
  end.

End Report.

(** ** [markdown_to_html] *)

Module Markdown.

(** *** [re.sub(r'\*\*(.+?)\*\*', r'<strong>\1</strong>', html)] *)

(** After an opening [**]: the lazy group [(.+?)] takes one character that
    is not a newline, then as few more as needed to stand before a closing
    [**].  The result is the group and the number of characters the group
    and the closing marker take. *)
Fixpoint lazy_group (s : string) : option (string * nat) :=
  match s with
  | EmptyString => None
  | String c s' =>
      if Ascii.eqb c newline then None
      else if startswith "**" s' then Some (String c EmptyString, 3%nat)
      else match lazy_group s' with
           | Some (g, n) => Some (String c g, S n)
           | None => None
           end
  end.

(** A match of the whole pattern at the start of [s]: the group and the
    length of the match. *)
Definition match_bold (s : string) : option (string * nat) :=
  if startswith "**" s then
    match lazy_group (drop 2 s) with
    | Some (g, n) => Some (g, (2 + n)%nat)
    | None => None
    end
  else None.

(** Leftmost, non-overlapping replacement.  [skip] counts the characters of
    the current match that are still to be passed over. *)
Fixpoint sub_bold_from (skip : nat) (s : string) : string :=
  match s with
  | EmptyString => EmptyString
  | String c s' =>
      match skip with
      | S k => sub_bold_from k s'
      | O =>
          match match_bold s with
          | Some (g, n) =>
              "<strong>" ++ g ++ "</strong>" ++ sub_bold_from (n - 1) s'
          | None => String c (sub_bold_from 0 s')
          end
      end
  end.

Definition sub_bold (s : string) : string := sub_bold_from 0 s.

(** *** The line loop *)

(** The entries appended to [converted_lines]. *)
Inductive element : Type :=
| H4 (content : string)
| H3 (content : string)
| UlOpen
| Li (content : string)
| UlClose
| P (line : string)
| Br.

Definition dq : string := String (ascii_of_nat 34) EmptyString.

(** The text of each entry, as the f-strings of the source build it. *)
Definition element_html (e : element) : string :=
  match e with
  | H4 content =>
      "<h4 style=" ++ dq
        ++ "color: #2ea3f2; margin: 15px 0 10px 0; font-weight: 600;"
        ++ dq ++ ">" ++ content ++ "</h4>"
  | H3 content =>
      "<h3 style=" ++ dq
        ++ "color: #1d1973; margin: 15px 0 10px 0; font-weight: 600;"
        ++ dq ++ ">" ++ content ++ "</h3>"
  | UlOpen =>
      "<ul style=" ++ dq ++ "margin: 10px 0; padding-left: 20px;" ++ dq ++ ">"
  | Li content =>
      "<li style=" ++ dq ++ "margin: 5px 0;" ++ dq ++ ">" ++ content ++ "</li>"
  | UlClose => "</ul>"
  | P line =>
      "<p style=" ++ dq ++ "margin: 10px 0;" ++ dq ++ ">" ++ line ++ "</p>"
  | Br => "<br/>"
  end.

(** [if in_list: converted_lines.append('</ul>')] *)
Definition close_list (in_list : bool) : list element :=
  if in_list then [UlClose] else [].

(** One iteration of [for line in lines]: the entries it appends and the
    new value of [in_list]. *)
Definition line_step (in_list : bool) (line : string) : list element * bool :=
  let stripped := strip line in
  if startswith "### " stripped then
    (close_list in_list ++ [H4 (drop 4 stripped)], false)%list
  else if startswith "## " stripped then
    (close_list in_list ++ [H3 (drop 3 stripped)], false)%list
  else if startswith "* " stripped || startswith "- " stripped then
    ((if in_list then [] else [UlOpen]) ++ [Li (drop 2 stripped)], true)%list
  else
    (close_list in_list
       ++ [if bool_decide (stripped = EmptyString) then Br else P line],
     false)%list.

(** The loop, followed by the closing of a list that is still open. *)
Fixpoint convert_lines (in_list : bool) (lines : list string) : list element :=
  match lines with
  | [] => close_list in_list
  | line :: lines' =>
      let '(out, in_list') := line_step in_list line in
      (out ++ convert_lines in_list' lines')%list
  end.

Definition markdown_elements (markdown_text : string) : list element :=
  convert_lines false (split_lines (sub_bold markdown_text)).

Definition markdown_to_html (markdown_text : string) : string :=
  if bool_decide (markdown_text = EmptyString) then EmptyString
  else join_lines (element_html <$> markdown_elements markdown_text).

End Markdown.

(** ** [run_monthly_analysis] and the functions that call collaborators *)

Module Job.
Import Ga4.

Definition RECIPIENTS : list string :=
  ["mjacobson@avisia.fr"; "mnunez@avisia.fr"; "adejullien@avisia.fr";
   "btran@avisia.fr"; "gbertin@avisia.fr"].

(** The payload of [GA4MCPClient.run_report]. *)
Record query : Type := Query {
  start_date : string;
  end_date : string;
  dimensions : list string;
  metrics : list string;
}.

Definition channel_metrics : list string :=
  ["sessions"; "conversions"; "totalRevenue"; "engagementRate";
   "averageSessionDuration"].

(** The document [save_to_cloud_storage] uploads (the property identifier
    and the generation time are left out). *)
Record stored_report : Type := {
  stored_period_start : string;
  stored_period_end : string;
  stored_total_sessions : Z;
  stored_total_conversions : Z;
  stored_total_revenue : Q;
  stored_channels : list ChannelMetric;
  stored_email_focus : option ChannelMetric;
  stored_social_focus : option ChannelMetric;
  stored_ai_insights : string;
}.

(** The arguments [run_monthly_analysis] passes to [generate_html_report]. *)
Record render_request : Type := {
  req_data : processed;
  req_period_start : string;
  req_period_end : string;
  req_evolution_rates : gmap string Q;
  req_recipient : string;
  req_prev_period_start : string;
  req_prev_period_end : string;
  req_prev_data : processed;
  req_campaign_data : list CampaignRow;
}.

(** Calls that leave the process, and the warnings and errors written to
    the log (informational messages are left out, and so is the text of
    the exception a message quotes).  An event marks the attempt: it is
    recorded when the wrapper enters its [try], before the client of the
    service is built, so an attempt that fails before anything is sent is
    an event followed by its log entries. *)
Inductive event : Type :=
| AnalyticsQuery (q : query)
| NarrativeRequest (prompt : string)
| StorageWrite (blob_name : string) (doc : stored_report)
| MailSend (to subject body : string)
| LogWarning (msg : string)
| LogError (msg : string).

(** The collaborators of one run, and the text builders whose output is
    not modelled: the prompt [insights_prompt], the renderer
    [generate_html_report] taken as a whole (it may raise), and the
    [str.replace] that splices the narrative block into the page. *)
Record world : Type := {
  http_post : query → res api_result;
  generate_content : string → res string;
  upload_from_string : string → stored_report → res unit;
  gmail_send : string → string → string → res string;
  insights_prompt : Snapshot → gmap string Q → string;
  render_html : render_request → res string;
  splice_insights : string → string → string;
}.

(** A computation appends to the trace of events and returns or raises. *)
Definition M (A : Type) : Type := list event → res A * list event.

#[global] Instance M_ret : MRet M := λ A a t, (Ok a, t).

#[global] Instance M_bind : MBind M := λ A B k m t,
  match m t with
  | (Ok a, t') => k a t'
  | (Raise e, t') => (Raise e, t')
  end.

Definition emit (e : event) : M unit := λ t, (Ok tt, (t ++ [e])%list).

Definition lift {A} (r : res A) : M A := λ t, (r, t).

Definition raise {A} (e : exn) : M A := λ t, (Raise e, t).

(** [try: body except Exception as e: handler(e)] *)
Definition try_except {A} (body : M A) (handler : exn → M A) : M A := λ t,
  match body t with
  | (Ok a, t') => (Ok a, t')
  | (Raise e, t') => handler e t'
  end.

Definition run {A} (m : M A) : res A * list event := m [].

Inductive send_result : Type :=
| Sent (message_id : string)
| NotSent.

Record job_result : Type := {
  status : string;
  period : string;
  result_total_sessions : Z;
  recipients : list string;
}.

Section job.
Context `{Numerals}.
Context (w : world).
(** The four dates derived from [datetime.now()]. *)
Context (period_start period_end prev_period_start prev_period_end : string).

(** [GA4MCPClient.run_report] *)
Definition run_report (q : query) : M raw_data :=
  try_except
    (_ ← emit (AnalyticsQuery q);
     result ← lift (http_post w q);
     mret (convert_result result))
    (λ e, _ ← emit (LogError "Failed to fetch GA4 data"); raise e).

Definition blob_name (period_start period_end : string) : string :=
  "analytics_reports/report_" ++ period_start ++ "_to_" ++ period_end ++ ".json".

Definition save_to_cloud_storage (data : Snapshot)
    (period_start period_end insights : string) : M bool :=
  try_except
    (let report_data :=
       {| stored_period_start := period_start;
          stored_period_end := period_end;
          stored_total_sessions := total_sessions data;
          stored_total_conversions := total_conversions data;
          stored_total_revenue := total_revenue data;
          stored_channels := channels data;
          stored_email_focus := email_focus data;
          stored_social_focus := social_focus data;
          stored_ai_insights := insights |} in
     let blob_name := blob_name period_start period_end in
     _ ← emit (StorageWrite blob_name report_data);
     _ ← lift (upload_from_string w blob_name report_data);
     mret true)
    (λ e, _ ← emit (LogError "Failed to save to Cloud Storage"); mret false).

Definition generate_insights_with_gemini (prompt : string) : M string :=
  try_except
    (_ ← emit (NarrativeRequest prompt);
     lift (generate_content w prompt))
    (λ e, _ ← emit (LogWarning "Failed to generate Gemini insights");
          mret "AI insights generation unavailable. Please review the data manually.").

Definition send_email_simple (to subject body : string) : M send_result :=
  try_except
    (try_except
       (_ ← emit (MailSend to subject body);
        message_id ← lift (gmail_send w to subject body);
        mret (Sent message_id))
       (λ gmail_error,
          _ ← emit (LogError "Gmail API error");
          _ ← emit (LogWarning ("Email to " ++ to ++ " could not be sent"));
          mret NotSent))
    (λ e, _ ← emit (LogError ("Error sending email to " ++ to)); raise e).

Definition current_query : query :=
  Query period_start period_end ["sessionDefaultChannelGroup"] channel_metrics.

Definition campaign_query : query :=
  Query period_start period_end ["sessionCampaignName"] ["sessions"].

Definition previous_query : query :=
  Query prev_period_start prev_period_end ["sessionDefaultChannelGroup"]
        channel_metrics.

Definition subject : string :=
  "Monthly Analytics Report - " ++ period_start ++ " au " ++ period_end.

(** The arguments of the call to [generate_html_report] for one
    recipient. *)
Definition report_request (processed_data prev_processed_data : processed)
    (evolution_rates : gmap string Q) (campaign_data : list CampaignRow)
    (recipient : string) : render_request :=
  {| req_data := processed_data;
     req_period_start := period_start;
     req_period_end := period_end;
     req_evolution_rates := evolution_rates;
     req_recipient := recipient;
     req_prev_period_start := prev_period_start;
     req_prev_period_end := prev_period_end;
     req_prev_data := prev_processed_data;
     req_campaign_data := campaign_data |}.

(** The body of [for recipient in RECIPIENTS], with its [try]. *)
Definition deliver_one (processed_data prev_processed_data : processed)
    (evolution_rates : gmap string Q) (campaign_data : list CampaignRow)
    (insights_html recipient : string) : M unit :=
  try_except
    (html_report ← lift (render_html w
       (report_request processed_data prev_processed_data evolution_rates
          campaign_data recipient));
     let email_body := splice_insights w html_report insights_html in
     result ← send_email_simple recipient subject email_body;
     mret tt)
    (λ e, emit (LogError ("Failed to process email for " ++ recipient))).

Fixpoint deliver (processed_data prev_processed_data : processed)
    (evolution_rates : gmap string Q) (campaign_data : list CampaignRow)
    (insights_html : string) (rs : list string) : M unit :=
  match rs with
  | [] => mret tt
  | recipient :: rs' =>
      _ ← deliver_one processed_data prev_processed_data evolution_rates
            campaign_data insights_html recipient;
      deliver processed_data prev_processed_data evolution_rates
        campaign_data insights_html rs'
  end.

(** [None] is the bare [return] of the "No data to report" exit. *)
Definition run_monthly_analysis : M (option job_result) :=
  try_except
    (raw_data ← run_report current_query;
     processed_data ← lift (process_ga4_response raw_data);
     match processed_data with
     | None => _ ← emit (LogWarning "No data to report"); mret None
     | Some data =>
         match channels data with
         | [] => _ ← emit (LogWarning "No data to report"); mret None
         | _ :: _ =>
             campaign_raw ← run_report campaign_query;
             campaign_data ← lift (process_campaign_response campaign_raw);
             prev_raw_data ← run_report previous_query;
             prev_processed_data ← lift (process_ga4_response prev_raw_data);
             let evolution_rates :=
               calculate_evolution_rates processed_data prev_processed_data in
             insights ← generate_insights_with_gemini
                          (insights_prompt w data evolution_rates);
             save_success ← save_to_cloud_storage data period_start period_end
                              insights;
             _ ← (if save_success : bool then mret tt
                  else emit (LogWarning
                               "Failed to save analytics data to Cloud Storage"));
             let insights_html := Markdown.markdown_to_html insights in
             _ ← deliver processed_data prev_processed_data evolution_rates
                   campaign_data insights_html RECIPIENTS;
             mret (Some {| status := "success";
                           period := period_start ++ " to " ++ period_end;
                           result_total_sessions := total_sessions data;
                           recipients := RECIPIENTS |})
         end
     end)
    (λ e, _ ← emit (LogError "Error in monthly analysis"); raise e).

End job.

End Job.

(** ** A decimal reading of numerals

    The instance used to run the model on examples: an optional sign and
    ASCII digits, with an optional fractional part for [float].  Python
    accepts more (underscores, exponents, other digits); the general
    results below do not depend on this instance. *)

Module Decimal.

Definition digit (c : ascii) : option Z :=
  let n := nat_of_ascii c in
  if (48 <=? n)%nat && (n <=? 57)%nat then Some (Z.of_nat n - 48) else None.

Fixpoint digits (acc : Z) (s : string) : option Z :=
  match s with
  | EmptyString => Some acc
  | String c s' =>
      match digit c with
      | Some d => digits (10 * acc + d) s'
      | None => None
      end
  end.

Definition natural (s : string) : option Z :=
  match s with
  | EmptyString => None
  | _ => digits 0 s
  end.

Definition signed {A} (read : string → option A) (neg : A → A) (s : string)
    : option A :=
  match strip s with
  | String "-" s' => neg <$> read s'
  | String "+" s' => read s'
  | s' => read s'
  end.

Definition parse_int : string → option Z := signed natural Z.opp.

(** The text before and after the first point. *)
Fixpoint split_point (s : string) : string * option string :=
  match s with
  | EmptyString => (EmptyString, None)
  | String c s' =>
      if Ascii.eqb c "." then (EmptyString, Some s')
      else let '(i, f) := split_point s' in (String c i, f)
  end.

Definition unsigned_decimal (s : string) : option Q :=
  let '(i, f) := split_point s in
  match natural i, f with
  | Some n, None => Some (inject_Z n)
  | Some n, Some fs =>
      match digits 0 fs with
      | Some m =>
          Some (inject_Z n + inject_Z m / inject_Z (10 ^ Z.of_nat (String.length fs)))%Q
      | None => None
      end
  | None, _ => None
  end.

Definition parse_float : string → option Q := signed unsigned_decimal Qopp.

#[global] Instance numerals : Numerals :=
  {| int_of_str := parse_int; float_of_str := parse_float |}.

End Decimal.

(** ** Vocabulary of the statements *)

(** The entry a dict built by successive assignments retains for the key
    [k]: the last one of the list. *)
Definition last_entry {A K} `{EqDecision K} (key : A → K) (k : K) (l : list A)
    : option A :=
  last (filter (λ x, key x = k) l).

(** The cell of the time-series table for a date and a channel:
    [data_by_date_channel.get(d, {}).get(c)]. *)
Definition ts_cell (st : Ga4.ts_state) (d c : string) : option Z :=
  Ga4.data_by_date_channel st !! d ≫= (.!! c).

(** Non-increasing keys, between every two positions. *)
Definition descending {A} (key : A → Z) : list A → Prop :=
  StronglySorted (λ a b, key b ≤ key a).

(** ** Data for the examples *)

Module Examples.
Import Ga4.

(** A [channel_data] with the given label and sessions, zero elsewhere. *)
Definition entry (label : string) (s : Z) : ChannelMetric :=
  {| channel := label; sessions := s; conversions := 0; revenue := 0%Q;
     engagement_rate := 0%Q; avg_session_duration := 0%Q |}.

(** A [processed_data] with the given channel list and totals. *)
Definition snapshot (chs : list ChannelMetric) (ts tc : Z) : Snapshot :=
  {| channels := chs; total_sessions := ts; total_conversions := tc;
     total_revenue := 0%Q; email_focus := None; social_focus := None |}.

(** A converted row with the given dimension and metric values. *)
Definition row_of (dims mets : list string) : row :=
  Row (Some (Some <$> dims)) (Some (Some <$> mets)).

Definition current_month : processed :=
  Some (snapshot [entry "Email" 75; entry "Referral" 5; entry "Display" 0] 80 0).

Definition previous_month : processed :=
  Some (snapshot [entry "Email" 50; entry "Direct" 9; entry "Display" 0] 59 0).

End Examples.

Module ExampleRows.
Import Ga4 Examples.

(** Channel rows with three labels that contain "email" and three that
    contain "social" or "facebook". *)
Definition spotlight_rows : list row :=
  [row_of ["Email"] ["10"]; row_of ["Organic Social"] ["7"];
   row_of ["Email Newsletter"] ["3"]; row_of ["Facebook"] ["2"];
   row_of ["Social email"] ["1"]].

Definition spotlight_channels : list ChannelMetric :=
  [entry "Email" 10; entry "Organic Social" 7; entry "Email Newsletter" 3;
   entry "Facebook" 2; entry "Social email" 1].

(** Campaign rows: placeholders in several cases, a repeated name, a tie,
    and a placeholder whose session count is not a numeral. *)
Definition campaign_rows : list row :=
  [row_of ["Spring Sale"] ["5"]; row_of ["(Not Set)"] ["oops"];
   row_of ["Newsletter"] ["5"]; row_of ["UNKNOWN"] ["8"];
   row_of ["Spring Sale"] ["3"]; row_of [""] []; row_of ["Brand"] ["9"]].

Definition campaign_entries : list CampaignRow :=
  [{| campaign := "Spring Sale"; campaign_sessions := 5 |};
   {| campaign := "(Not Set)"; campaign_sessions := 0 |};
   {| campaign := "Newsletter"; campaign_sessions := 5 |};
   {| campaign := "UNKNOWN"; campaign_sessions := 8 |};
   {| campaign := "Spring Sale"; campaign_sessions := 3 |};
   {| campaign := ""; campaign_sessions := 0 |};
   {| campaign := "Brand"; campaign_sessions := 9 |}].

End ExampleRows.

Module ExampleSeries.
Import Ga4 Examples.

(** Two dated rows out of date order, a row with one dimension value and a
    session count that is no numeral, and a row without any key. *)
Definition ts_rows : list row :=
  [row_of ["2025-01-02"; "Organic"] ["0"]; row_of ["2025-01-01"] ["n/a"];
   row_of ["2025-01-01"; "Email"] ["10"]; Row None None].

Definition ts_readings : list (option (string * string * Z)) :=
  [Some ("2025-01-02", "Organic", 0); None;
   Some ("2025-01-01", "Email", 10); None].

End ExampleSeries.

(** The narrative formatter as the specification words it: a line is
    classified by the first pattern of a fixed list that its stripped text
    starts with, and falls back to a paragraph or, when blank, a break. *)
Module LineClassifier.
Import Markdown.

Inductive line_kind : Type :=
| SubHeading
| Heading
| Bullet
| Paragraph
| Break.

#[global] Instance line_kind_eq_dec : EqDecision line_kind.
Proof. solve_decision. Defined.

Definition patterns : list (string * line_kind) :=
  [("### ", SubHeading); ("## ", Heading); ("* ", Bullet); ("- ", Bullet)].

Definition classify (line : string) : line_kind :=
  match list_find (λ p, startswith p.1 (strip line)) patterns with
  | Some (_, (_, kind)) => kind
  | None => if bool_decide (strip line = EmptyString) then Break else Paragraph
  end.

(** The entry a line contributes, apart from the list brackets. *)
Definition line_element (line : string) : element :=
  match classify line with
  | SubHeading => H4 (drop 4 (strip line))
  | Heading => H3 (drop 3 (strip line))
  | Bullet => Li (drop 2 (strip line))
  | Paragraph => P line
  | Break => Br
  end.

Definition is_bullet (line : string) : bool :=
  bool_decide (classify line = Bullet).

End LineClassifier.

Module ExampleNarrative.

Definition nl : string := String newline EmptyString.

(** ["### Title\n* a\n* b\n"] *)
Definition titled_list : string :=
  "### Title" ++ nl ++ "* a" ++ nl ++ "* b" ++ nl.

(** Two runs of bullets around a paragraph, with a bold span and a line
    that looks like a heading only before it is stripped. *)
Definition two_lists : list string :=
  ["Intro"; "- one"; "* <strong>two</strong>"; "  ## Middle"; "* three"].

End ExampleNarrative.

(** The brackets of a list, as opposed to the entry of a line. *)
Definition is_bracket (e : Markdown.element) : bool :=
  match e with
  | Markdown.UlOpen | Markdown.UlClose => true
  | _ => false
  end.

(** The recipients of the mails a trace attempts, in order. *)
Definition mail_recipients (t : list Job.event) : list string :=
  omap (λ e, match e with Job.MailSend to _ _ => Some to | _ => None end) t.

(** The events that reach a collaborator other than the analytics source. *)
Definition is_side_effect (e : Job.event) : bool :=
  match e with
  | Job.NarrativeRequest _ | Job.StorageWrite _ _ | Job.MailSend _ _ _ => true
  | _ => false
  end.

Definition is_ok {A} (r : res A) : bool :=
  match r with
  | Ok _ => true
  | Raise _ => false
  end.

(** A run whose analytics source answers every query without rows. *)
Module ExampleWorlds.
Import Ga4 Job.

Definition no_text : string := EmptyString.

Definition quiet_month : world :=
  {| http_post := λ _, Ok (ApiResult (Some []));
     generate_content := λ _, Ok no_text;
     upload_from_string := λ _ _, Ok tt;
     gmail_send := λ _ _ _, Ok no_text;
     insights_prompt := λ _ _, no_text;
     render_html := λ _, Ok no_text;
     splice_insights := λ html _, html |}.

(** A run with one channel row, whose narrative and storage services are
    down, whose renderer fails for the second recipient and whose mail
    service refuses the first. *)
Definition rough_month : world :=
  {| http_post := λ _, Ok (ApiResult (Some [ApiRow (Some ["Email"]) (Some ["12"])]));
     generate_content := λ _, Raise (ExternalError "narrative");
     upload_from_string := λ _ _, Raise (ExternalError "storage");
     gmail_send := λ to _ _,
       if String.eqb to "mjacobson@avisia.fr" then Raise (ExternalError "mail")
       else Ok no_text;
     insights_prompt := λ _ _, no_text;
     render_html := λ req,
       if String.eqb (req_recipient req) "mnunez@avisia.fr"
       then Raise TypeError else Ok no_text;
     splice_insights := λ html _, html |}.

(** What the aggregators make of the one row of [rough_month]. *)
Definition rough_snapshot : Snapshot :=
  {| channels := [Examples.entry "Email" 12];
     total_sessions := 12; total_conversions := 0; total_revenue := (0 + 0)%Q;
     email_focus := Some (Examples.entry "Email" 12);
     social_focus := None |}.

Definition rough_campaigns : list CampaignRow :=
  [{| campaign := "Email"; campaign_sessions := 12 |}].

End ExampleWorlds.

(** What the delivery loop does for one recipient, as a function of that
    recipient alone: a logged failure when the page cannot be rendered,
    else one mail, followed by the two log entries of a refused mail. *)
Definition recipient_events (w : Job.world) (subject : string)
    (request : string → Job.render_request) (insights_html : string)
    (recipient : string) : list Job.event :=
  match Job.render_html w (request recipient) with
  | Raise _ => [Job.LogError ("Failed to process email for " ++ recipient)]
  | Ok html_report =>
      let email_body := Job.splice_insights w html_report insights_html in
      Job.MailSend recipient subject email_body
      :: match Job.gmail_send w recipient subject email_body with
         | Ok _ => []
         | Raise _ =>
             [Job.LogError "Gmail API error";
              Job.LogWarning ("Email to " ++ recipient ++ " could not be sent")]
         end
  end.

(** ** More of [generate_html_report]: the channel table and the campaign
    table *)

Module ReportTables.
Import Ga4 Report.

(** [next((ch for ch in channels if ch['channel'] == channel_name), None)] *)
Definition find_channel (channel_name : string) (chs : list ChannelMetric)
    : option ChannelMetric :=
  snd <$> list_find (λ ch, channel ch = channel_name) chs.

(** The helper of the channel table.  A [channel_data] is never an empty
    dict, so [not current_ch] and [not prev_ch] test for [None]. *)
Definition get_channel_metric_evolution (channel_name metric_name : string)
    (current_channels prev_channels : list ChannelMetric) : res Q :=
  match prev_channels with
  | [] => Ok 0%Q
  | _ :: _ =>
      match find_channel channel_name current_channels,
            find_channel channel_name prev_channels with
      | Some current_ch, Some prev_ch =>
          let curr_val :=
            default (PInt 0) (channel_dict current_ch !! metric_name) in
          let prev_val :=
            default (PInt 0) (channel_dict prev_ch !! metric_name) in
          if is_zero prev_val then
            b ← is_positive curr_val;
            Ok (if b : bool then 100%Q else 0%Q)
          else ratio curr_val prev_val
      | _, _ => Ok 0%Q
      end
  end.

(** One [<tr>] of the channel table. *)
Record channel_row : Type := {
  row_channel : string;
  row_sessions : Z;
  row_sessions_evolution : indicator;
  row_conversions : Z;
  row_conversions_evolution : indicator;
  row_engagement_rate : Q;
  row_engagement_evolution : indicator;
}.

(** The body of [for ch in data["channels"]]. *)
Definition render_channel_row (current_channels prev_channels : list ChannelMetric)
    (ch : ChannelMetric) : res channel_row :=
  let channel_name := channel ch in
  sessions_evo ← get_channel_metric_evolution channel_name "sessions"
                   current_channels prev_channels;
  conversions_evo ← get_channel_metric_evolution channel_name "conversions"
                      current_channels prev_channels;
  engagement_evo ← get_channel_metric_evolution channel_name "engagement_rate"
                     current_channels prev_channels;
  Ok {| row_channel := channel ch;
        row_sessions := sessions ch;
        row_sessions_evolution := format_evolution_inline sessions_evo;
        row_conversions := conversions ch;
        row_conversions_evolution := format_evolution_inline conversions_evo;
        row_engagement_rate := engagement_rate ch;
        row_engagement_evolution := format_evolution_inline engagement_evo |}.

(** [channel_rows], for a snapshot that has channels;
    [prev_channels = prev_data.get("channels", []) if prev_data else []]. *)
Definition channel_rows (data : Snapshot) (prev_data : processed)
    : res (list channel_row) :=
  let prev_channels := channels_of prev_data in
  mapM (render_channel_row (channels data) prev_channels) (channels data).

(** One [<tr>] of the campaign table: rank, name, sessions. *)
Record campaign_line : Type := {
  line_rank : nat;
  line_campaign : string;
  line_sessions : Z;
}.

(** [enumerate(campaign_data[:10], 1)] *)
Definition campaign_lines (campaign_data : list CampaignRow)
    : list campaign_line :=
  imap (λ i c, {| line_rank := S i; line_campaign := campaign c;
                  line_sessions := campaign_sessions c |})
       (take 10 campaign_data).

(** [campaign_table_html]: [None] is the empty string, which the page
    replaces by the notice that no campaign data is available. *)
Definition campaign_table (campaign_data : list CampaignRow)
    : option (list campaign_line) :=
  match campaign_data with
  | [] => None
  | _ :: _ => Some (campaign_lines campaign_data)
  end.

End ReportTables.

(** ** The reporting periods of [run_monthly_analysis]

    The job derives its four dates from [datetime.now()] with
    [replace(day=1)] and [- timedelta(days=1)], and prints them with
    [strftime("%Y-%m-%d")].  Only the date part of a [datetime] matters
    here. *)

Module Calendar.

Record date : Type := Date {
  year : Z;
  month : Z;
  day : Z;
}.

Definition is_leap (y : Z) : bool :=
  (y mod 4 =? 0) && (negb (y mod 100 =? 0) || (y mod 400 =? 0)).

Definition days_in_month (y m : Z) : Z :=
  if m =? 2 then (if is_leap y then 29 else 28)
  else if (m =? 4) || (m =? 6) || (m =? 9) || (m =? 11) then 30
  else 31.

(** The dates a [datetime] can hold ([MINYEAR] is 1, [MAXYEAR] 9999). *)
Definition valid (d : date) : Prop :=
  1 ≤ year d ≤ 9999 ∧ 1 ≤ month d ≤ 12
  ∧ 1 ≤ day d ≤ days_in_month (year d) (month d).

(** [d.replace(day=1)] *)
Definition first_of_month (d : date) : date := Date (year d) (month d) 1.

(** [d - timedelta(days=1)]; [None] is the [OverflowError] raised before
    the first day of year 1. *)
Definition minus_one_day (d : date) : option date :=
  if 1 <? day d then Some (Date (year d) (month d) (day d - 1))
  else if 1 <? month d then
    Some (Date (year d) (month d - 1) (days_in_month (year d) (month d - 1)))
  else if 1 <? year d then Some (Date (year d - 1) 12 31)
  else None.

(** The first and last day of the month before the month of [d]:
    [last = d.replace(day=1) - timedelta(days=1)],
    [first = last.replace(day=1)]. *)
Definition month_before (d : date) : option (date * date) :=
  last_day ← minus_one_day (first_of_month d);
  Some (first_of_month last_day, last_day).

(** The reporting period of a run started on [today], and the period it is
    compared with. *)
Definition periods (today : date) : option ((date * date) * (date * date)) :=
  '(first_day_of_prev_month, last_day_of_prev_month) ← month_before today;
  '(first_day_of_two_months_ago, last_day_of_two_months_ago) ←
    month_before first_day_of_prev_month;
  Some ((first_day_of_prev_month, last_day_of_prev_month),
        (first_day_of_two_months_ago, last_day_of_two_months_ago)).

Definition digit_char (n : Z) : ascii := ascii_of_nat (48 + Z.to_nat n).

Definition two_digits (n : Z) : string :=
  String (digit_char (n / 10)) (String (digit_char (n mod 10)) EmptyString).

Definition four_digits (n : Z) : string :=
  two_digits (n / 100) ++ two_digits (n mod 100).

(** [d.strftime("%Y-%m-%d")], for a year of four digits. *)
Definition strftime (d : date) : string :=
  four_digits (year d) ++ "-" ++ two_digits (month d) ++ "-"
    ++ two_digits (day d).

(** The day after, used to state that periods are adjacent. *)
Definition plus_one_day (d : date) : date :=
  if day d <? days_in_month (year d) (month d) then
    Date (year d) (month d) (day d + 1)
  else if month d <? 12 then Date (year d) (month d + 1) 1
  else Date (year d + 1) 1 1.

End Calendar.

(** ** The HTTP front door ([main.py]) *)

Module Http.
Import Job.

(** The JSON body of a response. *)
Inductive body : Type :=
| Healthy
| Succeeded (result : option job_result)
| Failed (e : exn).

Record response : Type := {
  response_body : body;
  status_code : Z;
}.

(** [health_check] *)
Definition health_check : response :=
  {| response_body := Healthy; status_code := 200 |}.

Section endpoints.
Context `{Numerals}.
Context (w : world).
Context (period_start period_end prev_period_start prev_period_end : string).

(** [run_analysis], the [/run] endpoint. *)
Definition run_analysis : M response :=
  try_except
    (result ← run_monthly_analysis w period_start period_end
                prev_period_start prev_period_end;
     mret {| response_body := Succeeded result; status_code := 200 |})
    (λ e, _ ← emit (LogError "Error running analysis");
          mret {| response_body := Failed e; status_code := 500 |}).

(** [test_endpoint], the [/test] endpoint. *)
Definition test_endpoint : M response :=
  try_except
    (result ← run_monthly_analysis w period_start period_end
                prev_period_start prev_period_end;
     mret {| response_body := Succeeded result; status_code := 200 |})
    (λ e, _ ← emit (LogError "Error in test endpoint");
          mret {| response_body := Failed e; status_code := 500 |}).

End endpoints.

End Http.

(** The collaborator a call goes to; a log entry goes to none. *)
Inductive call : Type :=
| ToAnalytics
| ToNarrative
| ToStorage
| ToMail.

Definition call_of (e : Job.event) : option call :=
  match e with
  | Job.AnalyticsQuery _ => Some ToAnalytics
  | Job.NarrativeRequest _ => Some ToNarrative
  | Job.StorageWrite _ _ => Some ToStorage
  | Job.MailSend _ _ _ => Some ToMail
  | Job.LogWarning _ | Job.LogError _ => None
  end.

(** The sum of a list of integers. *)
Definition sum_Z (l : list Z) : Z := foldr Z.add 0 l.

(** A list of entries is well bracketed when list items stand between an
    opening and a closing bracket, everything else stands outside, and no
    list is left open or opened twice. *)
Fixpoint well_bracketed (in_list : bool) (es : list Markdown.element) : bool :=
  match es with
  | [] => negb in_list
  | Markdown.UlOpen :: es' => negb in_list && well_bracketed true es'
  | Markdown.UlClose :: es' => in_list && well_bracketed false es'
  | Markdown.Li _ :: es' => in_list && well_bracketed true es'
  | _ :: es' => negb in_list && well_bracketed false es'
  end.

(** The number of line ends of a text. *)
Fixpoint count_newlines (s : string) : nat :=
  match s with
  | EmptyString => 0
  | String c s' =>
      (if Ascii.eqb c newline then 1 else 0) + count_newlines s'
  end.

Module ExampleCampaigns.
Import Ga4 Examples.

(** Twelve campaigns, two more than the table shows, with a tie. *)
Definition twelve_rows : list row :=
  [row_of ["c01"] ["4"]; row_of ["c02"] ["12"]; row_of ["c03"] ["7"];
   row_of ["c04"] ["1"]; row_of ["c05"] ["9"]; row_of ["c06"] ["7"];
   row_of ["c07"] ["3"]; row_of ["c08"] ["11"]; row_of ["c09"] ["2"];
   row_of ["c10"] ["8"]; row_of ["c11"] ["6"]; row_of ["c12"] ["5"]].

End ExampleCampaigns.

(** What [generate_insights_with_gemini] returns for a prompt: the text of
    the narrative service, or the fixed sentence of its handler. *)
Definition narrative_of (w : Job.world) (prompt : string) : string :=
  match Job.generate_content w prompt with
  | Ok text => text
  | Raise _ =>
      "AI insights generation unavailable. Please review the data manually."
  end.

(** The document [save_to_cloud_storage] builds from a snapshot. *)
Definition stored_document (data : Ga4.Snapshot)
    (period_start period_end insights : string) : Job.stored_report :=
  {| Job.stored_period_start := period_start;
     Job.stored_period_end := period_end;
     Job.stored_total_sessions := Ga4.total_sessions data;
     Job.stored_total_conversions := Ga4.total_conversions data;
     Job.stored_total_revenue := Ga4.total_revenue data;
     Job.stored_channels := Ga4.channels data;
     Job.stored_email_focus := Ga4.email_focus data;
     Job.stored_social_focus := Ga4.social_focus data;
     Job.stored_ai_insights := insights |}.

(** The bodies of the mails a trace attempts, in order. *)
Definition mail_bodies (t : list Job.event) : list string :=
  omap (λ e, match e with Job.MailSend _ _ b => Some b | _ => None end) t.

(** The documents a trace writes to storage, with their names. *)
Definition storage_writes (t : list Job.event)
    : list (string * Job.stored_report) :=
  omap (λ e, match e with
             | Job.StorageWrite n d => Some (n, d)
             | _ => None
             end) t.

Module ExampleFailures.
Import Ga4 Job.

(** A run whose analytics source answers the channel queries and fails on
    the campaign query. *)
Definition no_campaigns : world :=
  {| http_post := λ q,
       if bool_decide (dimensions q = ["sessionCampaignName"])
       then Raise (ExternalError "analytics")
       else Ok (ApiResult (Some [ApiRow (Some ["Email"]) (Some ["12"])]));
     generate_content := λ _, Ok ExampleWorlds.no_text;
     upload_from_string := λ _ _, Ok tt;
     gmail_send := λ _ _ _, Ok ExampleWorlds.no_text;
     insights_prompt := λ _ _, ExampleWorlds.no_text;
     render_html := λ _, Ok ExampleWorlds.no_text;
     splice_insights := λ html _, html |}.

End ExampleFailures.

Module ExampleTotals.
Import Ga4 Examples.

(** Channel rows with sessions and conversions, out of order, with a label
    that occurs twice. *)
Definition rows : list row :=
  [row_of ["Email"] ["3"; "4"]; row_of ["Organic Social"] ["10"; "1"];
   row_of ["Email"] ["7"; "2"]].

End ExampleTotals.

Module ExampleLoss.
Import Ga4 Examples.

(** Two months in which a channel goes from nine sessions to none. *)
Definition current_month : processed :=
  Some (snapshot [entry "Email" 75; entry "Direct" 0] 75 0).

Definition previous_month : processed :=
  Some (snapshot [entry "Email" 50; entry "Direct" 9] 59 0).

End ExampleLoss.

(** * Properties *)

Local Open Scope list_scope.

(** ** Strings *)

Section strings.

Lemma startswith_spec (p s : string) :
  startswith p s = true ↔ ∃ suffix, s = (p ++ suffix)%string.
Proof.
  revert s. induction p as [|a p IH]; intros s; simpl.
  - split; [by exists s | done].
  - destruct s as [|b s]; simpl.
    + split; [done | by intros [? [=]]].
    + destruct (Ascii.eqb_spec a b) as [->|Hab].
      * rewrite IH. split; intros [suffix Hs]; exists suffix.
        -- by rewrite Hs.
        -- change (String b s = String b (p ++ suffix)%string) in Hs.
           congruence.
      * split; [done|]. intros [suffix Hs].
        change (String b s = String a (p ++ suffix)%string) in Hs.
        congruence.
Qed.

(** [contains] is the substring test. *)
Lemma contains_spec (sub s : string) :
  contains sub s = true
  ↔ ∃ before after, s = (before ++ sub ++ after)%string.
Proof.
  induction s as [|c s IH]; simpl.
  - rewrite orb_false_r, startswith_spec. split.
    + intros [suffix Hs]. by exists EmptyString, suffix.
    + intros ([|? ?] & after & Hs); [by exists after | done].
  - rewrite orb_true_iff, startswith_spec, IH. split.
    + intros [[suffix Hs]|(before & after & Hs)].
      * by exists EmptyString, suffix.
      * exists (String c before), after. by rewrite Hs.
    + intros ([|b before] & after & Hs).
      * left. by exists after.
      * right. exists before, after.
        change (String c s = String b (before ++ sub ++ after)%string) in Hs.
        congruence.
Qed.

Lemma split_lines_nonempty (s : string) : split_lines s ≠ [].
Proof.
  destruct s as [|c s]; simpl; [done|].
  destruct (Ascii.eqb c newline); [done|]. by destruct (split_lines s).
Qed.

(** Joining the lines of a text gives the text back. *)
Lemma join_split_lines (s : string) : join_lines (split_lines s) = s.
Proof.
  induction s as [|c s IH]; [done|]. simpl.
  pose proof (split_lines_nonempty s) as Hne.
  destruct (Ascii.eqb_spec c newline) as [->|Hc].
  - destruct (split_lines s) as [|l ls]; [done|].
    change (join_lines (EmptyString :: l :: ls))
      with (String newline (join_lines (l :: ls))).
    by rewrite IH.
  - destruct (split_lines s) as [|l ls]; [done|].
    rewrite <- IH. by destruct ls.
Qed.

(** The substitution of bold spans on inputs that exercise the lazy group:
    a plain span, a group that starts with a star, four stars (no group is
    left between the markers), and a span cut by a line end. *)
Example sub_bold_span :
  Markdown.sub_bold "a **b c** d" = "a <strong>b c</strong> d".
Proof. reflexivity. Qed.

Example sub_bold_star_group :
  Markdown.sub_bold "***a** **" = "<strong>*a</strong> **".
Proof. reflexivity. Qed.

Example sub_bold_four_stars : Markdown.sub_bold "****" = "****".
Proof. reflexivity. Qed.

Example sub_bold_line_end :
  Markdown.sub_bold ("**a" ++ ExampleNarrative.nl ++ "b**")%string
  = ("**a" ++ ExampleNarrative.nl ++ "b**")%string.
Proof. reflexivity. Qed.

Example strip_lower :
  lower (strip "  Paid SOCIAL ") = "paid social".
Proof. reflexivity. Qed.

End strings.

(** ** Loops that may raise *)

Section loops.
Context {A B S : Type}.

(** A loop whose body reads its item and then updates the state without
    raising is a read of all the items followed by the updates. *)
Lemma foldM_read_update (read : A → res B) (update : S → B → S)
    (s : S) (l : list A) :
  foldM (λ s x, y ← read x; Ok (update s y)) s l
  = ys ← mapM read l; Ok (foldl update s ys).
Proof.
  revert s. induction l as [|x l IH]; intros s; simpl; [done|].
  destruct (read x) as [y|e]; simpl; [|done].
  rewrite IH. by destruct (mapM read l).
Qed.

Lemma mapM_Forall2 (f : A → res B) (l : list A) (ys : list B) :
  mapM f l = Ok ys ↔ Forall2 (λ x y, f x = Ok y) l ys.
Proof.
  revert ys. induction l as [|x l IH]; intros ys; simpl.
  - split; [intros [= <-]; constructor | by inversion 1].
  - split.
    + destruct (f x) as [y|e] eqn:Hx; simpl; [|done].
      destruct (mapM f l) as [ys'|e]; simpl; [|done].
      intros [= <-]. constructor; [done|]. by apply IH.
    + inversion 1 as [|? y ? ys' Hx Hl]; subst. rewrite Hx. simpl.
      apply IH in Hl. by rewrite Hl.
Qed.

End loops.

(** ** The stable descending sort *)

Section sort_facts.
Context {A : Type} (key : A → Z).

Lemma insert_desc_Permutation (x : A) (l : list A) :
  insert_desc key x l ≡ₚ x :: l.
Proof.
  induction l as [|y l IH]; simpl; [done|].
  destruct (key y <=? key x); [done|].
  rewrite IH. apply Permutation_swap.
Qed.

Lemma sort_desc_Permutation (l : list A) : sort_desc key l ≡ₚ l.
Proof.
  induction l as [|x l IH]; simpl; [done|].
  by rewrite insert_desc_Permutation, IH.
Qed.

Lemma insert_desc_descending (x : A) (l : list A) :
  descending key l → descending key (insert_desc key x l).
Proof.
  unfold descending. induction 1 as [|y l Hl IH Hy]; simpl.
  - repeat constructor.
  - destruct (Z.leb_spec (key y) (key x)) as [Hle|Hlt].
    + constructor; [by constructor|].
      constructor; [done|].
      eapply Forall_impl; [exact Hy|]. simpl. intros; lia.
    + constructor; [done|].
      rewrite insert_desc_Permutation. constructor; [lia | done].
Qed.

Lemma sort_desc_descending (l : list A) : descending key (sort_desc key l).
Proof.
  induction l as [|x l IH]; simpl; [constructor|].
  by apply insert_desc_descending.
Qed.

(** Stability: the elements with a given key come out in the order they
    went in. *)
Lemma insert_desc_stable (k : Z) (x : A) (l : list A) :
  filter (λ a, key a = k) (insert_desc key x l)
  = filter (λ a, key a = k) (x :: l).
Proof.
  induction l as [|y l IH]; simpl; [done|].
  destruct (Z.leb_spec (key y) (key x)) as [Hle|Hlt]; [done|].
  rewrite filter_cons, IH, !filter_cons.
  destruct (decide (key y = k)), (decide (key x = k)); try done; lia.
Qed.

Lemma sort_desc_stable (k : Z) (l : list A) :
  filter (λ a, key a = k) (sort_desc key l) = filter (λ a, key a = k) l.
Proof.
  induction l as [|x l IH]; simpl; [done|].
  rewrite insert_desc_stable, !filter_cons. by rewrite IH.
Qed.

End sort_facts.

(** ** Dicts built by successive assignments *)

Section assignments.
Context {A V K : Type} `{Countable K} (key : A → K).

Lemma last_entry_nil (k : K) : last_entry key k [] = None.
Proof. done. Qed.

Lemma last_entry_snoc (k : K) (l : list A) (x : A) :
  last_entry key k (l ++ [x])
  = if decide (key x = k) then Some x else last_entry key k l.
Proof.
  unfold last_entry. rewrite filter_app, filter_cons, filter_nil.
  destruct (decide (key x = k)).
  - by rewrite last_snoc.
  - by rewrite app_nil_r.
Qed.

Lemma last_entry_Some (k : K) (l : list A) (x : A) :
  last_entry key k l = Some x →
  key x = k ∧ ∃ l1 l2, l = l1 ++ x :: l2 ∧ Forall (λ y, key y ≠ k) l2.
Proof.
  induction l as [|y l IH] using rev_ind.
  - by rewrite last_entry_nil.
  - rewrite last_entry_snoc. destruct (decide (key y = k)) as [Hy|Hy].
    + intros [= ->]. split; [done|]. exists l, []. by split.
    + intros Hl. destruct (IH Hl) as (Hk & l1 & l2 & -> & Hl2).
      split; [done|]. exists l1, (l2 ++ [y]). split.
      * by rewrite <- app_assoc.
      * apply Forall_app. split; [done|]. by constructor.
Qed.

Lemma last_entry_None (k : K) (l : list A) :
  last_entry key k l = None ↔ k ∉ key <$> l.
Proof.
  induction l as [|y l IH] using rev_ind.
  - rewrite last_entry_nil. split; [intros _; apply not_elem_of_nil | done].
  - rewrite last_entry_snoc, fmap_app, elem_of_app. simpl.
    rewrite list_elem_of_singleton.
    destruct (decide (key y = k)) as [Hy|Hy].
    + split; [done|]. intros Hn. exfalso. apply Hn. by right.
    + rewrite IH. split.
      * intros Hn [Hl|Hk]; [by apply Hn | by apply Hy].
      * intros Hn Hl. apply Hn. by left.
Qed.

(** When the keys are distinct, every entry is the one retained for its
    key. *)
Lemma last_entry_NoDup (l : list A) (x : A) :
  NoDup (key <$> l) → x ∈ l → last_entry key (key x) l = Some x.
Proof.
  induction l as [|y l IH] using rev_ind; [by intros _ ?%elem_of_nil|].
  rewrite fmap_app, NoDup_app. simpl. intros (Hnd & Hdisj & _).
  rewrite elem_of_app, list_elem_of_singleton, last_entry_snoc.
  intros [Hx| ->].
  - destruct (decide (key y = key x)) as [Hy|Hy]; [|by apply IH].
    exfalso. apply (Hdisj (key x)).
    + apply list_elem_of_fmap. by exists x.
    + rewrite <- Hy. apply list_elem_of_singleton. done.
  - by rewrite decide_True.
Qed.

Lemma foldl_insert_lookup (f : A → V) (m : gmap K V) (l : list A)
    (k : K) :
  foldl (λ m x, <[key x := f x]> m) m l !! k
  = match last_entry key k l with
    | Some x => Some (f x)
    | None => m !! k
    end.
Proof.
  induction l as [|y l IH] using rev_ind; [done|].
  rewrite foldl_app, last_entry_snoc. simpl.
  destruct (decide (key y = k)) as [<-|Hy].
  - by rewrite lookup_insert_eq.
  - by rewrite lookup_insert_ne.
Qed.

End assignments.

(** ** The evolution calculator *)

Section evolution.
Import Ga4.

Lemma previous_by_channel_lookup (previous : processed) (label : string) :
  previous_by_channel previous !! label
  = sessions <$> last_entry channel label (channels_of previous).
Proof.
  unfold previous_by_channel.
  rewrite (foldl_insert_lookup channel sessions), lookup_empty.
  by destruct (last_entry _ _ _).
Qed.

(** The loop of [calculate_evolution_rates] assigns one rate per entry. *)
Lemma calculate_evolution_rates_lookup (current previous : processed)
    (label : string) :
  calculate_evolution_rates current previous !! label
  = c ← last_entry channel label (channels_of current);
    let p := default 0 (previous_by_channel previous !! label) in
    Some (if 0 <? p then percent_change (sessions c) p
          else if 0 <? sessions c then 100%Q else 0%Q).
Proof.
  unfold calculate_evolution_rates.
  induction (channels_of current) as [|y l IH] using rev_ind; [done|].
  rewrite foldl_app, last_entry_snoc. simpl.
  destruct (decide (channel y = label)) as [<-|Hy]; simpl.
  - repeat case_match; by rewrite lookup_insert_eq.
  - rewrite <- IH. repeat case_match; by rewrite lookup_insert_ne.
Qed.

(** C1.  The map [calculate_evolution_rates] returns has exactly the labels
    of the current channel list as keys.  For a label, let [c] be the entry
    of the current list the map retains (its last one, the only one when
    labels are distinct) and let the previous sessions be those of the
    entry the lookup table retains for the label in the previous list.
    Previous sessions above zero give
    (current - previous) / previous * 100; previous sessions missing or not
    above zero give exactly 100 when the current sessions are above zero and
    0 otherwise. *)
Theorem calculate_evolution_rates_spec (current previous : processed) :
  let rates := calculate_evolution_rates current previous in
  (∀ label, is_Some (rates !! label) ↔ label ∈ channel <$> channels_of current)
  ∧ ∀ label c,
      last_entry channel label (channels_of current) = Some c →
      let prev := sessions <$> last_entry channel label (channels_of previous) in
      (∀ p, prev = Some p → 0 < p →
         rates !! label
         = Some (inject_Z (sessions c - p) / inject_Z p * 100)%Q)
      ∧ ((prev = None ∨ ∃ p, prev = Some p ∧ p ≤ 0) → 0 < sessions c →
         rates !! label = Some 100%Q)
      ∧ ((prev = None ∨ ∃ p, prev = Some p ∧ p ≤ 0) → sessions c ≤ 0 →
         rates !! label = Some 0%Q).
Proof.
  intros rates. split.
  - intros label. unfold rates.
    rewrite calculate_evolution_rates_lookup.
    destruct (last_entry channel label (channels_of current)) as [c|] eqn:Hc;
      simpl.
    + split; [intros _|by eauto].
      apply last_entry_Some in Hc as (<- & l1 & l2 & -> & _).
      apply list_elem_of_fmap. exists c. split; [done|].
      apply elem_of_app. right. apply list_elem_of_here.
    + apply last_entry_None in Hc. split; [by intros [? [=]]|done].
  - intros label c Hc prev. unfold rates.
    rewrite calculate_evolution_rates_lookup, Hc, previous_by_channel_lookup.
    fold prev. simpl. repeat split.
    + intros p -> Hp. simpl. by rewrite (proj2 (Z.ltb_lt 0 p) Hp).
    + intros Hprev Hcur.
      assert ((0 <? default 0 prev) = false) as ->.
      { apply Z.ltb_ge. destruct Hprev as [->|(p & -> & Hp)]; simpl; lia. }
      by rewrite (proj2 (Z.ltb_lt _ _) Hcur).
    + intros Hprev Hcur.
      assert ((0 <? default 0 prev) = false) as ->.
      { apply Z.ltb_ge. destruct Hprev as [->|(p & -> & Hp)]; simpl; lia. }
      by rewrite (proj2 (Z.ltb_ge _ _) Hcur).
Qed.

End evolution.

(** The rule at work: 50 then 75 sessions is a change of 50 percent, a
    channel without previous sessions is at 100, a channel at zero in both
    months is at 0, and a channel of the previous month only has no key. *)
Lemma calculate_evolution_rates_witness :
  let rates :=
    Ga4.calculate_evolution_rates Examples.current_month Examples.previous_month in
  (∃ q, rates !! "Email" = Some q ∧ (q == 50)%Q)
  ∧ rates !! "Referral" = Some 100%Q
  ∧ rates !! "Display" = Some 0%Q
  ∧ ¬ is_Some (rates !! "Direct").
Proof.
  intros rates.
  destruct (calculate_evolution_rates_spec
              Examples.current_month Examples.previous_month) as [Hkeys Hrate].
  split; [|split; [|split]].
  - destruct (Hrate "Email" (Examples.entry "Email" 75) eq_refl)
      as (Hgrow & _ & _).
    eexists. split; [apply (Hgrow 50 eq_refl); lia | reflexivity].
  - destruct (Hrate "Referral" (Examples.entry "Referral" 5) eq_refl)
      as (_ & Hnew & _).
    apply Hnew; [left; reflexivity | simpl; lia].
  - destruct (Hrate "Display" (Examples.entry "Display" 0) eq_refl)
      as (_ & _ & Hflat).
    apply Hflat; [right; exists 0; split; [reflexivity | lia] | simpl; lia].
  - intros Hin. apply Hkeys in Hin. revert Hin. vm_compute. intros Hin.
    repeat (apply elem_of_cons in Hin as [Hin|Hin]; [discriminate Hin|]).
    by apply elem_of_nil in Hin.
Defined.

(** ** The report: focus sections and executive summary *)

Section report.
Import Ga4 Report.

Lemma channel_dict_sessions (c : ChannelMetric) :
  channel_dict c !! "sessions" = Some (PInt (sessions c)).
Proof. reflexivity. Qed.

Lemma channel_dict_conversions (c : ChannelMetric) :
  channel_dict c !! "conversions" = Some (PInt (conversions c)).
Proof. reflexivity. Qed.

Lemma channel_dict_engagement_rate (c : ChannelMetric) :
  channel_dict c !! "engagement_rate" = Some (PFloat (engagement_rate c)).
Proof. reflexivity. Qed.

(** The guard of [get_focus_evolution]. *)
Lemma get_focus_evolution_guard (current : gmap string pyval)
    (previous : option (gmap string pyval)) (metric : string) :
  (previous = None
   ∨ ∃ prev, previous = Some prev
       ∧ (prev = ∅ ∨ prev !! metric = None
          ∨ ∃ v, prev !! metric = Some v ∧ is_zero v = true)) →
  get_focus_evolution current previous metric = Ok 0%Q.
Proof.
  unfold get_focus_evolution, get_focus_evolution_at.
  intros [->|(prev & -> & Hprev)]; [done|].
  case_bool_decide; [done|].
  destruct Hprev as [?|[->|(v & -> & ->)]]; done.
Qed.

(** Past the guard the previous value is not zero, so the result is the
    ratio. *)
Lemma get_focus_evolution_ratio (current prev : gmap string pyval)
    (metric : string) (v : pyval) :
  prev !! metric = Some v → is_zero v = false →
  get_focus_evolution current (Some prev) metric
  = ratio (default (PInt 0) (current !! metric)) v.
Proof.
  unfold get_focus_evolution, get_focus_evolution_at. intros Hv Hz.
  case_bool_decide as He; [by rewrite He, lookup_empty in Hv|].
  rewrite Hv. simpl. by rewrite Hz.
Qed.

Lemma get_focus_evolution_exit (current : gmap string pyval)
    (previous : option (gmap string pyval)) (metric : string) :
  (get_focus_evolution_at current previous metric).1 ≠ ReturnZeroBaseline.
Proof.
  unfold get_focus_evolution_at.
  destruct previous as [prev|]; [|done].
  case_bool_decide; [done|].
  destruct (prev !! metric) as [v|]; [|done]. simpl.
  by destruct (is_zero v).
Qed.

(** On the dicts the aggregator builds, the three metrics the focus
    sections use never make [get_focus_evolution] raise. *)
Lemma get_focus_evolution_channel (focus : ChannelMetric)
    (prev_focus : option (option ChannelMetric)) (metric : string) :
  metric ∈ ["sessions"; "conversions"; "engagement_rate"] →
  ∃ q, get_focus_evolution (channel_dict focus) (focus_dict <$> prev_focus)
         metric = Ok q.
Proof.
  intros Hm.
  destruct prev_focus as [[p|]|]; simpl;
    [| by (eexists; apply get_focus_evolution_guard; right; eexists; eauto)
     | by (eexists; apply get_focus_evolution_guard; left) ].
  assert (∃ vc vp, channel_dict focus !! metric = Some vc
                   ∧ channel_dict p !! metric = Some vp
                   ∧ (∃ q, number vc = Ok q) ∧ ∃ q, number vp = Ok q)
    as (vc & vp & Hc & Hp & [qc Hqc] & [qp Hqp]).
  { repeat (apply elem_of_cons in Hm as [->|Hm]);
      [| | | by apply elem_of_nil in Hm];
      do 2 eexists; (split; [reflexivity|]); (split; [reflexivity|]);
      simpl; eauto. }
  destruct (is_zero vp) eqn:Hz.
  - eexists. apply get_focus_evolution_guard. right. eexists. split; [done|].
    right. right. eauto.
  - rewrite (get_focus_evolution_ratio _ _ _ vp Hp Hz), Hc. simpl.
    unfold ratio. rewrite Hqc, Hqp. simpl. eauto.
Qed.

Lemma render_focus_total (focus : ChannelMetric)
    (prev_focus : option (option ChannelMetric)) :
  ∃ s, render_focus focus (focus_dict <$> prev_focus) = Ok s.
Proof.
  unfold render_focus.
  destruct (get_focus_evolution_channel focus prev_focus "sessions")
    as [q1 ->]; [set_solver|].
  destruct (get_focus_evolution_channel focus prev_focus "conversions")
    as [q2 ->]; [set_solver|].
  destruct (get_focus_evolution_channel focus prev_focus "engagement_rate")
    as [q3 ->]; [set_solver|].
  simpl. eauto.
Qed.

(** A previous focus record that is missing, empty, or at zero for the
    metric sends [get_focus_evolution] through its guard. *)
Lemma focus_metric_guarded (focus : ChannelMetric)
    (prev_focus : option (option ChannelMetric)) (metric : string) :
  (∀ p, prev_focus = Some (Some p) →
        ∃ v, channel_dict p !! metric = Some v ∧ is_zero v = true) →
  get_focus_evolution (channel_dict focus) (focus_dict <$> prev_focus) metric
  = Ok 0%Q.
Proof.
  intros Hz. apply get_focus_evolution_guard.
  destruct prev_focus as [[p|]|]; simpl; [| |by left].
  - right. eexists. split; [done|]. right. right. by apply Hz.
  - right. eexists. split; [done|]. by left.
Qed.

(** C3.  [get_focus_evolution] returns 0.0 whenever the previous record is
    missing, is empty, lacks the metric or holds zero for it, whatever the
    current value; its [return] for a zero previous value is never the one
    taken; and a focus section whose previous value is missing or zero
    shows the neutral indicator, never the one for +100 percent. *)
Theorem focus_evolution_zero_baseline :
  (∀ current previous metric,
     (previous = None
      ∨ ∃ prev, previous = Some prev
          ∧ (prev = ∅ ∨ prev !! metric = None
             ∨ ∃ v, prev !! metric = Some v ∧ is_zero v = true)) →
     get_focus_evolution current previous metric = Ok 0%Q)
  ∧ (∀ current previous metric,
       (get_focus_evolution_at current previous metric).1 ≠ ReturnZeroBaseline)
  ∧ (∀ focus (prev_focus : option (option ChannelMetric)),
       ∃ s, render_focus focus (focus_dict <$> prev_focus) = Ok s
         ∧ ((∀ p, prev_focus = Some (Some p) → sessions p = 0) →
            focus_sessions_evolution s = Neutral)
         ∧ ((∀ p, prev_focus = Some (Some p) → conversions p = 0) →
            focus_conversions_evolution s = Neutral)
         ∧ ((∀ p, prev_focus = Some (Some p) → (engagement_rate p == 0)%Q) →
            focus_engagement_evolution s = Neutral)).
Proof.
  split; [exact get_focus_evolution_guard|].
  split; [exact get_focus_evolution_exit|].
  intros focus prev_focus.
  destruct (render_focus_total focus prev_focus) as [s Hs].
  exists s. split; [done|]. revert Hs. unfold render_focus.
  destruct (get_focus_evolution _ _ "sessions") as [q1|] eqn:H1; [|done].
  destruct (get_focus_evolution _ _ "conversions") as [q2|] eqn:H2; [|done].
  destruct (get_focus_evolution _ _ "engagement_rate") as [q3|] eqn:H3;
    [|done].
  simpl. intros [= <-]. simpl. repeat split; intros Hz.
  - rewrite focus_metric_guarded in H1; [by injection H1 as <-|].
    intros p Hp. eexists. split; [apply channel_dict_sessions|].
    simpl. rewrite (Hz p Hp). done.
  - rewrite focus_metric_guarded in H2; [by injection H2 as <-|].
    intros p Hp. eexists. split; [apply channel_dict_conversions|].
    simpl. rewrite (Hz p Hp). done.
  - rewrite focus_metric_guarded in H3; [by injection H3 as <-|].
    intros p Hp. eexists. split; [apply channel_dict_engagement_rate|].
    simpl. apply Qeq_bool_iff, Hz, Hp.
Qed.

(** Forty email sessions after a month with none: the helper answers 0.0
    and the section shows the neutral indicator. *)
Lemma focus_evolution_zero_baseline_witness :
  get_focus_evolution (channel_dict (Examples.entry "Email" 40))
    (Some (channel_dict (Examples.entry "Email" 0))) "sessions" = Ok 0%Q
  ∧ ∃ s, render_focus (Examples.entry "Email" 40)
           (Some (channel_dict (Examples.entry "Email" 0))) = Ok s
      ∧ focus_sessions_evolution s = Neutral.
Proof.
  destruct focus_evolution_zero_baseline as (Hguard & _ & Hsection).
  split.
  - apply Hguard. right. eexists. split; [reflexivity|].
    right. right. eexists. split; [apply channel_dict_sessions | reflexivity].
  - destruct (Hsection (Examples.entry "Email" 40)
                (Some (Some (Examples.entry "Email" 0))))
      as (s & Hs & Hsess & _).
    exists s. split; [exact Hs|].
    apply Hsess. intros p [= <-]. reflexivity.
Defined.

Lemma total_evolution_positive (total : Snapshot → Z) (d p : Snapshot) :
  0 < total p →
  total_evolution total d (Some p)
  = (inject_Z (total d - total p) / inject_Z (total p) * 100)%Q.
Proof.
  intros Hp. unfold total_evolution. by rewrite (proj2 (Z.ltb_lt _ _) Hp).
Qed.

Lemma total_evolution_no_baseline (total : Snapshot → Z) (d : Snapshot)
    (prev_data : processed) :
  (prev_data = None ∨ ∃ p, prev_data = Some p ∧ total p ≤ 0) →
  total_evolution total d prev_data = 0%Q.
Proof.
  intros [->|(p & -> & Hp)]; [done|].
  unfold total_evolution. by rewrite (proj2 (Z.ltb_ge _ _) Hp).
Qed.

(** C2, as the code has it.  When the current snapshot has channels the
    report is the full page, and the evolution shown next to each total is
    (current - previous) / previous * 100 when the previous total is above
    zero, and the neutral 0 when the previous total is zero or missing,
    whatever the current total. *)
Theorem summary_evolution_spec (d : Snapshot) (prev_data : processed) :
  channels d ≠ [] →
  ∃ s email_section social_section,
    generate_html_report (Some d) prev_data
    = Ok (Page s email_section social_section)
    ∧ (∀ p, prev_data = Some p → 0 < total_sessions p →
         summary_sessions_evolution s
         = format_evolution_inline
             (inject_Z (total_sessions d - total_sessions p)
              / inject_Z (total_sessions p) * 100)%Q)
    ∧ ((prev_data = None ∨ ∃ p, prev_data = Some p ∧ total_sessions p ≤ 0) →
       summary_sessions_evolution s = Neutral)
    ∧ (∀ p, prev_data = Some p → 0 < total_conversions p →
         summary_conversions_evolution s
         = format_evolution_inline
             (inject_Z (total_conversions d - total_conversions p)
              / inject_Z (total_conversions p) * 100)%Q)
    ∧ ((prev_data = None
        ∨ ∃ p, prev_data = Some p ∧ total_conversions p ≤ 0) →
       summary_conversions_evolution s = Neutral).
Proof.
  intros Hch. unfold generate_html_report.
  destruct (channels d) as [|c cs] eqn:Hd; [done|].
  assert (∃ e, render_focus_slot (email_focus d)
                 ((λ p, focus_dict (email_focus p)) <$> prev_data) = Ok e)
    as [e ->].
  { destruct (email_focus d) as [f|]; simpl; [|by eauto].
    destruct (render_focus_total f (email_focus <$> prev_data)) as [s Hs].
    rewrite <- option_fmap_compose in Hs. unfold compose in Hs.
    rewrite Hs. simpl. eauto. }
  assert (∃ e, render_focus_slot (social_focus d)
                 ((λ p, focus_dict (social_focus p)) <$> prev_data) = Ok e)
    as [so ->].
  { destruct (social_focus d) as [f|]; simpl; [|by eauto].
    destruct (render_focus_total f (social_focus <$> prev_data)) as [s Hs].
    rewrite <- option_fmap_compose in Hs. unfold compose in Hs.
    rewrite Hs. simpl. eauto. }
  simpl. do 3 eexists. split; [reflexivity|]. simpl.
  split; [|split; [|split]].
  - intros p -> Hp. by rewrite total_evolution_positive.
  - intros Hp. by rewrite total_evolution_no_baseline.
  - intros p -> Hp. by rewrite total_evolution_positive.
  - intros Hp. by rewrite total_evolution_no_baseline.
Qed.

End report.

(** From 50 to 75 sessions the summary shows +50 percent; conversions, at
    zero the month before, show the neutral indicator. *)
Lemma summary_evolution_witness :
  ∃ s email_section social_section,
    Report.generate_html_report
      (Some (Examples.snapshot [Examples.entry "Email" 75] 75 3))
      (Some (Examples.snapshot [Examples.entry "Email" 50] 50 0))
    = Ok (Report.Page s email_section social_section)
    ∧ Report.summary_sessions_evolution s
      = Report.Up (inject_Z (75 - 50) / inject_Z 50 * 100)%Q
    ∧ Report.summary_conversions_evolution s = Report.Neutral.
Proof.
  destruct (summary_evolution_spec
              (Examples.snapshot [Examples.entry "Email" 75] 75 3)
              (Some (Examples.snapshot [Examples.entry "Email" 50] 50 0)))
    as (s & e & so & Hpage & Hsess & _ & _ & Hconv); [discriminate|].
  exists s, e, so. split; [exact Hpage|]. split.
  - rewrite (Hsess _ eq_refl); [reflexivity | simpl; lia].
  - apply Hconv. right. eexists. split; [reflexivity | simpl; lia].
Defined.

(** C2 as stated fails: five sessions and two conversions after a month
    whose totals are zero are shown with the neutral 0, not with the
    indicator of +100 percent. *)
Lemma summary_zero_baseline_counterexample :
  ∃ s email_section social_section,
    Report.generate_html_report
      (Some (Examples.snapshot [Examples.entry "Email" 5] 5 2))
      (Some (Examples.snapshot [] 0 0))
    = Ok (Report.Page s email_section social_section)
    ∧ Report.summary_sessions_evolution s = Report.Neutral
    ∧ Report.summary_sessions_evolution s
      ≠ Report.format_evolution_inline 100%Q
    ∧ Report.summary_conversions_evolution s = Report.Neutral
    ∧ Report.summary_conversions_evolution s
      ≠ Report.format_evolution_inline 100%Q.
Proof.
  do 3 eexists. split; [reflexivity|]. simpl.
  repeat split; discriminate.
Qed.

(** ** The channel aggregator *)

Section channel_aggregator.
Import Ga4.
Context `{Numerals}.

#[local] Arguments is_email : simpl never.
#[local] Arguments is_social : simpl never.

(** The loop reads every row, in order, and then accumulates: the first row
    that cannot be read aborts the whole aggregation. *)
Lemma process_ga4_response_read (rows : list row) :
  process_ga4_response (Some rows)
  = cds ← mapM channel_data_of_row rows;
    Ok (Some (sort_channels (foldl accumulate empty_snapshot cds))).
Proof.
  unfold process_ga4_response, ga4_step.
  rewrite (foldM_read_update channel_data_of_row accumulate).
  by destruct (mapM channel_data_of_row rows).
Qed.

Lemma accumulate_channels (s : Snapshot) (cds : list ChannelMetric) :
  channels (foldl accumulate s cds) = channels s ++ cds.
Proof.
  revert s. induction cds as [|cd cds IH]; intros s; simpl.
  - by rewrite app_nil_r.
  - rewrite IH. simpl. by rewrite <- app_assoc.
Qed.

Lemma accumulate_email_focus (s : Snapshot) (cds : list ChannelMetric) :
  email_focus (foldl accumulate s cds)
  = match last (filter (λ c, is_email (channel c)) cds) with
    | Some c => Some c
    | None => email_focus s
    end.
Proof.
  induction cds as [|cd cds IH] using rev_ind; [done|].
  rewrite foldl_app, filter_app, filter_cons, filter_nil. simpl.
  destruct (is_email (channel cd)) eqn:He.
  - rewrite decide_True by done. by rewrite last_snoc.
  - rewrite decide_False by (simpl; tauto). by rewrite app_nil_r.
Qed.

Lemma accumulate_social_focus (s : Snapshot) (cds : list ChannelMetric) :
  social_focus (foldl accumulate s cds)
  = match last (filter (λ c, ¬ is_email (channel c) ∧ is_social (channel c))
                       cds) with
    | Some c => Some c
    | None => social_focus s
    end.
Proof.
  induction cds as [|cd cds IH] using rev_ind; [done|].
  rewrite foldl_app, filter_app, filter_cons, filter_nil. simpl.
  destruct (is_email (channel cd)) eqn:He;
    [|destruct (is_social (channel cd)) eqn:Hs].
  - rewrite decide_False by (simpl; tauto). by rewrite app_nil_r.
  - rewrite decide_True by (simpl; tauto). by rewrite last_snoc.
  - rewrite decide_False by (simpl; tauto). by rewrite app_nil_r.
Qed.

(** C4, as the code has it.  When every row can be read, the email
    spotlight is the last channel, in row order, whose label contains
    "email" whatever the case, and the social spotlight is the last channel
    whose label does not contain "email" and contains "social", "facebook"
    or "instagram"; a spotlight without such a channel stays empty. *)
Theorem spotlights_are_last_matches (rows : list row)
    (cds : list ChannelMetric) :
  mapM channel_data_of_row rows = Ok cds →
  ∃ snap,
    process_ga4_response (Some rows) = Ok (Some snap)
    ∧ channels snap = sort_desc sessions cds
    ∧ email_focus snap
      = last (filter (λ c, contains "email" (lower (channel c))) cds)
    ∧ social_focus snap
      = last (filter (λ c, ¬ contains "email" (lower (channel c))
                           ∧ (contains "social" (lower (channel c))
                              || contains "facebook" (lower (channel c))
                              || contains "instagram" (lower (channel c))))
                     cds).
Proof.
  intros Hread. rewrite process_ga4_response_read, Hread. simpl.
  eexists. split; [reflexivity|]. simpl.
  rewrite accumulate_channels, accumulate_email_focus,
    accumulate_social_focus. simpl.
  split; [done|]. split.
  - by destruct (last _).
  - by destruct (last _).
Qed.

(** C7, where the code departs from it: a row whose list of dimension
    values is empty makes the aggregator raise [IndexError], whatever its
    metrics; [run_report] produces such a row from an API row without
    dimensions. *)
Theorem row_without_dimensions_raises (mets : option (list cell))
    (api_mets : option (list string)) :
  process_ga4_response (Some [Row (Some []) mets]) = Raise IndexError
  ∧ process_ga4_response
      (convert_result (ApiResult (Some [ApiRow None api_mets])))
    = Raise IndexError
  ∧ process_ga4_response
      (convert_result (ApiResult (Some [ApiRow (Some []) api_mets])))
    = Raise IndexError.
Proof. done. Qed.

(** What C7 says of the metrics holds: on a row whose first dimension can
    be read and whose present metric cells are numerals, every metric
    beyond the end of the row is zero. *)
Lemma short_row_defaults (r : row) (label : string) :
  first_dimension r = Ok label →
  let mets := default [] (metricValues r) in
  (∀ i v, mets !! i = Some (Some v) →
          is_Some (int_of_str v) ∧ is_Some (float_of_str v)) →
  ∃ cd, channel_data_of_row r = Ok cd
    ∧ channel cd = label
    ∧ ((length mets ≤ 0)%nat → sessions cd = 0)
    ∧ ((length mets ≤ 1)%nat → conversions cd = 0)
    ∧ ((length mets ≤ 2)%nat → revenue cd = 0%Q)
    ∧ ((length mets ≤ 3)%nat → engagement_rate cd = 0%Q)
    ∧ ((length mets ≤ 4)%nat → avg_session_duration cd = 0%Q).
Proof.
  intros Hdim mets Hnum. unfold channel_data_of_row. rewrite Hdim. simpl.
  fold mets.
  assert (∀ i, ∃ z, metric_int mets i = Ok z
                 ∧ ((length mets ≤ i)%nat → z = 0)) as Hint.
  { intros i. unfold metric_int.
    destruct (mets !! i) as [[v|]|] eqn:Hi.
    - destruct (Hnum i v Hi) as [[z Hz] _]. unfold int. rewrite Hz.
      eexists. split; [done|]. intros Hlen.
      apply lookup_ge_None_2 in Hlen. congruence.
    - eauto.
    - eauto. }
  assert (∀ i, ∃ q, metric_float mets i = Ok q
                 ∧ ((length mets ≤ i)%nat → q = 0%Q)) as Hfloat.
  { intros i. unfold metric_float.
    destruct (mets !! i) as [[v|]|] eqn:Hi.
    - destruct (Hnum i v Hi) as [_ [q Hq]]. unfold float. rewrite Hq.
      eexists. split; [done|]. intros Hlen.
      apply lookup_ge_None_2 in Hlen. congruence.
    - eauto.
    - eauto. }
  destruct (Hint 0%nat) as (s & -> & Hs), (Hint 1%nat) as (c & -> & Hc).
  destruct (Hfloat 2%nat) as (rv & -> & Hrv), (Hfloat 3%nat) as (er & -> & Her).
  destruct (Hfloat 4%nat) as (du & -> & Hdu).
  simpl. eexists. split; [reflexivity|]. simpl. done.
Qed.

(** A row without the key ["dimensionValues"], or whose first cell has no
    value, is labelled "Unknown". *)
Lemma first_dimension_default (r : row) (cells : list cell) :
  dimensionValues r = None ∨ dimensionValues r = Some (None :: cells) →
  first_dimension r = Ok "Unknown".
Proof. unfold first_dimension. by intros [->| ->]. Qed.

End channel_aggregator.

(** Of the three channels whose label contains "email" the last one is the
    email spotlight, and "Social email", an email label, is not the social
    one. *)
Lemma spotlights_are_last_matches_witness :
  ∃ snap,
    Ga4.process_ga4_response (Some ExampleRows.spotlight_rows) = Ok (Some snap)
    ∧ Ga4.email_focus snap = Some (Examples.entry "Social email" 1)
    ∧ Ga4.social_focus snap = Some (Examples.entry "Facebook" 2).
Proof.
  destruct (spotlights_are_last_matches ExampleRows.spotlight_rows
              ExampleRows.spotlight_channels)
    as (snap & Hsnap & _ & Hemail & Hsocial); [reflexivity|].
  exists snap. split; [exact Hsnap|]. split.
  - rewrite Hemail. reflexivity.
  - rewrite Hsocial. reflexivity.
Defined.

(** C4 as stated fails: the spotlights are not the first matching channels
    of the rows. *)
Lemma spotlight_first_match_counterexample :
  ∃ cds snap,
    mapM Ga4.channel_data_of_row ExampleRows.spotlight_rows = Ok cds
    ∧ Ga4.process_ga4_response (Some ExampleRows.spotlight_rows)
      = Ok (Some snap)
    ∧ head (filter (λ c, contains "email" (lower (Ga4.channel c))) cds)
      = Some (Examples.entry "Email" 10)
    ∧ Ga4.email_focus snap ≠ Some (Examples.entry "Email" 10)
    ∧ head (filter (λ c, contains "social" (lower (Ga4.channel c))
                         || contains "facebook" (lower (Ga4.channel c))
                         || contains "instagram" (lower (Ga4.channel c)))
                   cds)
      = Some (Examples.entry "Organic Social" 7)
    ∧ Ga4.social_focus snap ≠ Some (Examples.entry "Organic Social" 7).
Proof.
  do 2 eexists. split; [reflexivity|]. split; [reflexivity|].
  split; [reflexivity|]. split; [discriminate|].
  split; [reflexivity|discriminate].
Qed.

(** ** The campaign ranker *)

Section campaign_ranker.
Import Ga4.
Context `{Numerals}.

Lemma process_campaign_response_read (rows : list row) :
  process_campaign_response (Some rows)
  = readings ← mapM campaign_data_of_row rows;
    Ok (sort_desc campaign_sessions (omap id readings)).
Proof.
  unfold process_campaign_response, campaign_step.
  rewrite (foldM_read_update campaign_data_of_row
             (λ acc o, acc ++ option_list o)).
  destruct (mapM campaign_data_of_row rows) as [readings|e]; [|done].
  simpl. do 2 f_equal.
  assert (∀ acc, foldl (λ acc o, acc ++ option_list o) acc readings
                 = acc ++ omap id readings) as Hfold.
  { induction readings as [|o os IH]; intros acc; simpl.
    - by rewrite app_nil_r.
    - rewrite IH. destruct o; simpl; [|by rewrite app_nil_r].
      by rewrite <- app_assoc. }
  apply Hfold.
Qed.

(** Rows read as (campaign, sessions) pairs: the sessions of a placeholder
    are not read. *)
Lemma campaign_readings (rows : list row) (entries : list CampaignRow) :
  Forall2 (λ r e,
             first_dimension r = Ok (campaign e)
             ∧ (is_placeholder (campaign e) = false →
                metric_int (default [] (metricValues r)) 0
                = Ok (campaign_sessions e)))
          rows entries →
  ∃ readings,
    mapM campaign_data_of_row rows = Ok readings
    ∧ omap id readings
      = filter (λ e, is_placeholder (campaign e) = false) entries.
Proof.
  induction 1 as [|r e rows entries [Hname Hsess] _ (readings & Hr & Hk)].
  - by exists [].
  - simpl. rewrite Hr. unfold campaign_data_of_row at 1. rewrite Hname.
    simpl. rewrite filter_cons.
    destruct (is_placeholder (campaign e)) eqn:Hp; simpl.
    + exists (None :: readings). by split.
    + rewrite (Hsess eq_refl). simpl.
      exists (Some e :: readings). split; [by destruct e|].
      change (e :: omap id readings
              = e :: filter (λ e, is_placeholder (campaign e) = false) entries).
      by rewrite Hk.
Qed.

Lemma is_placeholder_false (name : string) :
  is_placeholder name = false
  ↔ lower name ∉ ["(not set)"; "(none)"; "unknown"; ""].
Proof.
  unfold is_placeholder, placeholder_names.
  by rewrite bool_decide_eq_false.
Qed.

(** C5, as the code has it.  Let every row carry a campaign name and, when
    the lowercased name (not trimmed) is outside the placeholder set, a
    numeral as session count.  Then the ranking holds exactly the rows whose
    lowercased name is outside the set, each as an entry of its own, in
    non-increasing order of sessions, rows with equal sessions keeping their
    input order. *)
Theorem campaign_ranking (rows : list row) (entries : list CampaignRow) :
  Forall2 (λ r e,
             first_dimension r = Ok (campaign e)
             ∧ (lower (campaign e) ∉ ["(not set)"; "(none)"; "unknown"; ""] →
                metric_int (default [] (metricValues r)) 0
                = Ok (campaign_sessions e)))
          rows entries →
  let kept :=
    filter (λ e, lower (campaign e) ∉ ["(not set)"; "(none)"; "unknown"; ""])
           entries in
  ∃ out,
    process_campaign_response (Some rows) = Ok out
    ∧ out ≡ₚ kept
    ∧ descending campaign_sessions out
    ∧ ∀ k, filter (λ e, campaign_sessions e = k) out
           = filter (λ e, campaign_sessions e = k) kept.
Proof.
  intros Hrows kept.
  destruct (campaign_readings rows entries) as (readings & Hread & Hkept).
  { eapply Forall2_impl; [exact Hrows|]. simpl.
    intros r e [Hname Hsess]. split; [done|].
    intros Hp. by apply Hsess, is_placeholder_false. }
  assert (omap id readings = kept) as Hk.
  { rewrite Hkept. apply list_filter_iff. intros e.
    apply is_placeholder_false. }
  rewrite process_campaign_response_read, Hread. simpl. rewrite Hk.
  eexists. split; [reflexivity|]. split; [|split].
  - apply sort_desc_Permutation.
  - apply sort_desc_descending.
  - intros k. apply sort_desc_stable.
Qed.

End campaign_ranker.

(** Seven rows, three of them placeholders (one with a session count that
    is no numeral): the four others come out, "Spring Sale" twice, the two
    entries with five sessions in their input order. *)
Lemma campaign_ranking_witness :
  ∃ out,
    Ga4.process_campaign_response (Some ExampleRows.campaign_rows) = Ok out
    ∧ out = [ {| Ga4.campaign := "Brand"; Ga4.campaign_sessions := 9 |};
              {| Ga4.campaign := "Spring Sale"; Ga4.campaign_sessions := 5 |};
              {| Ga4.campaign := "Newsletter"; Ga4.campaign_sessions := 5 |};
              {| Ga4.campaign := "Spring Sale"; Ga4.campaign_sessions := 3 |} ]
    ∧ descending Ga4.campaign_sessions out
    ∧ ∀ k, filter (λ e, Ga4.campaign_sessions e = k) out
           = filter (λ e, Ga4.campaign_sessions e = k)
               (filter (λ e, lower (Ga4.campaign e)
                             ∉ ["(not set)"; "(none)"; "unknown"; ""])
                       ExampleRows.campaign_entries).
Proof.
  destruct (campaign_ranking ExampleRows.campaign_rows
              ExampleRows.campaign_entries)
    as (out & Hout & _ & Hdesc & Hstable).
  { repeat constructor;
      first [ reflexivity
            | intros Hn; exfalso; apply Hn; vm_compute; repeat constructor ]. }
  exists out. split; [exact Hout|]. split; [|split; [exact Hdesc|exact Hstable]].
  assert (Ga4.process_campaign_response (Some ExampleRows.campaign_rows)
          = Ok [ {| Ga4.campaign := "Brand"; Ga4.campaign_sessions := 9 |};
                 {| Ga4.campaign := "Spring Sale"; Ga4.campaign_sessions := 5 |};
                 {| Ga4.campaign := "Newsletter"; Ga4.campaign_sessions := 5 |};
                 {| Ga4.campaign := "Spring Sale"; Ga4.campaign_sessions := 3 |} ])
    as Hrun by reflexivity.
  rewrite Hout in Hrun. by injection Hrun.
Defined.

(** C5 as stated fails: a name that is a placeholder only once trimmed is
    kept. *)
Lemma campaign_trim_counterexample :
  lower (strip " Unknown ") ∈ ["(not set)"; "(none)"; "unknown"; ""]
  ∧ Ga4.process_campaign_response
      (Some [Examples.row_of [" Unknown "] ["4"]])
    = Ok [ {| Ga4.campaign := " Unknown "; Ga4.campaign_sessions := 4 |} ].
Proof.
  split; [|reflexivity].
  vm_compute. repeat constructor.
Qed.

(** ** The time-series aggregator *)

Section time_series.
Import Ga4.
Context `{Numerals}.

(** A row with fewer than two dimension values is skipped before its
    metrics are looked at. *)
Lemma ts_point_short (r : row) :
  (length (default [] (dimensionValues r)) < 2)%nat → ts_point r = Ok None.
Proof.
  unfold ts_point. destruct (default [] (dimensionValues r)) as [|? [|? ?]];
    simpl; [done|done|lia].
Qed.

Lemma ts_record_data (st : ts_state) (d c : string) (s : Z) :
  data_by_date_channel (ts_record st (d, c, s))
  = <[d := <[c := s]> (default ∅ (data_by_date_channel st !! d))]>
      (data_by_date_channel st).
Proof.
  unfold ts_record. simpl.
  destruct (data_by_date_channel st !! d) as [inner|] eqn:Hd; simpl.
  - by rewrite Hd.
  - by rewrite lookup_insert_eq, insert_insert_eq.
Qed.

Lemma ts_record_cell (st : ts_state) (pt : string * string * Z) (d c : string) :
  ts_cell (ts_record st pt) d c
  = if decide (pt.1 = (d, c)) then Some pt.2 else ts_cell st d c.
Proof.
  destruct pt as [[d0 c0] s]. unfold ts_cell. rewrite ts_record_data. simpl.
  destruct (decide (d0 = d)) as [->|Hd].
  - rewrite lookup_insert_eq. simpl.
    destruct (decide (c0 = c)) as [->|Hc].
    + rewrite lookup_insert_eq. by rewrite decide_True.
    + rewrite lookup_insert_ne by done.
      rewrite decide_False by congruence.
      by destruct (data_by_date_channel st !! d).
  - rewrite lookup_insert_ne by done. rewrite decide_False by congruence.
    done.
Qed.

Lemma ts_record_dates (st : ts_state) (pt : string * string * Z) :
  dom (data_by_date_channel (ts_record st pt))
  = {[pt.1.1]} ∪ dom (data_by_date_channel st).
Proof.
  destruct pt as [[d c] s]. rewrite ts_record_data. apply dom_insert_L.
Qed.

Lemma ts_record_channels (st : ts_state) (pt : string * string * Z) :
  all_channels (ts_record st pt) = all_channels st ∪ {[pt.1.2]}.
Proof. by destruct pt as [[d c] s]. Qed.

(** The table after a run of the loop over the points [pts]. *)
Lemma ts_loop_cell (st : ts_state) (pts : list (string * string * Z))
    (d c : string) :
  ts_cell (foldl ts_record st pts) d c
  = match last_entry fst (d, c) pts with
    | Some pt => Some pt.2
    | None => ts_cell st d c
    end.
Proof.
  induction pts as [|pt pts IH] using rev_ind; [done|].
  rewrite foldl_app, last_entry_snoc. simpl.
  rewrite ts_record_cell. by destruct (decide (pt.1 = (d, c))).
Qed.

Lemma ts_loop_dates (st : ts_state) (pts : list (string * string * Z))
    (d : string) :
  d ∈ dom (data_by_date_channel (foldl ts_record st pts))
  ↔ d ∈ dom (data_by_date_channel st) ∨ ∃ c z, (d, c, z) ∈ pts.
Proof.
  induction pts as [|pt pts IH] using rev_ind; simpl.
  - split; [by left|]. intros [?|(c & z & Hin)]; [done|].
    by apply elem_of_nil in Hin.
  - rewrite foldl_app. simpl. rewrite ts_record_dates, elem_of_union, IH.
    rewrite elem_of_singleton. split.
    + intros [->|[?|(c & z & Hin)]].
      * right. destruct pt as [[d c] z]. exists c, z.
        apply elem_of_app. right. apply list_elem_of_here.
      * by left.
      * right. exists c, z. apply elem_of_app. by left.
    + intros [?|(c & z & Hin)]; [by right; left|].
      apply elem_of_app in Hin as [Hin|Hin].
      * right. right. by exists c, z.
      * apply list_elem_of_singleton in Hin as <-. by left.
Qed.

Lemma ts_loop_channels (st : ts_state) (pts : list (string * string * Z))
    (c : string) :
  c ∈ all_channels (foldl ts_record st pts)
  ↔ c ∈ all_channels st ∨ ∃ d z, (d, c, z) ∈ pts.
Proof.
  induction pts as [|pt pts IH] using rev_ind; simpl.
  - split; [by left|]. intros [?|(d & z & Hin)]; [done|].
    by apply elem_of_nil in Hin.
  - rewrite foldl_app. simpl. rewrite ts_record_channels, elem_of_union, IH.
    rewrite elem_of_singleton. split.
    + intros [[?|(d & z & Hin)]| ->].
      * by left.
      * right. exists d, z. apply elem_of_app. by left.
      * right. destruct pt as [[d c] z]. exists d, z.
        apply elem_of_app. right. apply list_elem_of_here.
    + intros [?|(d & z & Hin)]; [by left; left|].
      apply elem_of_app in Hin as [Hin|Hin].
      * left. right. by exists d, z.
      * apply list_elem_of_singleton in Hin as <-. by right.
Qed.

(** The loop that fills [series_by_channel] gives every channel of the set
    its series, whatever the order the set is visited in. *)
Lemma series_by_channel_lookup (f : string → list Z) (X : gset string)
    (c : string) :
  set_fold (λ ch acc, <[ch := f ch]> acc) (∅ : gmap string (list Z)) X !! c
  = if decide (c ∈ X) then Some (f c) else None.
Proof.
  revert X.
  apply (set_fold_ind_L
           (λ (acc : gmap string (list Z)) X,
              acc !! c = if decide (c ∈ X) then Some (f c) else None)).
  - rewrite lookup_empty. rewrite decide_False; [done|].
    apply not_elem_of_empty.
  - intros x X acc Hx Hacc.
    destruct (decide (x = c)) as [->|Hne].
    + rewrite lookup_insert_eq. rewrite decide_True; [done|].
      apply elem_of_union_l. by apply elem_of_singleton.
    + rewrite lookup_insert_ne by done. rewrite Hacc.
      destruct (decide (c ∈ X)) as [Hc|Hc].
      * rewrite decide_True; [done|]. by apply elem_of_union_r.
      * rewrite decide_False; [done|].
        intros [Hs|?]%elem_of_union; [|done].
        apply elem_of_singleton in Hs. congruence.
Qed.

Lemma sorted_keys_spec {V} (m : gmap string V) :
  StronglySorted String.le (sorted_keys m)
  ∧ NoDup (sorted_keys m)
  ∧ ∀ k, k ∈ sorted_keys m ↔ k ∈ dom m.
Proof.
  unfold sorted_keys. split; [|split].
  - apply StronglySorted_merge_sort; apply _.
  - rewrite merge_sort_Permutation. apply NoDup_elements.
  - intros k. rewrite merge_sort_Permutation. apply elem_of_elements.
Qed.

Lemma process_time_series_response_read (rows : list row) :
  process_time_series_response (Some rows)
  = readings ← mapM ts_point rows;
    let st := foldl ts_record (TsState ∅ ∅) (omap id readings) in
    let sorted_dates := sorted_keys (data_by_date_channel st) in
    Ok (Some {| dates := sorted_dates;
                by_channel :=
                  set_fold (λ ch acc,
                              <[ch := series_of (data_by_date_channel st)
                                        sorted_dates ch]> acc)
                           (∅ : gmap string (list Z)) (all_channels st) |}).
Proof.
  unfold process_time_series_response, ts_step.
  rewrite (foldM_read_update ts_point (λ st o, from_option (ts_record st) st o)).
  destruct (mapM ts_point rows) as [readings|e]; [|done]. simpl.
  assert (∀ st, foldl (λ st o, from_option (ts_record st) st o) st readings
                = foldl ts_record st (omap id readings)) as ->; [|done].
  induction readings as [|[pt|] os IH]; intros st; simpl; by rewrite ?IH.
Qed.

(** Rows read as optional points: a row with fewer than two dimension
    values reads as no point, whatever its metrics. *)
Lemma ts_point_readings (rows : list row)
    (readings : list (option (string * string * Z))) :
  Forall2 (λ r o,
             match default [] (dimensionValues r) with
             | d0 :: d1 :: _ =>
                 ∃ z, metric_int (default [] (metricValues r)) 0 = Ok z
                      ∧ o = Some (default "" d0, default "Unknown" d1, z)
             | _ => o = None
             end)
          rows readings →
  mapM ts_point rows = Ok readings.
Proof.
  intros Hrows. apply mapM_Forall2.
  eapply Forall2_impl; [exact Hrows|]. simpl. intros r o.
  unfold ts_point.
  destruct (default [] (dimensionValues r)) as [|d0 [|d1 ds]].
  - by intros ->.
  - by intros ->.
  - intros (z & -> & ->). done.
Qed.

Lemma series_of_lookup (st : ts_state) (sorted_dates : list string)
    (c d : string) (i : nat) :
  sorted_dates !! i = Some d →
  series_of (data_by_date_channel st) sorted_dates c !! i
  = Some (default 0 (ts_cell st d c)).
Proof.
  intros Hi. unfold series_of, ts_cell. rewrite list_lookup_fmap, Hi. simpl.
  by destruct (data_by_date_channel st !! d).
Qed.

(** C6.  Read every row as an optional point (date, channel, sessions):
    none for a row with fewer than two dimension values, which is skipped
    whatever else it holds.  When the session counts of the other rows are
    numerals, the aggregator returns a table whose date axis is the
    observed dates, ascending and without repetition, whose series are
    those of the observed channels, each as long as the date axis, and
    whose cell for a date and a channel is the count recorded for that pair
    (the last one when the pair is repeated) or 0 when the pair is
    absent. *)
Theorem time_series_dense (rows : list row)
    (readings : list (option (string * string * Z))) :
  Forall2 (λ r o,
             match default [] (dimensionValues r) with
             | d0 :: d1 :: _ =>
                 ∃ z, metric_int (default [] (metricValues r)) 0 = Ok z
                      ∧ o = Some (default "" d0, default "Unknown" d1, z)
             | _ => o = None
             end)
          rows readings →
  let points := omap id readings in
  ∃ ts,
    process_time_series_response (Some rows) = Ok (Some ts)
    ∧ StronglySorted String.le (dates ts)
    ∧ NoDup (dates ts)
    ∧ (∀ d, d ∈ dates ts ↔ ∃ c z, (d, c, z) ∈ points)
    ∧ (∀ c, is_Some (by_channel ts !! c) ↔ ∃ d z, (d, c, z) ∈ points)
    ∧ ∀ c series,
        by_channel ts !! c = Some series →
        length series = length (dates ts)
        ∧ ∀ i d,
            dates ts !! i = Some d →
            (∀ z, last_entry fst (d, c) points = Some (d, c, z) →
                  series !! i = Some z)
            ∧ ((∀ z, (d, c, z) ∉ points) → series !! i = Some 0).
Proof.
  intros Hrows points.
  rewrite process_time_series_response_read, (ts_point_readings _ _ Hrows).
  simpl. fold points.
  set (st := foldl ts_record (TsState ∅ ∅) points).
  destruct (sorted_keys_spec (data_by_date_channel st))
    as (Hsorted & Hnodup & Hdates).
  eexists. split; [reflexivity|]. simpl.
  split; [done|]. split; [done|]. split; [|split].
  - intros d. rewrite Hdates. unfold st. rewrite ts_loop_dates. simpl.
    rewrite dom_empty_L. split; [|by right].
    intros [Hin|?]; [|done]. by apply not_elem_of_empty in Hin.
  - intros c. rewrite series_by_channel_lookup.
    destruct (decide (c ∈ all_channels st)) as [Hc|Hc].
    + split; [intros _|by eauto].
      apply ts_loop_channels in Hc as [Hin|?]; [|done].
      by apply not_elem_of_empty in Hin.
    + split; [by intros [? [=]]|]. intros Hin. exfalso. apply Hc.
      apply ts_loop_channels. by right.
  - intros c series. rewrite series_by_channel_lookup.
    destruct (decide (c ∈ all_channels st)); [|done].
    intros [= <-]. split; [apply length_fmap|].
    intros i d Hi. rewrite (series_of_lookup st _ c d i Hi).
    unfold st. rewrite ts_loop_cell. split.
    + by intros z ->.
    + intros Habs.
      assert (last_entry fst (d, c) points = None) as ->; [|done].
      apply last_entry_None. intros Hin.
      apply list_elem_of_fmap in Hin as ([[d' c'] z] & [= <- <-] & Hin).
      by apply (Habs z).
Qed.

(** The hypothesis of C6 is needed: the session count of a row with two
    dimension values is read with [int], and a row where that fails ends
    the aggregation with the exception. *)
Lemma ts_unreadable_row_raises (rows : list row) (r : row) (d0 d1 : cell)
    (ds : list cell) (e : exn) :
  r ∈ rows →
  default [] (dimensionValues r) = d0 :: d1 :: ds →
  metric_int (default [] (metricValues r)) 0 = Raise e →
  ∃ e', process_time_series_response (Some rows) = Raise e'.
Proof.
  intros Hr Hdims Hcount. rewrite process_time_series_response_read.
  assert (∃ e', mapM ts_point rows = Raise e') as [e' ->]; [|by exists e'].
  induction rows as [|r0 rows IH]; [by apply elem_of_nil in Hr|].
  simpl. destruct (ts_point r0) as [o|e0] eqn:Hr0; [|by exists e0].
  apply elem_of_cons in Hr as [<-|Hr].
  - unfold ts_point in Hr0. rewrite Hdims, Hcount in Hr0. done.
  - destruct (IH Hr) as [e' ->]. by exists e'.
Qed.

End time_series.

(** The density example: the two short rows are skipped, the dates come out
    in order, and each channel has a cell for each date. *)
Lemma time_series_dense_witness :
  ∃ ts,
    Ga4.process_time_series_response (Some ExampleSeries.ts_rows)
    = Ok (Some ts)
    ∧ Ga4.dates ts = ["2025-01-01"; "2025-01-02"]
    ∧ Ga4.by_channel ts !! "Email" = Some [10; 0]
    ∧ Ga4.by_channel ts !! "Organic" = Some [0; 0]
    ∧ NoDup (Ga4.dates ts).
Proof.
  destruct (time_series_dense ExampleSeries.ts_rows ExampleSeries.ts_readings)
    as (ts & Hts & _ & Hnodup & _).
  { repeat constructor; simpl; eauto. }
  exists ts. split; [exact Hts|].
  assert (∃ ts0,
            Ga4.process_time_series_response (Some ExampleSeries.ts_rows)
            = Ok (Some ts0)
            ∧ Ga4.dates ts0 = ["2025-01-01"; "2025-01-02"]
            ∧ Ga4.by_channel ts0 !! "Email" = Some [10; 0]
            ∧ Ga4.by_channel ts0 !! "Organic" = Some [0; 0])
    as (ts0 & Hrun & Hvalues).
  { eexists. split; [vm_compute; reflexivity|]. vm_compute. done. }
  rewrite Hts in Hrun. injection Hrun as <-.
  destruct Hvalues as (? & ? & ?). done.
Defined.

(** C6 as stated fails: a row with two dimension values whose session
    count is not a numeral makes the aggregator raise, and no table is
    returned. *)
Lemma time_series_unreadable_counterexample :
  Ga4.process_time_series_response
    (Some [Examples.row_of ["2025-01-01"; "Email"] ["10"];
           Examples.row_of ["2025-01-02"; "Organic"] ["n/a"]])
  = Raise ValueError.
Proof. reflexivity. Qed.

(** ** The substitution of bold spans *)

Section bold_spans.
Import Markdown.

Lemma length_split_lines (s : string) :
  length (split_lines s) = S (count_newlines s).
Proof.
  induction s as [|c s IH]; [done|]. simpl.
  destruct (Ascii.eqb c newline); simpl; [by rewrite IH|].
  destruct (split_lines s); simpl in *; lia.
Qed.

Lemma count_newlines_app (s t : string) :
  count_newlines (s ++ t) = (count_newlines s + count_newlines t)%nat.
Proof.
  induction s as [|c s IH]; [done|].
  change (count_newlines (String c (s ++ t))
          = (count_newlines (String c s) + count_newlines t)%nat).
  simpl. rewrite IH. lia.
Qed.

Lemma drop_app_length (s t : string) : drop (String.length s) (s ++ t) = t.
Proof.
  induction s as [|c s IH]; [by destruct t|].
  change (drop (S (String.length s)) (String c (s ++ t)) = t). by simpl.
Qed.

(** A group found by [lazy_group] holds no line end, stands before a
    closing marker, and is counted with that marker. *)
Lemma lazy_group_spec (s g : string) (n : nat) :
  lazy_group s = Some (g, n) →
  count_newlines g = 0%nat
  ∧ n = (String.length g + 2)%nat
  ∧ g ≠ EmptyString
  ∧ ∃ rest, s = (g ++ "**" ++ rest)%string.
Proof.
  revert g n. induction s as [|c s IH]; intros g n; [done|].
  cbn [lazy_group].
  destruct (Ascii.eqb c newline) eqn:Hc; [done|].
  destruct (startswith "**" s) eqn:Hs.
  - intros [= <- <-]. simpl. rewrite Hc.
    apply startswith_spec in Hs as [rest ->]. repeat split; [done|].
    by exists rest.
  - destruct (lazy_group s) as [[g' n']|]; [|done].
    intros [= <- <-].
    destruct (IH g' n' eq_refl) as (Hg & -> & _ & rest & ->).
    simpl. rewrite Hc, Hg. repeat split; [done|]. by exists rest.
Qed.

Lemma sub_bold_from_skip (k : nat) (s : string) :
  sub_bold_from k s = sub_bold_from 0 (drop k s).
Proof.
  revert k. induction s as [|c s IH]; intros [|k]; try done.
  simpl. apply IH.
Qed.

Lemma sub_bold_from_cons (c : ascii) (s : string) :
  sub_bold_from 0 (String c s)
  = match match_bold (String c s) with
    | Some (g, n) =>
        ("<strong>" ++ g ++ "</strong>" ++ sub_bold_from (n - 1) s)%string
    | None => String c (sub_bold_from 0 s)
    end.
Proof. reflexivity. Qed.

Lemma drop_group (g rest : string) :
  drop (String.length g + 2) (g ++ "**" ++ rest) = rest.
Proof.
  induction g as [|c g IH]; [done|].
  change (drop (S (String.length g + 2)) (String c (g ++ "**" ++ rest))
          = rest).
  apply IH.
Qed.

(** A match of the pattern is the two markers around the group, and the
    replacement resumes right after it. *)
Lemma sub_bold_match (s g : string) (n : nat) :
  match_bold s = Some (g, n) →
  ∃ rest, s = ("**" ++ g ++ "**" ++ rest)%string
          ∧ count_newlines g = 0%nat
          ∧ g ≠ EmptyString
          ∧ sub_bold_from 0 s
            = ("<strong>" ++ g ++ "</strong>" ++ sub_bold_from 0 rest)%string.
Proof.
  intros Hm.
  assert (∃ rest, s = ("**" ++ g ++ "**" ++ rest)%string
                  ∧ count_newlines g = 0%nat
                  ∧ g ≠ EmptyString
                  ∧ n = (2 + (String.length g + 2))%nat)
    as (rest & -> & Hnl & Hne & ->).
  { unfold match_bold in Hm.
    destruct (startswith "**" s) eqn:Hs; [|done].
    apply startswith_spec in Hs as [s2 ->].
    change (drop 2 ("**" ++ s2)) with s2 in Hm.
    destruct (lazy_group s2) as [[g' n']|] eqn:Hg; [|done].
    injection Hm as <- <-.
    destruct (lazy_group_spec _ _ _ Hg) as (Hnl & -> & Hne & rest & ->).
    by exists rest. }
  exists rest. repeat split; [done..|].
  change ("**" ++ g ++ "**" ++ rest)%string
    with (String "*" (String "*" (g ++ "**" ++ rest)))%string in *.
  rewrite sub_bold_from_cons, Hm.
  replace (2 + (String.length g + 2) - 1)%nat
    with (S (String.length g + 2)) at 1 by lia.
  change (sub_bold_from (S (String.length g + 2))
            (String "*" (g ++ "**" ++ rest)))
    with (sub_bold_from (String.length g + 2) (g ++ "**" ++ rest)).
  by rewrite sub_bold_from_skip, drop_group.
Qed.

Lemma length_append (s t : string) :
  String.length (s ++ t) = (String.length s + String.length t)%nat.
Proof.
  induction s as [|c s IH]; [done|].
  change (S (String.length (s ++ t))
          = S (String.length s + String.length t)).
  by rewrite IH.
Qed.

Lemma sub_bold_from_lines (n : nat) (s : string) :
  (String.length s ≤ n)%nat →
  count_newlines (sub_bold_from 0 s) = count_newlines s.
Proof.
  revert s. induction n as [|n IH]; intros s Hn.
  { destruct s; [done | simpl in Hn; lia]. }
  destruct s as [|c s]; [done|].
  destruct (match_bold (String c s)) as [[g k]|] eqn:Hm.
  - destruct (sub_bold_match _ _ _ Hm) as (rest & Hs & Hg & _ & ->).
    rewrite Hs, !count_newlines_app, Hg.
    rewrite IH; [done|].
    apply (f_equal String.length) in Hs.
    rewrite !length_append in Hs. simpl in Hs, Hn. lia.
  - cbn [sub_bold_from]. rewrite Hm. simpl. rewrite IH; [done|].
    simpl in Hn. lia.
Qed.

Lemma sub_bold_plain (s : string) :
  contains "**" s = false → sub_bold s = s.
Proof.
  unfold sub_bold. induction s as [|c s IH]; [done|].
  cbn [contains]. intros [Hs Hc]%orb_false_iff.
  cbn [sub_bold_from]. unfold match_bold. rewrite Hs. by rewrite IH.
Qed.

Lemma append_inv_head (p s t : string) : (p ++ s = p ++ t)%string → s = t.
Proof.
  induction p as [|c p IH]; [done|].
  change (String c (p ++ s) = String c (p ++ t) → s = t).
  intros [= Heq]. by apply IH.
Qed.

(** Whether a marker begins at a character depends on that character and
    the next one only. *)
Lemma startswith_marker_ext (a : ascii) (s t : string) :
  startswith "**" (String a (s ++ "*")) = false →
  startswith "**" (String a (s ++ "**" ++ t)) = false.
Proof.
  destruct s as [|b s].
  - change (EmptyString ++ "*")%string with "*".
    change (EmptyString ++ "**" ++ t)%string with (String "*" (String "*" t)).
    simpl. by destruct (Ascii.eqb "*" a).
  - change (String b s ++ "*")%string with (String b (s ++ "*")).
    change (String b s ++ "**" ++ t)%string with (String b (s ++ "**" ++ t)).
    simpl. by destruct (Ascii.eqb "*" a), (Ascii.eqb "*" b).
Qed.

Lemma lazy_group_cons (c : ascii) (s : string) :
  lazy_group (String c s)
  = if Ascii.eqb c newline then None
    else if startswith "**" s then Some (String c EmptyString, 3%nat)
    else match lazy_group s with
         | Some (g, n) => Some (String c g, S n)
         | None => None
         end.
Proof. reflexivity. Qed.

(** The lazy group stops at the first closing marker that leaves it one
    character at least. *)
Lemma lazy_group_found (c : ascii) (g rest : string) :
  count_newlines (String c g) = 0%nat →
  contains "**" (g ++ "*") = false →
  lazy_group (String c g ++ "**" ++ rest)
  = Some (String c g, (String.length (String c g) + 2)%nat).
Proof.
  revert c. induction g as [|d g IH]; intros c Hnl Hclose.
  - change (String c EmptyString ++ "**" ++ rest)%string
      with (String c (String "*" (String "*" rest))).
    cbn [lazy_group count_newlines] in *.
    destruct (Ascii.eqb c newline); [done|]. reflexivity.
  - change (String c (String d g) ++ "**" ++ rest)%string
      with (String c (String d (g ++ "**" ++ rest))).
    change (String d g ++ "*")%string with (String d (g ++ "*")) in Hclose.
    cbn [contains] in Hclose. apply orb_false_iff in Hclose as [Hd Hclose].
    rewrite lazy_group_cons.
    change (count_newlines (String c (String d g)))
      with ((if Ascii.eqb c newline then 1 else 0)
            + count_newlines (String d g))%nat in Hnl.
    destruct (Ascii.eqb c newline); [done|].
    rewrite (startswith_marker_ext _ _ _ Hd).
    change (String d (g ++ "**" ++ rest))
      with (String d g ++ "**" ++ rest)%string.
    by rewrite (IH d Hnl Hclose).
Qed.

(** Before the first marker the text is copied. *)
Lemma sub_bold_skip_plain (pre s : string) :
  contains "**" (pre ++ "*") = false →
  sub_bold_from 0 (pre ++ "**" ++ s)
  = (pre ++ sub_bold_from 0 ("**" ++ s))%string.
Proof.
  induction pre as [|a pre IH]; [done|].
  change (String a pre ++ "*")%string with (String a (pre ++ "*")).
  cbn [contains]. intros [Ha Hpre]%orb_false_iff.
  change (String a pre ++ "**" ++ s)%string
    with (String a (pre ++ "**" ++ s)).
  rewrite sub_bold_from_cons. unfold match_bold.
  rewrite (startswith_marker_ext _ _ _ Ha). by rewrite IH.
Qed.

Lemma sub_bold_replaces_span (pre : string) (c : ascii) (g rest : string) :
  contains "**" (pre ++ "*") = false →
  count_newlines (String c g) = 0%nat →
  contains "**" (g ++ "*") = false →
  sub_bold (pre ++ "**" ++ String c g ++ "**" ++ rest)
  = (pre ++ "<strong>" ++ String c g ++ "</strong>" ++ sub_bold rest)%string.
Proof.
  intros Hpre Hnl Hclose. unfold sub_bold.
  rewrite (sub_bold_skip_plain _ _ Hpre). f_equal.
  assert (match_bold ("**" ++ String c g ++ "**" ++ rest)
          = Some (String c g, (2 + (String.length (String c g) + 2))%nat))
    as Hm.
  { unfold match_bold.
    change (startswith "**" ("**" ++ String c g ++ "**" ++ rest)) with true.
    change (drop 2 ("**" ++ String c g ++ "**" ++ rest))
      with (String c g ++ "**" ++ rest)%string.
    by rewrite (lazy_group_found _ _ _ Hnl Hclose). }
  destruct (sub_bold_match _ _ _ Hm) as (rest' & Hrest & _ & _ & ->).
  do 3 apply append_inv_head in Hrest. by rewrite Hrest.
Qed.

(** A character at which no span begins is copied. *)
Lemma sub_bold_copy (c : ascii) (text : string) :
  (∀ g rest, g ≠ EmptyString → count_newlines g = 0%nat →
             String c text ≠ ("**" ++ g ++ "**" ++ rest)%string) →
  sub_bold (String c text) = String c (sub_bold text).
Proof.
  intros Hnone. unfold sub_bold. rewrite sub_bold_from_cons.
  destruct (match_bold (String c text)) as [[g n]|] eqn:Hm; [|done].
  destruct (sub_bold_match _ _ _ Hm) as (rest & Hs & Hg & Hne & _).
  by destruct (Hnone g rest).
Qed.

End bold_spans.

(** ** The narrative formatter *)

Section narrative.
Import Markdown LineClassifier.

#[local] Arguments startswith : simpl never.
#[local] Arguments strip : simpl never.
#[local] Arguments drop : simpl never.

(** The branches of the loop body follow the classifier. *)
Lemma line_step_classify (in_list : bool) (line : string) :
  line_step in_list line
  = if is_bullet line
    then ((if in_list then [] else [UlOpen]) ++ [line_element line], true)
    else (close_list in_list ++ [line_element line], false).
Proof.
  unfold line_step, is_bullet, line_element, classify, patterns. simpl.
  destruct (startswith "### " (strip line)); simpl; [done|].
  destruct (startswith "## " (strip line)); simpl; [done|].
  destruct (startswith "* " (strip line)); simpl; [done|].
  destruct (startswith "- " (strip line)); simpl; [done|].
  by case_bool_decide.
Qed.

Lemma convert_lines_bullet (in_list : bool) (line : string)
    (lines : list string) :
  is_bullet line = true →
  convert_lines in_list (line :: lines)
  = (if in_list then [] else [UlOpen])
    ++ line_element line :: convert_lines true lines.
Proof.
  intros Hb. simpl. rewrite line_step_classify, Hb.
  by rewrite <- app_assoc.
Qed.

Lemma convert_lines_other (in_list : bool) (line : string)
    (lines : list string) :
  is_bullet line = false →
  convert_lines in_list (line :: lines)
  = close_list in_list ++ line_element line :: convert_lines false lines.
Proof.
  intros Hb. simpl. rewrite line_step_classify, Hb.
  by rewrite <- app_assoc.
Qed.

(** Inside a list, a run of bullets adds its items and nothing else. *)
Lemma convert_lines_run (run rest : list string) :
  Forall (λ l, is_bullet l = true) run →
  convert_lines true (run ++ rest)
  = (line_element <$> run) ++ convert_lines true rest.
Proof.
  induction 1 as [|l run Hl _ IH]; [done|].
  simpl app. rewrite (convert_lines_bullet _ _ _ Hl). simpl.
  by rewrite IH.
Qed.

(** An open list is closed by the end of the input or by the first line
    that is not a bullet. *)
Lemma convert_lines_close (rest : list string) :
  (∀ l, head rest = Some l → is_bullet l = false) →
  convert_lines true rest = UlClose :: convert_lines false rest.
Proof.
  destruct rest as [|l rest]; [done|]. intros Hl.
  rewrite (convert_lines_other true _ _ (Hl l eq_refl)).
  by rewrite (convert_lines_other false _ _ (Hl l eq_refl)).
Qed.

(** After a line that is not a bullet no list is open: what follows is
    converted on its own. *)
Lemma convert_lines_after_other (in_list : bool) (pre rest : list string)
    (l : string) :
  last pre = Some l → is_bullet l = false →
  convert_lines in_list (pre ++ rest)
  = convert_lines in_list pre ++ convert_lines false rest.
Proof.
  revert in_list. induction pre as [|x pre IH]; intros in_list; [done|].
  destruct pre as [|y pre].
  - intros [= ->] Hl. simpl.
    rewrite line_step_classify, Hl. simpl. by rewrite app_nil_r.
  - intros Hlast Hl. specialize (λ b, IH b Hlast Hl).
    change ((x :: y :: pre) ++ rest) with (x :: ((y :: pre) ++ rest)).
    destruct (is_bullet x) eqn:Hx.
    + rewrite (convert_lines_bullet _ _ ((y :: pre) ++ rest) Hx), IH.
      rewrite (convert_lines_bullet _ _ (y :: pre) Hx).
      by rewrite <- app_assoc.
    + rewrite (convert_lines_other _ _ ((y :: pre) ++ rest) Hx), IH.
      rewrite (convert_lines_other _ _ (y :: pre) Hx).
      by rewrite <- app_assoc.
Qed.

Lemma line_element_not_bracket (line : string) :
  is_bracket (line_element line) = false.
Proof. unfold line_element. by destruct (classify line). Qed.

(** Apart from the brackets, the loop emits the entry of each line. *)
Lemma convert_lines_entries (in_list : bool) (lines : list string) :
  filter (λ e, ¬ is_bracket e) (convert_lines in_list lines)
  = line_element <$> lines.
Proof.
  assert (∀ b, filter (λ e, ¬ is_bracket e) (close_list b) = []) as Hclose
    by (by intros []).
  assert (∀ l rest, filter (λ e, ¬ is_bracket e) (line_element l :: rest)
                    = line_element l :: filter (λ e, ¬ is_bracket e) rest)
    as Hentry.
  { intros l rest. rewrite filter_cons, decide_True; [done|].
    rewrite line_element_not_bracket. by intros []. }
  revert in_list. induction lines as [|l lines IH]; intros in_list.
  - apply Hclose.
  - destruct (is_bullet l) eqn:Hl.
    + rewrite (convert_lines_bullet _ _ _ Hl), filter_app, Hentry, IH.
      by destruct in_list.
    + rewrite (convert_lines_other _ _ _ Hl), filter_app, Hentry, IH.
      by rewrite Hclose.
Qed.

(** C9.  The empty text gives the empty output.  Any other text is split
    into lines after its bold spans are converted, and the output is the
    entries of [convert_lines], one per line of text.  Each line contributes
    the entry of the first pattern it matches, in the order sub-heading,
    heading, bullet, fallback.  Every maximal run of bullet lines comes out
    as one list: an opening bracket, the items of the run, and a closing
    bracket placed before the entry of the line that follows the run, or at
    the end of the output when nothing follows.  Lines that are not bullets
    produce no bracket.  The input "### Title\n* a\n* b\n" gives the heading
    "Title", then one list holding the items "a" and "b", closed before the
    final break; its output and the output of "## Plan\nA **b** c" are the
    texts given, tag for tag.  Bold spans are converted first: a text
    without two adjacent stars is unchanged; where the text before an
    opening marker holds no marker and does not end in a star, and the
    group between the markers is not empty, holds no line end and no
    closing marker after its first character, the markers become the tags
    around the group and the conversion goes on after the closing marker;
    a character at which no span begins is copied. *)
Theorem narrative_formatting :
  markdown_to_html EmptyString = EmptyString
  ∧ (∀ text,
       text ≠ EmptyString →
       markdown_to_html text
       = join_lines (element_html
                       <$> convert_lines false (split_lines (sub_bold text))))
  ∧ (∀ text,
       filter (λ e, ¬ is_bracket e)
              (convert_lines false (split_lines (sub_bold text)))
       = line_element <$> split_lines (sub_bold text))
  ∧ (∀ pre run post,
       run ≠ [] →
       Forall (λ l, classify l = Bullet) run →
       (∀ l, last pre = Some l → classify l ≠ Bullet) →
       (∀ l, head post = Some l → classify l ≠ Bullet) →
       convert_lines false (pre ++ run ++ post)
       = convert_lines false pre
         ++ UlOpen :: (line_element <$> run)
         ++ UlClose :: convert_lines false post)
  ∧ (∀ lines,
       Forall (λ l, classify l ≠ Bullet) lines →
       convert_lines false lines = line_element <$> lines)
  ∧ markdown_elements ExampleNarrative.titled_list
    = [H4 "Title"; UlOpen; Li "a"; Li "b"; UlClose; Br]
  ∧ markdown_to_html ExampleNarrative.titled_list
    = join_lines (element_html
                    <$> [H4 "Title"; UlOpen; Li "a"; Li "b"; UlClose; Br])
  ∧ markdown_to_html ExampleNarrative.titled_list
    = ("<h4 style=" ++ dq
       ++ "color: #2ea3f2; margin: 15px 0 10px 0; font-weight: 600;"
       ++ dq ++ ">Title</h4>" ++ ExampleNarrative.nl
       ++ "<ul style=" ++ dq ++ "margin: 10px 0; padding-left: 20px;"
       ++ dq ++ ">" ++ ExampleNarrative.nl
       ++ "<li style=" ++ dq ++ "margin: 5px 0;" ++ dq ++ ">a</li>"
       ++ ExampleNarrative.nl
       ++ "<li style=" ++ dq ++ "margin: 5px 0;" ++ dq ++ ">b</li>"
       ++ ExampleNarrative.nl
       ++ "</ul>" ++ ExampleNarrative.nl ++ "<br/>")%string
  ∧ markdown_to_html ("## Plan" ++ ExampleNarrative.nl ++ "A **b** c")%string
    = ("<h3 style=" ++ dq
       ++ "color: #1d1973; margin: 15px 0 10px 0; font-weight: 600;"
       ++ dq ++ ">Plan</h3>" ++ ExampleNarrative.nl
       ++ "<p style=" ++ dq ++ "margin: 10px 0;" ++ dq
       ++ ">A <strong>b</strong> c</p>")%string
  ∧ (∀ text, contains "**" text = false → sub_bold text = text)
  ∧ (∀ pre c g rest,
       contains "**" (pre ++ "*")%string = false →
       count_newlines (String c g) = 0%nat →
       contains "**" (g ++ "*")%string = false →
       sub_bold (pre ++ "**" ++ String c g ++ "**" ++ rest)%string
       = (pre ++ "<strong>" ++ String c g ++ "</strong>"
              ++ sub_bold rest)%string)
  ∧ (∀ c text,
       (∀ g rest, g ≠ EmptyString → count_newlines g = 0%nat →
                  String c text ≠ ("**" ++ g ++ "**" ++ rest)%string) →
       sub_bold (String c text) = String c (sub_bold text)).
Proof.
  split; [done|]. split; [|split; [|split; [|split; [|split]]]].
  - intros text Htext. unfold markdown_to_html.
    by rewrite bool_decide_eq_false_2.
  - intros text. apply convert_lines_entries.
  - intros pre run post Hrun Hbullets Hpre Hpost.
    assert (convert_lines false (run ++ post)
            = UlOpen :: (line_element <$> run)
              ++ UlClose :: convert_lines false post) as Hlist.
    { destruct Hbullets as [|l run Hl Hbullets]; [done|].
      simpl app. rewrite convert_lines_bullet
        by (by unfold is_bullet; rewrite bool_decide_eq_true).
      rewrite convert_lines_run.
      - rewrite convert_lines_close; [done|].
        intros x Hx. unfold is_bullet. rewrite bool_decide_eq_false.
        by apply Hpost.
      - eapply Forall_impl; [exact Hbullets|]. simpl. intros x Hx.
        by unfold is_bullet; rewrite bool_decide_eq_true. }
    destruct (last pre) as [l|] eqn:Hlast.
    + rewrite (convert_lines_after_other _ _ _ l Hlast), Hlist; [done|].
      unfold is_bullet. rewrite bool_decide_eq_false. by apply Hpre.
    + apply last_None in Hlast as ->. exact Hlist.
  - intros lines Hlines. induction Hlines as [|l lines Hl _ IH]; [done|].
    rewrite convert_lines_other, IH; [done|].
    unfold is_bullet. by rewrite bool_decide_eq_false.
  - reflexivity.
  - split; [reflexivity|]. split; [reflexivity|]. split; [reflexivity|].
    split; [apply sub_bold_plain|].
    split; [apply sub_bold_replaces_span | apply sub_bold_copy].
Qed.

End narrative.

(** Two runs of bullets separated by a heading: each run has its own
    list; and a bold span inside a bullet line. *)
Lemma narrative_formatting_witness :
  Markdown.convert_lines false ExampleNarrative.two_lists
  = [Markdown.P "Intro"; Markdown.UlOpen; Markdown.Li "one";
     Markdown.Li "<strong>two</strong>"; Markdown.UlClose;
     Markdown.H3 "Middle"; Markdown.UlOpen; Markdown.Li "three";
     Markdown.UlClose]
  ∧ Markdown.sub_bold "* **two** more" = "* <strong>two</strong> more".
Proof.
  destruct narrative_formatting
    as (_ & _ & _ & Hrun & _ & _ & _ & _ & _ & Hplain & Hspan & _).
  split.
  - etrans.
    + apply (Hrun ["Intro"] ["- one"; "* <strong>two</strong>"]
               ["  ## Middle"; "* three"]).
      * discriminate.
      * repeat constructor.
      * by intros l [= <-].
      * by intros l [= <-].
    + reflexivity.
  - etrans.
    + apply (Hspan "* " "t"%char "wo" " more"); reflexivity.
    + by rewrite (Hplain " more").
Defined.

(** ** The job *)

Section job_facts.
Import Ga4 Job.
Context `{Numerals} (w : world).
Context (period_start period_end prev_period_start prev_period_end : string).

Lemma bind_run {A B} (m : M A) (k : A → M B) (t t' : list event) (a : A) :
  m t = (Ok a, t') → (m ≫= k) t = k a t'.
Proof. intros Hm. unfold mbind, M_bind. by rewrite Hm. Qed.

Lemma bind_raise {A B} (m : M A) (k : A → M B) (t t' : list event) (e : exn) :
  m t = (Raise e, t') → (m ≫= k) t = (Raise e, t').
Proof. intros Hm. unfold mbind, M_bind. by rewrite Hm. Qed.

Lemma try_except_ok {A} (body : M A) (handler : exn → M A)
    (t t' : list event) (a : A) :
  body t = (Ok a, t') → try_except body handler t = (Ok a, t').
Proof. intros Hb. unfold try_except. by rewrite Hb. Qed.

Lemma run_report_ok (q : query) (result : api_result) (t : list event) :
  http_post w q = Ok result →
  run_report w q t = (Ok (convert_result result), t ++ [AnalyticsQuery q]).
Proof.
  intros Hq. unfold run_report. apply try_except_ok.
  unfold mbind, M_bind, emit, lift, mret, M_ret. by rewrite Hq.
Qed.

(** The narrative request never raises and sends no mail. *)
Lemma generate_insights_run (prompt : string) (t : list event) :
  ∃ insights evs,
    generate_insights_with_gemini w prompt t = (Ok insights, t ++ evs)
    ∧ mail_recipients evs = [].
Proof.
  unfold generate_insights_with_gemini, try_except, mbind, M_bind, emit, lift,
    mret, M_ret.
  destruct (generate_content w prompt) as [text|e].
  - by exists text, [NarrativeRequest prompt].
  - eexists _, [_; _]. rewrite <- app_assoc. by split.
Qed.

(** Neither does the storage write. *)
Lemma save_to_cloud_storage_run (data : Snapshot) (ps pe insights : string)
    (t : list event) :
  ∃ saved evs,
    save_to_cloud_storage w data ps pe insights t = (Ok saved, t ++ evs)
    ∧ mail_recipients evs = [].
Proof.
  unfold save_to_cloud_storage, try_except, mbind, M_bind, emit, lift,
    mret, M_ret.
  destruct (upload_from_string w _ _) as [[]|e].
  - eexists true, [_]. by split.
  - eexists false, [_; _]. rewrite <- app_assoc. by split.
Qed.

(** One pass of the delivery loop: it never raises, and what it does
    depends on its recipient only. *)
Lemma deliver_one_run (processed_data prev : processed)
    (rates : gmap string Q) (campaigns : list CampaignRow)
    (insights_html recipient : string) (t : list event) :
  deliver_one w period_start period_end prev_period_start prev_period_end
    processed_data prev rates campaigns insights_html recipient t
  = (Ok tt,
     t ++ recipient_events w (subject period_start period_end)
            (report_request period_start period_end prev_period_start
               prev_period_end processed_data prev rates campaigns)
            insights_html recipient).
Proof.
  unfold deliver_one, recipient_events, send_email_simple, try_except,
    mbind, M_bind, emit, lift, mret, M_ret.
  destruct (render_html w _) as [html|e]; [|done].
  destruct (gmail_send w _ _ _) as [id|e]; simpl.
  - done.
  - by rewrite <- !app_assoc.
Qed.

Lemma deliver_run (processed_data prev : processed)
    (rates : gmap string Q) (campaigns : list CampaignRow)
    (insights_html : string) (rs : list string) (t : list event) :
  deliver w period_start period_end prev_period_start prev_period_end
    processed_data prev rates campaigns insights_html rs t
  = (Ok tt,
     t ++ concat (recipient_events w (subject period_start period_end)
                    (report_request period_start period_end prev_period_start
                       prev_period_end processed_data prev rates campaigns)
                    insights_html <$> rs)).
Proof.
  revert t. induction rs as [|r rs IH]; intros t; simpl.
  - by rewrite app_nil_r.
  - erewrite bind_run by apply deliver_one_run.
    rewrite IH. by rewrite <- app_assoc.
Qed.

(** The mails of the loop go to the recipients whose page could be
    rendered, in list order. *)
Lemma recipient_events_mails (subj : string)
    (request : string → render_request) (insights_html : string)
    (rs : list string) :
  mail_recipients (concat (recipient_events w subj request insights_html <$> rs))
  = filter (λ r, is_ok (render_html w (request r))) rs.
Proof.
  unfold mail_recipients. induction rs as [|r rs IH]; [done|].
  rewrite fmap_cons, concat_cons, omap_app, IH, filter_cons.
  unfold recipient_events.
  destruct (render_html w (request r)) as [html|e]; simpl; [|done].
  by destruct (gmail_send w _ _ _).
Qed.

(** C8.  When the current-period query succeeds and its rows aggregate to
    a snapshot without channels, the job returns normally (the bare
    [return], no result) after the one analytics query and the warning:
    no narrative request, no storage write and no mail. *)
Theorem empty_month_sends_nothing (result : api_result) (p : processed) :
  http_post w (current_query period_start period_end) = Ok result →
  process_ga4_response (convert_result result) = Ok p →
  channels_of p = [] →
  ∃ trace,
    run (run_monthly_analysis w period_start period_end prev_period_start
           prev_period_end)
    = (Ok None, trace)
    ∧ trace = [AnalyticsQuery (current_query period_start period_end);
               LogWarning "No data to report"]
    ∧ Forall (λ e, is_side_effect e = false) trace.
Proof.
  intros Hquery Hprocess Hchannels. eexists. split; [|split; [reflexivity|]].
  - unfold run, run_monthly_analysis. apply try_except_ok.
    erewrite bind_run by (by apply run_report_ok).
    erewrite bind_run by (unfold lift; by rewrite Hprocess).
    destruct p as [data|]; simpl in Hchannels; [rewrite Hchannels|]; done.
  - by repeat constructor.
Qed.

(** The failure of C7 reaches the job: a current-period row without
    dimension values aborts the run after the first query, with nothing
    sent. *)
Lemma row_without_dimensions_aborts_job (mets : option (list string))
    (rows : list api_row) :
  http_post w (current_query period_start period_end)
  = Ok (ApiResult (Some (ApiRow (Some []) mets :: rows))) →
  run (run_monthly_analysis w period_start period_end prev_period_start
         prev_period_end)
  = (Raise IndexError,
     [AnalyticsQuery (current_query period_start period_end);
      LogError "Error in monthly analysis"]).
Proof.
  intros Hquery. unfold run, run_monthly_analysis, try_except.
  erewrite bind_run by (by apply run_report_ok).
  by erewrite bind_raise by done.
Qed.

(** A response without rows aggregates to a snapshot without channels. *)
Lemma no_rows_no_channels (result : api_result) :
  default [] (api_rows result) = [] →
  ∃ p, process_ga4_response (convert_result result) = Ok p
       ∧ channels_of p = [].
Proof.
  intros Hrows. unfold convert_result. rewrite Hrows.
  by eexists.
Qed.

Lemma save_warning_run (saved : bool) (t : list event) :
  (if saved then mret tt
   else emit (LogWarning "Failed to save analytics data to Cloud Storage")) t
  = (Ok tt,
     t ++ if saved then []
          else [LogWarning "Failed to save analytics data to Cloud Storage"]).
Proof. destruct saved; [|done]. unfold mret, M_ret. by rewrite app_nil_r. Qed.

(** C10.  When the three analytics queries succeed and the current month
    has channels, the job reaches the delivery loop and ends with a success
    result whatever the renderer and the mail service do: the loop goes
    through the recipients in list order, what it does for one recipient
    depends on that recipient alone (a render failure is logged, a refused
    mail is logged), and a mail is attempted for every recipient whose page
    could be rendered. *)
Theorem delivery_isolates_failures (current campaigns_raw previous : api_result)
    (data : Snapshot) (campaigns : list CampaignRow) (prev : processed) :
  http_post w (current_query period_start period_end) = Ok current →
  process_ga4_response (convert_result current) = Ok (Some data) →
  channels data ≠ [] →
  http_post w (campaign_query period_start period_end) = Ok campaigns_raw →
  process_campaign_response (convert_result campaigns_raw) = Ok campaigns →
  http_post w (previous_query prev_period_start prev_period_end) = Ok previous →
  process_ga4_response (convert_result previous) = Ok prev →
  let rates := calculate_evolution_rates (Some data) prev in
  let request :=
    report_request period_start period_end prev_period_start prev_period_end
      (Some data) prev rates campaigns in
  ∃ before insights_html result,
    run (run_monthly_analysis w period_start period_end prev_period_start
           prev_period_end)
    = (Ok (Some result),
       before ++ concat (recipient_events w (subject period_start period_end)
                           request insights_html <$> RECIPIENTS))
    ∧ mail_recipients before = []
    ∧ status result = "success"
    ∧ recipients result = RECIPIENTS
    ∧ mail_recipients
        (before ++ concat (recipient_events w (subject period_start period_end)
                             request insights_html <$> RECIPIENTS))
      = filter (λ r, is_ok (render_html w (request r))) RECIPIENTS.
Proof.
  intros Hq1 Hp1 Hch Hq2 Hp2 Hq3 Hp3 rates request.
  destruct (channels data) as [|c cs] eqn:Hcs; [done|].
  set (t3 := (([] ++ [AnalyticsQuery (current_query period_start period_end)])
              ++ [AnalyticsQuery (campaign_query period_start period_end)])
             ++ [AnalyticsQuery
                   (previous_query prev_period_start prev_period_end)]).
  destruct (generate_insights_run (insights_prompt w data rates) t3)
    as (insights & e1 & Hinsights & Hm1).
  destruct (save_to_cloud_storage_run data period_start period_end insights
              (t3 ++ e1)) as (saved & e2 & Hsave & Hm2).
  eexists (((t3 ++ e1) ++ e2) ++ _), (Markdown.markdown_to_html insights), _.
  split; [|split; [|split; [|split]]].
  - unfold run, run_monthly_analysis. apply try_except_ok.
    erewrite bind_run by (by apply run_report_ok).
    erewrite bind_run by (unfold lift; by rewrite Hp1).
    cbv beta iota. rewrite Hcs.
    erewrite bind_run by (by apply run_report_ok).
    erewrite bind_run by (unfold lift; by rewrite Hp2).
    erewrite bind_run by (by apply run_report_ok).
    erewrite bind_run by (unfold lift; by rewrite Hp3).
    cbv zeta. fold rates. fold t3.
    erewrite bind_run by exact Hinsights.
    erewrite bind_run by exact Hsave.
    erewrite bind_run by apply save_warning_run.
    erewrite bind_run by apply deliver_run.
    reflexivity.
  - unfold mail_recipients in *. rewrite !omap_app, Hm1, Hm2.
    by destruct saved.
  - done.
  - done.
  - rewrite (omap_app _ _ _ : mail_recipients (_ ++ _) = _).
    rewrite recipient_events_mails.
    unfold mail_recipients in *. rewrite !omap_app, Hm1, Hm2.
    by destruct saved.
Qed.

End job_facts.

(** A month without rows: one query, one warning, and nothing else. *)
Lemma empty_month_sends_nothing_witness :
  Job.run (Job.run_monthly_analysis ExampleWorlds.quiet_month
             "2026-10-01" "2026-10-31" "2026-09-01" "2026-09-30")
  = (Ok None,
     [Job.AnalyticsQuery (Job.current_query "2026-10-01" "2026-10-31");
      Job.LogWarning "No data to report"]).
Proof.
  destruct (empty_month_sends_nothing ExampleWorlds.quiet_month
              "2026-10-01" "2026-10-31" "2026-09-01" "2026-09-30"
              (Ga4.ApiResult (Some []))
              (Some (Ga4.sort_channels Ga4.empty_snapshot)))
    as (trace & Hrun & -> & _); [reflexivity | reflexivity | reflexivity |].
  exact Hrun.
Defined.

(** A month in which the narrative and storage services are down, the
    renderer fails for the second recipient and the mail service refuses
    the first: the job succeeds and a mail is attempted for the four
    recipients whose page was rendered. *)
Lemma delivery_isolates_failures_witness :
  ∃ trace result,
    Job.run (Job.run_monthly_analysis ExampleWorlds.rough_month
               "2026-10-01" "2026-10-31" "2026-09-01" "2026-09-30")
    = (Ok (Some result), trace)
    ∧ Job.status result = "success"
    ∧ mail_recipients trace
      = ["mjacobson@avisia.fr"; "adejullien@avisia.fr"; "btran@avisia.fr";
         "gbertin@avisia.fr"].
Proof.
  destruct (delivery_isolates_failures ExampleWorlds.rough_month
              "2026-10-01" "2026-10-31" "2026-09-01" "2026-09-30"
              (Ga4.ApiResult
                 (Some [Ga4.ApiRow (Some ["Email"]) (Some ["12"])]))
              (Ga4.ApiResult
                 (Some [Ga4.ApiRow (Some ["Email"]) (Some ["12"])]))
              (Ga4.ApiResult
                 (Some [Ga4.ApiRow (Some ["Email"]) (Some ["12"])]))
              ExampleWorlds.rough_snapshot ExampleWorlds.rough_campaigns
              (Some ExampleWorlds.rough_snapshot))
    as (before & insights_html & result & Hrun & _ & Hstatus & _ & Hmails);
    [reflexivity | reflexivity | discriminate | reflexivity | reflexivity
    | reflexivity | reflexivity |].
  eexists _, result. split; [exact Hrun|]. split; [exact Hstatus|].
  rewrite Hmails. reflexivity.
Defined.

(** * Further properties *)

(** ** The snapshot the channel aggregator returns *)

Section snapshot_invariants.
Import Ga4.
Context `{Numerals}.

Lemma sum_Z_Permutation (l1 l2 : list Z) : l1 ≡ₚ l2 → sum_Z l1 = sum_Z l2.
Proof.
  unfold sum_Z.
  induction 1 as [|x l1 l2 _ IH|x y l|l1 l2 l3 _ IH1 _ IH2]; simpl; lia.
Qed.

Lemma accumulate_total_sessions (s : Snapshot) (cds : list ChannelMetric) :
  total_sessions (foldl accumulate s cds)
  = total_sessions s + sum_Z (sessions <$> cds).
Proof.
  unfold sum_Z.
  revert s. induction cds as [|cd cds IH]; intros s; simpl; [lia|].
  rewrite IH. simpl. by rewrite Z.add_assoc.
Qed.

Lemma accumulate_total_conversions (s : Snapshot) (cds : list ChannelMetric) :
  total_conversions (foldl accumulate s cds)
  = total_conversions s + sum_Z (conversions <$> cds).
Proof.
  unfold sum_Z.
  revert s. induction cds as [|cd cds IH]; intros s; simpl; [lia|].
  rewrite IH. simpl. by rewrite Z.add_assoc.
Qed.

(** X1.  The integer totals of a returned snapshot, sessions and
    conversions, are the sums over its channel list, a label that occurs
    in several rows counting once per row. *)
Theorem snapshot_totals_are_sums (rows : list row) (snap : Snapshot) :
  process_ga4_response (Some rows) = Ok (Some snap) →
  total_sessions snap = sum_Z (sessions <$> channels snap)
  ∧ total_conversions snap = sum_Z (conversions <$> channels snap).
Proof.
  rewrite process_ga4_response_read.
  destruct (mapM channel_data_of_row rows) as [cds|e]; [|done].
  simpl. intros [= <-]. simpl.
  rewrite accumulate_channels, accumulate_total_sessions,
    accumulate_total_conversions. simpl.
  pose proof (sort_desc_Permutation sessions cds) as Hperm.
  split.
  - apply sum_Z_Permutation. by rewrite Hperm.
  - apply sum_Z_Permutation. by rewrite Hperm.
Qed.

(** X2.  When every row can be read, the channel list of the snapshot holds
    the rows' channels, one entry per row, in non-increasing order of
    sessions, channels with equal sessions keeping their row order. *)
Theorem channel_list_ranked (rows : list row) (cds : list ChannelMetric) :
  mapM channel_data_of_row rows = Ok cds →
  ∃ snap,
    process_ga4_response (Some rows) = Ok (Some snap)
    ∧ channels snap ≡ₚ cds
    ∧ descending sessions (channels snap)
    ∧ ∀ k, filter (λ c, sessions c = k) (channels snap)
           = filter (λ c, sessions c = k) cds.
Proof.
  intros Hread. rewrite process_ga4_response_read, Hread. simpl.
  eexists. split; [reflexivity|]. simpl. rewrite accumulate_channels. simpl.
  split; [|split].
  - apply sort_desc_Permutation.
  - apply sort_desc_descending.
  - intros k. apply sort_desc_stable.
Qed.

Lemma mapM_length (A B : Type) (f : A → res B) (l : list A) (ys : list B) :
  mapM f l = Ok ys → length ys = length l.
Proof.
  rewrite mapM_Forall2. intros Hall. symmetry.
  by eapply Forall2_length.
Qed.

(** What the aggregator reads from a row that [run_report] converted: the
    first dimension of the API row, as it is. *)
Lemma converted_row_label (ar : api_row) (cd : ChannelMetric) :
  channel_data_of_row (convert_row ar) = Ok cd →
  ∃ ds, api_dimensions ar = Some (channel cd :: ds).
Proof.
  unfold channel_data_of_row, first_dimension, convert_row. simpl.
  destruct (api_dimensions ar) as [[|d ds]|]; simpl; [done| |done].
  destruct (metric_int _ 0%nat) as [s|]; simpl; [|done].
  destruct (metric_int _ 1%nat) as [c|]; simpl; [|done].
  destruct (metric_float _ 2%nat) as [rv|]; simpl; [|done].
  destruct (metric_float _ 3%nat) as [er|]; simpl; [|done].
  destruct (metric_float _ 4%nat) as [du|]; simpl; [|done].
  intros [= <-]. simpl. by exists ds.
Qed.

(** X3.  On a response that went through [run_report], the aggregator
    never answers with the empty dict: it returns a snapshot with one
    channel per API row, each labelled with the first dimension of its row
    as the API sent it (the "Unknown" default is not used).  So the
    snapshot is without channels exactly when the API sent no row. *)
Theorem converted_response_snapshot (result : api_result) (p : processed) :
  process_ga4_response (convert_result result) = Ok p →
  ∃ snap,
    p = Some snap
    ∧ length (channels snap) = length (default [] (api_rows result))
    ∧ (channels_of p = [] ↔ default [] (api_rows result) = [])
    ∧ ∀ c, c ∈ channels snap →
           ∃ ar ds, ar ∈ default [] (api_rows result)
                    ∧ api_dimensions ar = Some (channel c :: ds).
Proof.
  unfold convert_result. rewrite process_ga4_response_read.
  destruct (mapM channel_data_of_row _) as [cds|e] eqn:Hread; [|done].
  simpl. intros [= <-]. eexists. split; [reflexivity|]. simpl.
  rewrite accumulate_channels. simpl.
  pose proof (sort_desc_Permutation sessions cds) as Hperm.
  assert (length (sort_desc sessions cds)
          = length (default [] (api_rows result))) as Hlen.
  { rewrite Hperm, (mapM_length _ _ _ _ _ Hread). apply length_fmap. }
  split; [done|]. split.
  - split; intros Hnil.
    + apply length_zero_iff_nil. rewrite <- Hlen, Hnil. done.
    + apply length_zero_iff_nil. rewrite Hlen, Hnil. done.
  - intros c Hc. rewrite Hperm in Hc.
    apply mapM_Forall2 in Hread.
    apply list_elem_of_lookup in Hc as [i Hi].
    destruct (Forall2_lookup_r _ _ _ _ _ Hread Hi) as (r & Hr & Hcd).
    rewrite list_lookup_fmap in Hr.
    destruct (default [] (api_rows result) !! i) as [ar|] eqn:Har; [|done].
    injection Hr as <-.
    destruct (converted_row_label ar c Hcd) as [ds Hds].
    exists ar, ds. split; [|done]. by eapply list_elem_of_lookup_2.
Qed.

End snapshot_invariants.

(** Three rows out of order, two of them with the same label: both totals
    count every row. *)
Lemma snapshot_totals_are_sums_witness :
  ∃ snap,
    Ga4.process_ga4_response (Some ExampleTotals.rows) = Ok (Some snap)
    ∧ Ga4.sessions <$> Ga4.channels snap = [10; 7; 3]
    ∧ Ga4.conversions <$> Ga4.channels snap = [1; 2; 4]
    ∧ Ga4.total_sessions snap = 20
    ∧ Ga4.total_conversions snap = 7.
Proof.
  eexists. split; [reflexivity|].
  split; [reflexivity|]. split; [reflexivity|].
  apply (snapshot_totals_are_sums ExampleTotals.rows). reflexivity.
Defined.

Lemma channel_list_ranked_witness :
  ∃ snap,
    Ga4.process_ga4_response (Some ExampleRows.spotlight_rows) = Ok (Some snap)
    ∧ Ga4.channels snap ≡ₚ ExampleRows.spotlight_channels
    ∧ descending Ga4.sessions (Ga4.channels snap).
Proof.
  destruct (channel_list_ranked ExampleRows.spotlight_rows
              ExampleRows.spotlight_channels)
    as (snap & Hsnap & Hperm & Hdesc & _); [reflexivity|].
  by exists snap.
Defined.

Lemma converted_response_snapshot_witness :
  ∃ snap,
    Ga4.process_ga4_response
      (Ga4.convert_result
         (Ga4.ApiResult (Some [Ga4.ApiRow (Some ["Email"]) (Some ["12"])])))
    = Ok (Some snap)
    ∧ length (Ga4.channels snap) = 1%nat.
Proof.
  destruct (converted_response_snapshot
              (Ga4.ApiResult (Some [Ga4.ApiRow (Some ["Email"]) (Some ["12"])]))
              (Some ExampleWorlds.rough_snapshot))
    as (snap & Hsnap & Hlen & _); [reflexivity|].
  exists snap. split; [|exact Hlen]. by rewrite <- Hsnap.
Defined.

(** ** Signs and bounds of a percentage change *)

Section percentages.

(** The change from a positive [p] to [a], in percent, has the sign of
    [a - p]. *)
Lemma percent_le_0 (a p : Z) :
  0 < p →
  Qle_bool (inject_Z (a - p) / inject_Z p * 100)%Q 0 = (a <=? p).
Proof.
  intros Hp. destruct p as [|pp|pp]; [lia| |lia].
  unfold Qle_bool, Qdiv, Qmult, Qinv, inject_Z. simpl.
  apply eq_iff_eq_true. rewrite !Z.leb_le. nia.
Qed.

Lemma percent_ge_0 (a p : Z) :
  0 < p →
  Qle_bool 0 (inject_Z (a - p) / inject_Z p * 100)%Q = (p <=? a).
Proof.
  intros Hp. destruct p as [|pp|pp]; [lia| |lia].
  unfold Qle_bool, Qdiv, Qmult, Qinv, inject_Z. simpl.
  apply eq_iff_eq_true. rewrite !Z.leb_le. nia.
Qed.

(** It is never below -100 when [a] is not negative. *)
Lemma percent_lower_bound (a p : Z) :
  0 < p → 0 ≤ a → (-100 <= inject_Z (a - p) / inject_Z p * 100)%Q.
Proof.
  intros Hp Ha. destruct p as [|pp|pp]; [lia| |lia].
  unfold Qle, Qdiv, Qmult, Qinv, inject_Z. simpl. nia.
Qed.

End percentages.

(** ** Bounds of the evolution map *)

Section evolution_bounds.
Import Ga4.

(** From a positive [p] to nothing the change is -100 percent. *)
Lemma percent_of_loss (p : Z) :
  0 < p → (inject_Z (0 - p) / inject_Z p * 100 == -100)%Q.
Proof.
  intros Hp. destruct p as [|pp|pp]; [lia| |lia].
  unfold Qeq, Qdiv, Qmult, Qinv, inject_Z. simpl. nia.
Qed.

(** X4.  When no current channel has negative sessions, no rate of the
    evolution map is below -100, and the rate of a channel that had
    sessions in the previous month and has none now is -100. *)
Theorem evolution_rates_lower_bound (current previous : processed)
    (label : string) (q : Q) :
  Forall (λ c, 0 ≤ sessions c) (channels_of current) →
  calculate_evolution_rates current previous !! label = Some q →
  (-100 <= q)%Q
  ∧ ∀ c, last_entry channel label (channels_of current) = Some c →
         sessions c = 0 →
         0 < default 0 (previous_by_channel previous !! label) →
         (q == -100)%Q.
Proof.
  intros Hpos. rewrite calculate_evolution_rates_lookup.
  destruct (last_entry channel label (channels_of current)) as [c|] eqn:Hc;
    [|done].
  simpl. intros [= <-].
  assert (0 ≤ sessions c) as Hsc.
  { apply last_entry_Some in Hc as (_ & l1 & l2 & Hl & _).
    rewrite Forall_forall in Hpos. apply Hpos. rewrite Hl.
    apply elem_of_app. right. apply list_elem_of_here. }
  destruct (Z.ltb_spec 0 (default 0 (previous_by_channel previous !! label)))
    as [Hp|Hp].
  - split; [by apply percent_lower_bound|].
    intros c' [= <-] Hc' _. unfold percent_change. rewrite Hc'.
    by apply percent_of_loss.
  - split; [by destruct (0 <? sessions c)|]. intros c' _ _ Hp'. lia.
Qed.

End evolution_bounds.

(** A channel that is kept in the list with no sessions after a month with
    nine is at -100. *)
Lemma evolution_rates_lower_bound_witness :
  ∃ q, Ga4.calculate_evolution_rates ExampleLoss.current_month
         ExampleLoss.previous_month !! "Direct" = Some q
       ∧ (-100 <= q)%Q ∧ (q == -100)%Q.
Proof.
  eexists. split; [reflexivity|].
  destruct (evolution_rates_lower_bound ExampleLoss.current_month
              ExampleLoss.previous_month "Direct" _
              ltac:(repeat constructor; by vm_compute) eq_refl)
    as [Hbound Hloss].
  split; [exact Hbound|].
  apply (Hloss (Examples.entry "Direct" 0)); [reflexivity | reflexivity |].
  by vm_compute.
Defined.

(** ** The channel table and the campaign table *)

Section report_tables.
Import Ga4 Report ReportTables.

Lemma find_channel_Some (name : string) (chs : list ChannelMetric)
    (c : ChannelMetric) :
  find_channel name chs = Some c → c ∈ chs ∧ channel c = name.
Proof.
  unfold find_channel.
  destruct (list_find _ chs) as [[i c']|] eqn:Hfind; [|done].
  simpl. intros [= ->]. apply list_find_Some in Hfind as (Hi & Hc & _).
  split; [by eapply list_elem_of_lookup_2 | done].
Qed.

Lemma find_channel_None (name : string) (chs : list ChannelMetric) :
  name ∉ channel <$> chs → find_channel name chs = None.
Proof.
  intros Hname. unfold find_channel.
  destruct (list_find _ chs) as [[i c]|] eqn:Hfind; [|done].
  apply list_find_Some in Hfind as (Hi & Hc & _).
  exfalso. apply Hname. apply list_elem_of_fmap. exists c.
  split; [done|]. by eapply list_elem_of_lookup_2.
Qed.

Lemma find_channel_NoDup (chs : list ChannelMetric) (c : ChannelMetric) :
  NoDup (channel <$> chs) → c ∈ chs → find_channel (channel c) chs = Some c.
Proof.
  intros Hnd Hc. unfold find_channel.
  destruct (list_find (λ ch, channel ch = channel c) chs) as [[i c']|]
    eqn:Hfind.
  - apply list_find_Some in Hfind as (Hi & Hc' & _). simpl. f_equal.
    apply list_elem_of_lookup in Hc as [j Hj].
    assert (i = j) as ->; [|congruence].
    eapply NoDup_lookup; [exact Hnd| |];
      rewrite list_lookup_fmap; [by rewrite Hi | by rewrite Hj; simpl; f_equal].
  - exfalso. apply list_find_None in Hfind.
    rewrite Forall_forall in Hfind. by apply (Hfind c).
Qed.

(** X5.  A channel that has sessions now and no entry in the previous
    snapshot is at 100 in the evolution map, while its line of the channel
    table shows 0 for every metric. *)
Theorem new_channel_differs (data : Snapshot) (prev_data : processed)
    (c : ChannelMetric) :
  last_entry channel (channel c) (channels data) = Some c →
  0 < sessions c →
  channel c ∉ channel <$> channels_of prev_data →
  calculate_evolution_rates (Some data) prev_data !! channel c = Some 100%Q
  ∧ ∀ metric_name,
      get_channel_metric_evolution (channel c) metric_name (channels data)
        (channels_of prev_data) = Ok 0%Q.
Proof.
  intros Hc Hpos Hnew. split.
  - rewrite calculate_evolution_rates_lookup. simpl. rewrite Hc. simpl.
    rewrite previous_by_channel_lookup.
    rewrite (proj2 (last_entry_None channel _ _) Hnew). simpl.
    by rewrite (proj2 (Z.ltb_lt _ _) Hpos).
  - intros metric_name. unfold get_channel_metric_evolution.
    destruct (channels_of prev_data) as [|p ps] eqn:Hprev; [done|].
    rewrite (find_channel_None _ (p :: ps) Hnew).
    by destruct (find_channel _ _).
Qed.

Lemma inject_Z_sub (a p : Z) :
  (inject_Z (a - p) == inject_Z a - inject_Z p)%Q.
Proof. unfold Qeq, Qminus, Qplus, Qopp, inject_Z. simpl. lia. Qed.

(** X6.  With distinct labels in both snapshots, a channel present in both
    with previous sessions that are not negative has the same sessions
    evolution in the evolution map and in its line of the channel table. *)
Theorem channel_row_agrees (data : Snapshot) (prev_data : processed)
    (c p : ChannelMetric) :
  NoDup (channel <$> channels data) →
  NoDup (channel <$> channels_of prev_data) →
  c ∈ channels data →
  p ∈ channels_of prev_data →
  channel p = channel c →
  0 ≤ sessions p →
  ∃ q q',
    calculate_evolution_rates (Some data) prev_data !! channel c = Some q
    ∧ get_channel_metric_evolution (channel c) "sessions" (channels data)
        (channels_of prev_data) = Ok q'
    ∧ (q == q')%Q.
Proof.
  intros Hnd Hndp Hc Hp Hlabel Hsp.
  pose proof (find_channel_NoDup _ c Hnd Hc) as Hfc.
  pose proof (find_channel_NoDup _ p Hndp Hp) as Hfp.
  pose proof (last_entry_NoDup channel _ c Hnd Hc) as Hlc.
  pose proof (last_entry_NoDup channel _ p Hndp Hp) as Hlp.
  rewrite Hlabel in Hfp, Hlp.
  rewrite calculate_evolution_rates_lookup. simpl.
  rewrite Hlc. simpl. rewrite previous_by_channel_lookup, Hlp. simpl.
  unfold get_channel_metric_evolution. rewrite Hfc, Hfp.
  destruct (channels_of prev_data) as [|p0 ps] eqn:Hprev;
    [by apply elem_of_nil in Hp|].
  rewrite !channel_dict_sessions. simpl.
  destruct (Z.ltb_spec 0 (sessions p)) as [Hpos|Hzero].
  - rewrite (proj2 (Z.eqb_neq _ _)) by lia.
    do 2 eexists. split; [done|]. split; [done|].
    unfold percent_change. by rewrite inject_Z_sub.
  - assert (sessions p = 0) as -> by lia. simpl.
    do 2 eexists. split; [done|]. split; [done|].
    by destruct (0 <? sessions c).
Qed.

End report_tables.

Lemma new_channel_differs_witness :
  Ga4.calculate_evolution_rates
    (Some (Examples.snapshot
             [Examples.entry "Email" 75; Examples.entry "Referral" 5] 80 0))
    Examples.previous_month !! "Referral" = Some 100%Q
  ∧ ReportTables.get_channel_metric_evolution "Referral" "sessions"
      [Examples.entry "Email" 75; Examples.entry "Referral" 5]
      (Ga4.channels_of Examples.previous_month) = Ok 0%Q.
Proof.
  destruct (new_channel_differs
              (Examples.snapshot
                 [Examples.entry "Email" 75; Examples.entry "Referral" 5] 80 0)
              Examples.previous_month (Examples.entry "Referral" 5))
    as [Hmap Hrow].
  - reflexivity.
  - simpl. lia.
  - apply (bool_decide_unpack _). vm_compute. reflexivity.
  - split; [exact Hmap | apply Hrow].
Defined.

Lemma channel_row_agrees_witness :
  ∃ q q',
    Ga4.calculate_evolution_rates Examples.current_month
      Examples.previous_month !! "Email" = Some q
    ∧ ReportTables.get_channel_metric_evolution "Email" "sessions"
        (Ga4.channels_of Examples.current_month)
        (Ga4.channels_of Examples.previous_month) = Ok q'
    ∧ (q == q')%Q.
Proof.
  apply (channel_row_agrees
           (Examples.snapshot
              [Examples.entry "Email" 75; Examples.entry "Referral" 5;
               Examples.entry "Display" 0] 80 0)
           Examples.previous_month
           (Examples.entry "Email" 75) (Examples.entry "Email" 50)).
  - apply (bool_decide_unpack _). vm_compute. reflexivity.
  - apply (bool_decide_unpack _). vm_compute. reflexivity.
  - apply list_elem_of_here.
  - apply list_elem_of_here.
  - reflexivity.
  - simpl. lia.
Defined.

Section report_tables_more.
Import Ga4 Report ReportTables.
Context `{Numerals}.

(** X7.  The campaign table is absent exactly when the ranking is empty.
    Otherwise it shows the first ten entries of the ranking, numbered from
    1 in ranking order, and no campaign left out of the table has more
    sessions than one that is shown. *)
Theorem campaign_table_top_ten (raw : raw_data) (ranking : list CampaignRow) :
  process_campaign_response raw = Ok ranking →
  (campaign_table ranking = None ↔ ranking = [])
  ∧ length (campaign_lines ranking) = min 10 (length ranking)
  ∧ (∀ i l, campaign_lines ranking !! i = Some l →
            line_rank l = S i
            ∧ ∃ c, ranking !! i = Some c
                   ∧ line_campaign l = campaign c
                   ∧ line_sessions l = campaign_sessions c)
  ∧ ∀ l c, l ∈ campaign_lines ranking → c ∈ skipn 10 ranking →
           campaign_sessions c ≤ line_sessions l.
Proof.
  intros Hrank.
  assert (descending campaign_sessions ranking) as Hdesc.
  { destruct raw as [rows|]; [|injection Hrank as <-; constructor].
    rewrite process_campaign_response_read in Hrank.
    destruct (mapM campaign_data_of_row rows) as [readings|e]; [|done].
    injection Hrank as <-. apply sort_desc_descending. }
  split; [by destruct ranking|]. split; [|split].
  - unfold campaign_lines. by rewrite length_imap, length_take.
  - intros i l. unfold campaign_lines.
    rewrite list_lookup_imap_Some.
    intros (c & [Hc _]%lookup_take_Some & ->). simpl. eauto.
  - intros l c. unfold campaign_lines.
    intros (i & c' & -> & Hc')%elem_of_lookup_imap Hc. simpl.
    rewrite <- (take_drop 10 ranking) in Hdesc.
    apply (StronglySorted_app_1_elem_of _ _ _ c' c Hdesc); [|done].
    by eapply list_elem_of_lookup_2.
Qed.

Lemma total_direction (total : Snapshot → Z) (d : Snapshot)
    (prev_data : processed) :
  ((∃ q, format_evolution_inline (total_evolution total d prev_data) = Up q)
   ↔ ∃ p, prev_data = Some p ∧ 0 < total p ∧ total p < total d)
  ∧ ((∃ q, format_evolution_inline (total_evolution total d prev_data) = Down q)
     ↔ ∃ p, prev_data = Some p ∧ 0 < total p ∧ total d < total p).
Proof.
  unfold format_evolution_inline, format_evolution, total_evolution.
  destruct prev_data as [p|].
  - destruct (Z.ltb_spec 0 (total p)) as [Hp|Hp].
    + rewrite (percent_le_0 _ _ Hp), (percent_ge_0 _ _ Hp).
      destruct (Z.leb_spec (total d) (total p)) as [Hle|Hlt]; simpl.
      * destruct (Z.leb_spec (total p) (total d)) as [Hge|Hgt]; simpl.
        -- split; (split; [by intros [? ?] | intros (? & [= <-] & ?); lia]).
        -- split; [split; [by intros [? ?] | intros (? & [= <-] & ?); lia]|].
           split; [intros _; exists p; by repeat split | by eauto].
      * split; [|split; [by intros [? ?] | intros (? & [= <-] & ?); lia]].
        split; [intros _; exists p; by repeat split | by eauto].
    + simpl.
      split; (split; [by intros [? ?] | intros (? & [= <-] & ?); lia]).
  - simpl. split; (split; [by intros [? ?] | by intros (? & ? & ?)]).
Qed.

(** X8.  In the executive summary a total is shown as rising exactly when
    the previous total is above zero and below the current one, and as
    falling exactly when the previous total is above zero and above the
    current one; in every other case the neutral indicator is shown. *)
Theorem summary_direction (d : Snapshot) (prev_data : processed)
    (s : summary) (email_section social_section : option focus_section) :
  generate_html_report (Some d) prev_data
  = Ok (Page s email_section social_section) →
  ((∃ q, summary_sessions_evolution s = Up q)
   ↔ ∃ p, prev_data = Some p
          ∧ 0 < total_sessions p ∧ total_sessions p < total_sessions d)
  ∧ ((∃ q, summary_sessions_evolution s = Down q)
     ↔ ∃ p, prev_data = Some p
            ∧ 0 < total_sessions p ∧ total_sessions d < total_sessions p)
  ∧ ((∃ q, summary_conversions_evolution s = Up q)
     ↔ ∃ p, prev_data = Some p
            ∧ 0 < total_conversions p
            ∧ total_conversions p < total_conversions d)
  ∧ ((∃ q, summary_conversions_evolution s = Down q)
     ↔ ∃ p, prev_data = Some p
            ∧ 0 < total_conversions p
            ∧ total_conversions d < total_conversions p).
Proof.
  unfold generate_html_report.
  destruct (channels d) as [|c cs]; [done|].
  destruct (render_focus_slot (email_focus d) _) as [e|]; simpl; [|done].
  destruct (render_focus_slot (social_focus d) _) as [so|]; simpl; [|done].
  intros [= <- <- <-]. simpl.
  destruct (total_direction total_sessions d prev_data) as [Hup Hdown].
  destruct (total_direction total_conversions d prev_data) as [Hup' Hdown'].
  done.
Qed.

End report_tables_more.

Lemma campaign_table_top_ten_witness :
  ∃ ranking,
    Ga4.process_campaign_response (Some ExampleCampaigns.twelve_rows)
    = Ok ranking
    ∧ length (ReportTables.campaign_lines ranking) = 10%nat
    ∧ ∀ l c, l ∈ ReportTables.campaign_lines ranking →
             c ∈ skipn 10 ranking →
             Ga4.campaign_sessions c ≤ ReportTables.line_sessions l.
Proof.
  eexists. split; [vm_compute; reflexivity|].
  destruct (campaign_table_top_ten (H:=Decimal.numerals)
              (Some ExampleCampaigns.twelve_rows) _
              ltac:(vm_compute; reflexivity))
    as (_ & Hlen & _ & Hcut).
  split; [exact Hlen | exact Hcut].
Defined.

Lemma summary_direction_witness :
  ∃ s email_section social_section,
    Report.generate_html_report
      (Some (Examples.snapshot [Examples.entry "Email" 75] 75 3))
      (Some (Examples.snapshot [Examples.entry "Email" 50] 50 4))
    = Ok (Report.Page s email_section social_section)
    ∧ (∃ q, Report.summary_sessions_evolution s = Report.Up q)
    ∧ (∃ q, Report.summary_conversions_evolution s = Report.Down q).
Proof.
  eexists _, _, _. split; [vm_compute; reflexivity|].
  destruct (summary_direction
              (Examples.snapshot [Examples.entry "Email" 75] 75 3)
              (Some (Examples.snapshot [Examples.entry "Email" 50] 50 4))
              _ _ _ ltac:(vm_compute; reflexivity))
    as (Hup & _ & _ & Hdown).
  split.
  - apply Hup. eexists. split; [reflexivity|]. simpl. lia.
  - apply Hdown. eexists. split; [reflexivity|]. simpl. lia.
Defined.

Section narrative_shape.
Import Markdown.

(** X10.  The substitution of bold spans.  It never joins or splits
    lines.  A text without two adjacent stars is left as it is.  A span
    is replaced where it stands: when the text before the opening marker
    holds no marker and does not end in a star, and the group between the
    markers is not empty, holds no line end, and holds no closing marker
    after its first character, the markers become the opening and closing
    tags around the group, and the substitution goes on after the closing
    marker.  A character at which no span begins, that is, which is not
    followed by a non-empty group without line end between two markers,
    is copied. *)
Theorem bold_substitution_spec :
  (∀ text, length (split_lines (sub_bold text)) = length (split_lines text))
  ∧ (∀ text, contains "**" text = false → sub_bold text = text)
  ∧ (∀ pre c g rest,
       contains "**" (pre ++ "*")%string = false →
       count_newlines (String c g) = 0%nat →
       contains "**" (g ++ "*")%string = false →
       sub_bold (pre ++ "**" ++ String c g ++ "**" ++ rest)%string
       = (pre ++ "<strong>" ++ String c g ++ "</strong>"
              ++ sub_bold rest)%string)
  ∧ (∀ c text,
       (∀ g rest, g ≠ EmptyString → count_newlines g = 0%nat →
                  String c text ≠ ("**" ++ g ++ "**" ++ rest)%string) →
       sub_bold (String c text) = String c (sub_bold text)).
Proof.
  split; [|split; [|split]].
  - intros text. rewrite !length_split_lines. f_equal.
    by apply (sub_bold_from_lines (String.length text)).
  - apply sub_bold_plain.
  - apply sub_bold_replaces_span.
  - apply sub_bold_copy.
Qed.

Lemma convert_lines_shape (in_list : bool) (lines : list string) :
  well_bracketed in_list (convert_lines in_list lines) = true
  ∧ length (filter (λ e, is_bracket e = false) (convert_lines in_list lines))
    = length lines.
Proof.
  revert in_list. induction lines as [|line lines IH]; intros in_list.
  { by destruct in_list. }
  cbn [convert_lines]. unfold line_step.
  destruct (startswith "### " (strip line)).
  { destruct (IH false) as [Hw Hl].
    destruct in_list; simpl; rewrite Hw; split; try done;
      by rewrite <- Hl. }
  destruct (startswith "## " (strip line)).
  { destruct (IH false) as [Hw Hl].
    destruct in_list; simpl; rewrite Hw; split; try done;
      by rewrite <- Hl. }
  destruct (startswith "* " (strip line) || startswith "- " (strip line)).
  { destruct (IH true) as [Hw Hl].
    destruct in_list; simpl; rewrite Hw; split; try done;
      by rewrite <- Hl. }
  destruct (IH false) as [Hw Hl].
  destruct (bool_decide (strip line = EmptyString));
    destruct in_list; simpl; rewrite Hw; split; try done;
    by rewrite <- Hl.
Qed.

(** X11.  In the entries built for a narrative the list brackets are
    balanced and never nested, list items stand only between an opening
    and a closing bracket and everything else outside, and apart from the
    brackets there is exactly one entry for each line of the text. *)
Theorem narrative_lists_balanced (text : string) :
  well_bracketed false (markdown_elements text) = true
  ∧ length (filter (λ e, is_bracket e = false) (markdown_elements text))
    = length (split_lines text).
Proof.
  unfold markdown_elements.
  destruct (convert_lines_shape false (split_lines (sub_bold text)))
    as [Hw Hl].
  split; [done|]. rewrite Hl, !length_split_lines. f_equal.
  by apply (sub_bold_from_lines (String.length text)).
Qed.

End narrative_shape.

(** Two spans on one line, the second with a star inside its group. *)
Lemma bold_substitution_spec_witness :
  Markdown.sub_bold "a **b** and **c*d** e"
  = "a <strong>b</strong> and <strong>c*d</strong> e".
Proof.
  destruct bold_substitution_spec as (_ & Hplain & Hspan & _).
  assert (Markdown.sub_bold " and **c*d** e" = " and <strong>c*d</strong> e")
    as Hsecond.
  { etrans; [apply (Hspan " and " "c"%char "*d" " e"); reflexivity|].
    by rewrite (Hplain " e"). }
  etrans; [apply (Hspan "a " "b"%char "" " and **c*d** e"); reflexivity|].
  by rewrite Hsecond.
Defined.

Section job_more.
Import Ga4 Job.
Context `{Numerals} (w : world).
Context (period_start period_end prev_period_start prev_period_end : string).

Lemma run_report_cases (q : query) (t : list event) :
  (∃ result, http_post w q = Ok result
             ∧ run_report w q t
               = (Ok (convert_result result), t ++ [AnalyticsQuery q]))
  ∨ (∃ e, http_post w q = Raise e
          ∧ run_report w q t
            = (Raise e,
               t ++ [AnalyticsQuery q; LogError "Failed to fetch GA4 data"])).
Proof.
  unfold run_report, try_except, mbind, M_bind, emit, lift, mret, M_ret, raise.
  destruct (http_post w q) as [result|e]; [left | right].
  - by exists result.
  - exists e. split; [done|]. by rewrite <- app_assoc.
Qed.

Lemma generate_insights_exact (prompt : string) (t : list event) :
  generate_insights_with_gemini w prompt t
  = (Ok (narrative_of w prompt),
     t ++ NarrativeRequest prompt
          :: if is_ok (generate_content w prompt) then []
             else [LogWarning "Failed to generate Gemini insights"]).
Proof.
  unfold generate_insights_with_gemini, narrative_of, try_except, mbind,
    M_bind, emit, lift, mret, M_ret.
  destruct (generate_content w prompt) as [text|e]; simpl; [done|].
  by rewrite <- app_assoc.
Qed.

Lemma save_to_cloud_storage_exact (data : Snapshot)
    (ps pe insights : string) (t : list event) :
  let doc := stored_document data ps pe insights in
  save_to_cloud_storage w data ps pe insights t
  = (Ok (is_ok (upload_from_string w (blob_name ps pe) doc)),
     t ++ StorageWrite (blob_name ps pe) doc
          :: if is_ok (upload_from_string w (blob_name ps pe) doc) then []
             else [LogError "Failed to save to Cloud Storage"]).
Proof.
  unfold save_to_cloud_storage, stored_document, try_except, mbind, M_bind,
    emit, lift, mret, M_ret. simpl.
  destruct (upload_from_string w _ _) as [[]|e]; simpl; [done|].
  by rewrite <- app_assoc.
Qed.

(** The part of the job that follows the three queries: it returns for
    every behaviour of the collaborators, and this is its trace. *)
Lemma job_success_path (current campaigns_raw previous : api_result)
    (data : Snapshot) (campaigns : list CampaignRow) (prev : processed) :
  http_post w (current_query period_start period_end) = Ok current →
  process_ga4_response (convert_result current) = Ok (Some data) →
  channels data ≠ [] →
  http_post w (campaign_query period_start period_end) = Ok campaigns_raw →
  process_campaign_response (convert_result campaigns_raw) = Ok campaigns →
  http_post w (previous_query prev_period_start prev_period_end) = Ok previous →
  process_ga4_response (convert_result previous) = Ok prev →
  let rates := calculate_evolution_rates (Some data) prev in
  let prompt := insights_prompt w data rates in
  let insights := narrative_of w prompt in
  let doc := stored_document data period_start period_end insights in
  let name := blob_name period_start period_end in
  run (run_monthly_analysis w period_start period_end prev_period_start
         prev_period_end)
  = (Ok (Some {| status := "success";
                 period := period_start ++ " to " ++ period_end;
                 result_total_sessions := total_sessions data;
                 recipients := RECIPIENTS |}),
     [AnalyticsQuery (current_query period_start period_end);
      AnalyticsQuery (campaign_query period_start period_end);
      AnalyticsQuery (previous_query prev_period_start prev_period_end)]
     ++ (NarrativeRequest prompt
         :: if is_ok (generate_content w prompt) then []
            else [LogWarning "Failed to generate Gemini insights"])
     ++ (StorageWrite name doc
         :: if is_ok (upload_from_string w name doc) then []
            else [LogError "Failed to save to Cloud Storage"])
     ++ (if is_ok (upload_from_string w name doc) then []
         else [LogWarning "Failed to save analytics data to Cloud Storage"])
     ++ concat (recipient_events w (subject period_start period_end)
                  (report_request period_start period_end prev_period_start
                     prev_period_end (Some data) prev rates campaigns)
                  (Markdown.markdown_to_html insights) <$> RECIPIENTS)).
Proof.
  intros Hq1 Hp1 Hch Hq2 Hp2 Hq3 Hp3 rates prompt insights doc name.
  destruct (channels data) as [|c cs] eqn:Hcs; [done|].
  unfold run, run_monthly_analysis. apply try_except_ok.
  erewrite bind_run by (by apply run_report_ok).
  erewrite bind_run by (unfold lift; by rewrite Hp1).
  cbv beta iota. rewrite Hcs.
  erewrite bind_run by (by apply run_report_ok).
  erewrite bind_run by (unfold lift; by rewrite Hp2).
  erewrite bind_run by (by apply run_report_ok).
  erewrite bind_run by (unfold lift; by rewrite Hp3).
  cbv zeta. fold rates. fold prompt.
  erewrite bind_run by apply generate_insights_exact.
  fold insights.
  erewrite bind_run by apply save_to_cloud_storage_exact.
  fold doc. fold name.
  erewrite bind_run by apply save_warning_run.
  erewrite bind_run by apply deliver_run.
  unfold mret, M_ret. f_equal. simpl app. by rewrite <- !app_assoc.
Qed.

End job_more.

Section job_composition.
Import Ga4 Job.
Context `{Numerals} (w : world).
Context (period_start period_end prev_period_start prev_period_end : string).

Lemma recipient_events_calls (subj : string)
    (request : string → render_request) (insights_html : string)
    (rs : list string) :
  let evs := concat (recipient_events w subj request insights_html <$> rs) in
  omap call_of evs
  = replicate (length (filter (λ r, is_ok (render_html w (request r))) rs))
              ToMail
  ∧ storage_writes evs = []
  ∧ mail_bodies evs
    = omap (λ r, match render_html w (request r) with
                 | Ok html => Some (splice_insights w html insights_html)
                 | Raise _ => None
                 end) rs.
Proof.
  unfold storage_writes, mail_bodies.
  induction rs as [|r rs (IHc & IHs & IHb)]; [done|].
  rewrite fmap_cons, concat_cons, !omap_app, IHc, IHs, IHb, filter_cons.
  unfold recipient_events. cbn [omap list_omap]. cbn beta.
  destruct (render_html w (request r)) as [html|e]; simpl; [|done].
  by destruct (gmail_send w _ _ _).
Qed.

(** X13.  A run whose three queries are answered and whose current month
    has channels calls its collaborators in a fixed order: the three
    analytics queries, one narrative request, one storage write, then the
    mails.  The narrative placed in the stored document is the one
    converted and spliced into every mail: the text of the narrative
    service, or the fallback sentence when that service fails.  A failed
    storage write changes neither the mails nor the result, which carries
    the current total of sessions. *)
Theorem stored_narrative_is_mailed (current campaigns_raw previous : api_result)
    (data : Snapshot) (campaigns : list CampaignRow) (prev : processed) :
  http_post w (current_query period_start period_end) = Ok current →
  process_ga4_response (convert_result current) = Ok (Some data) →
  channels data ≠ [] →
  http_post w (campaign_query period_start period_end) = Ok campaigns_raw →
  process_campaign_response (convert_result campaigns_raw) = Ok campaigns →
  http_post w (previous_query prev_period_start prev_period_end) = Ok previous →
  process_ga4_response (convert_result previous) = Ok prev →
  let rates := calculate_evolution_rates (Some data) prev in
  let request :=
    report_request period_start period_end prev_period_start prev_period_end
      (Some data) prev rates campaigns in
  let insights := narrative_of w (insights_prompt w data rates) in
  ∃ result trace,
    run (run_monthly_analysis w period_start period_end prev_period_start
           prev_period_end)
    = (Ok (Some result), trace)
    ∧ omap call_of trace
      = [ToAnalytics; ToAnalytics; ToAnalytics; ToNarrative; ToStorage]
        ++ replicate
             (length (filter (λ r, is_ok (render_html w (request r)))
                             RECIPIENTS))
             ToMail
    ∧ storage_writes trace
      = [(blob_name period_start period_end,
          stored_document data period_start period_end insights)]
    ∧ mail_bodies trace
      = omap (λ r, match render_html w (request r) with
                   | Ok html =>
                       Some (splice_insights w html
                               (Markdown.markdown_to_html insights))
                   | Raise _ => None
                   end) RECIPIENTS
    ∧ result_total_sessions result = total_sessions data
    ∧ period result = (period_start ++ " to " ++ period_end)%string.
Proof.
  intros Hq1 Hp1 Hch Hq2 Hp2 Hq3 Hp3 rates request insights.
  eexists _, _. split.
  { by eapply job_success_path. }
  fold rates request insights.
  destruct (recipient_events_calls (subject period_start period_end) request
              (Markdown.markdown_to_html insights) RECIPIENTS)
    as (Hc & Hs & Hb).
  unfold storage_writes, mail_bodies in *.
  rewrite !omap_app, Hc, Hs, Hb.
  destruct (is_ok (generate_content w _));
    destruct (is_ok (upload_from_string w _ _)); done.
Qed.

(** The trace of a run that raises: the queries made so far, the entry of
    a failed query if the last one failed, and the entry of the job. *)
Lemma failed_run_shape (e : exn) (trace : list event) :
  run (run_monthly_analysis w period_start period_end prev_period_start
         prev_period_end)
  = (Raise e, trace) →
  ∃ n fetch,
    (1 ≤ n ≤ 3)%nat
    ∧ (fetch = [] ∨ fetch = [LogError "Failed to fetch GA4 data"])
    ∧ trace
      = (AnalyticsQuery
           <$> take n [current_query period_start period_end;
                       campaign_query period_start period_end;
                       previous_query prev_period_start prev_period_end])
        ++ fetch ++ [LogError "Error in monthly analysis"].
Proof.
  intros Hrun. unfold run, run_monthly_analysis, try_except in Hrun.
  destruct (run_report_cases w (current_query period_start period_end) [])
    as [(r1 & Hq1 & Hr1)|(e1 & Hq1 & Hr1)]; cycle 1.
  { rewrite (bind_raise _ _ _ _ _ Hr1) in Hrun. injection Hrun as <- <-.
    exists 1%nat, [LogError "Failed to fetch GA4 data"].
    split; [lia|]. split; [by right | done]. }
  rewrite (bind_run _ _ _ _ _ Hr1) in Hrun.
  destruct (process_ga4_response (convert_result r1)) as [p|e1] eqn:Hp1;
    cycle 1.
  { injection Hrun as <- <-. exists 1%nat, [].
    split; [lia|]. split; [by left | done]. }
  erewrite bind_run in Hrun by reflexivity.
  destruct p as [data|]; [|done].
  destruct (channels data) as [|c cs] eqn:Hcs; [done|].
  destruct (run_report_cases w (campaign_query period_start period_end)
              ([] ++ [AnalyticsQuery (current_query period_start period_end)]))
    as [(r2 & Hq2 & Hr2)|(e2 & Hq2 & Hr2)]; cycle 1.
  { rewrite (bind_raise _ _ _ _ _ Hr2) in Hrun. injection Hrun as <- <-.
    exists 2%nat, [LogError "Failed to fetch GA4 data"].
    split; [lia|]. split; [by right | done]. }
  rewrite (bind_run _ _ _ _ _ Hr2) in Hrun.
  destruct (process_campaign_response (convert_result r2))
    as [campaigns|e2] eqn:Hp2; cycle 1.
  { injection Hrun as <- <-. exists 2%nat, [].
    split; [lia|]. split; [by left | done]. }
  erewrite bind_run in Hrun by reflexivity.
  destruct (run_report_cases w
              (previous_query prev_period_start prev_period_end)
              (([] ++ [AnalyticsQuery (current_query period_start period_end)])
               ++ [AnalyticsQuery (campaign_query period_start period_end)]))
    as [(r3 & Hq3 & Hr3)|(e3 & Hq3 & Hr3)]; cycle 1.
  { rewrite (bind_raise _ _ _ _ _ Hr3) in Hrun. injection Hrun as <- <-.
    exists 3%nat, [LogError "Failed to fetch GA4 data"].
    split; [lia|]. split; [by right | done]. }
  rewrite (bind_run _ _ _ _ _ Hr3) in Hrun.
  destruct (process_ga4_response (convert_result r3)) as [prev|e3] eqn:Hp3;
    cycle 1.
  { injection Hrun as <- <-. exists 3%nat, [].
    split; [lia|]. split; [by left | done]. }
  erewrite bind_run in Hrun by reflexivity.
  cbv zeta in Hrun.
  erewrite bind_run in Hrun by apply generate_insights_exact.
  erewrite bind_run in Hrun by apply save_to_cloud_storage_exact.
  erewrite bind_run in Hrun by apply save_warning_run.
  erewrite bind_run in Hrun by apply deliver_run.
  done.
Qed.

Lemma queries_and_logs_quiet (qs : list query) (logs : list event) :
  Forall (λ ev, call_of ev = None) logs →
  Forall (λ ev, is_side_effect ev = false) ((AnalyticsQuery <$> qs) ++ logs)
  ∧ omap call_of ((AnalyticsQuery <$> qs) ++ logs)
    = replicate (length qs) ToAnalytics.
Proof.
  intros Hlogs. split.
  - apply Forall_app. split.
    + apply Forall_fmap, Forall_true. done.
    + eapply Forall_impl; [exact Hlogs|]. by intros [].
  - rewrite omap_app.
    assert (omap call_of logs = []) as ->.
    { induction Hlogs as [|ev logs Hev _ IH]; [done|].
      simpl. by rewrite Hev. }
    rewrite app_nil_r. induction qs as [|q qs IH]; [done|].
    simpl. f_equal. exact IH.
Qed.

(** X14.  A run that raises has reached no collaborator but the analytics
    source: its trace holds one to three analytics queries and log
    entries, no narrative request, no storage write and no mail, and it
    ends with the error entry of the job.  Once the narrative is
    requested the run cannot fail any more. *)
Theorem failed_run_sends_nothing (e : exn) (trace : list event) :
  run (run_monthly_analysis w period_start period_end prev_period_start
         prev_period_end)
  = (Raise e, trace) →
  Forall (λ ev, is_side_effect ev = false) trace
  ∧ last trace = Some (LogError "Error in monthly analysis")
  ∧ ∃ n, (1 ≤ n ≤ 3)%nat ∧ omap call_of trace = replicate n ToAnalytics.
Proof.
  intros (n & fetch & Hn & Hfetch & ->)%failed_run_shape.
  set (queries := [current_query period_start period_end;
                   campaign_query period_start period_end;
                   previous_query prev_period_start prev_period_end]).
  destruct (queries_and_logs_quiet (take n queries)
              (fetch ++ [LogError "Error in monthly analysis"]))
    as [Hquiet Hcalls].
  { by destruct Hfetch as [-> | ->]; repeat constructor. }
  split; [exact Hquiet|]. split.
  - by rewrite !app_assoc, last_snoc.
  - exists n. split; [done|]. rewrite Hcalls, length_take. f_equal.
    simpl. lia.
Qed.

Lemma endpoint_answer (msg : string) :
  let job :=
    run_monthly_analysis w period_start period_end prev_period_start
      prev_period_end in
  let endpoint :=
    try_except
      (result ← job;
       mret {| Http.response_body := Http.Succeeded result;
               Http.status_code := 200 |})
      (λ e, _ ← emit (LogError msg);
            mret {| Http.response_body := Http.Failed e;
                    Http.status_code := 500 |}) in
  ∃ resp trace,
    run endpoint = (Ok resp, trace)
    ∧ (Http.status_code resp = 200 ∨ Http.status_code resp = 500)
    ∧ (Http.status_code resp = 200
       ↔ ∃ result, run job = (Ok result, trace)
                   ∧ Http.response_body resp = Http.Succeeded result)
    ∧ (Http.status_code resp = 500
       ↔ ∃ e, run job = (Raise e, removelast trace)
              ∧ last trace = Some (LogError msg)
              ∧ Http.response_body resp = Http.Failed e)
    ∧ (Http.status_code resp = 500 →
       Forall (λ ev, is_side_effect ev = false) trace).
Proof.
  intros job endpoint.
  unfold endpoint, run, try_except, mbind, M_bind, emit, mret, M_ret.
  destruct (job []) as [[result|e] trace] eqn:Hjob.
  - exists {| Http.response_body := Http.Succeeded result;
              Http.status_code := 200 |}, trace.
    split; [done|]. split; [by left|]. simpl.
    split; [|split; [|done]].
    + split; [by exists result | done].
    + split; [done | by intros (? & [=] & _)].
  - exists {| Http.response_body := Http.Failed e;
              Http.status_code := 500 |}, (trace ++ [LogError msg]).
    split; [done|]. split; [by right|]. simpl.
    split; [|split].
    + split; [done | by intros (? & [=] & _)].
    + split; [|done]. intros _. exists e.
      by rewrite removelast_last, last_snoc.
    + intros _. apply Forall_app. split; [|by repeat constructor].
      apply failed_run_shape in Hjob as (n & fetch & _ & Hfetch & ->).
      apply queries_and_logs_quiet.
      by destruct Hfetch as [-> | ->]; repeat constructor.
Qed.

(** X15.  The [/run] and [/test] endpoints always answer: with status 200
    and the result of the job when the job returns (also for the empty
    month, whose result is absent), with status 500 and the error when the
    job raises; in the second case nothing was requested from the
    narrative service, written to storage or mailed. *)
Theorem endpoints_always_answer :
  let job :=
    run_monthly_analysis w period_start period_end prev_period_start
      prev_period_end in
  Forall
    (λ '(endpoint, msg),
       ∃ resp trace,
         run endpoint = (Ok resp, trace)
         ∧ (Http.status_code resp = 200 ∨ Http.status_code resp = 500)
         ∧ (Http.status_code resp = 200
            ↔ ∃ result, run job = (Ok result, trace)
                        ∧ Http.response_body resp = Http.Succeeded result)
         ∧ (Http.status_code resp = 500
            ↔ ∃ e, run job = (Raise e, removelast trace)
                   ∧ last trace = Some (LogError msg)
                   ∧ Http.response_body resp = Http.Failed e)
         ∧ (Http.status_code resp = 500 →
            Forall (λ ev, is_side_effect ev = false) trace))
    [(Http.run_analysis w period_start period_end prev_period_start
        prev_period_end, "Error running analysis");
     (Http.test_endpoint w period_start period_end prev_period_start
        prev_period_end, "Error in test endpoint")].
Proof.
  intros job. repeat constructor.
  - apply (endpoint_answer "Error running analysis").
  - apply (endpoint_answer "Error in test endpoint").
Qed.

End job_composition.

(** With the narrative and storage services down the fallback sentence is
    stored, and the four mails carry the page as rendered. *)
Lemma stored_narrative_is_mailed_witness :
  ∃ result trace,
    Job.run (Job.run_monthly_analysis ExampleWorlds.rough_month
               "2026-10-01" "2026-10-31" "2026-09-01" "2026-09-30")
    = (Ok (Some result), trace)
    ∧ omap call_of trace
      = [ToAnalytics; ToAnalytics; ToAnalytics; ToNarrative; ToStorage;
         ToMail; ToMail; ToMail; ToMail]
    ∧ Job.stored_ai_insights <$> (snd <$> storage_writes trace)
      = ["AI insights generation unavailable. Please review the data manually."]
    ∧ Job.result_total_sessions result = 12.
Proof.
  destruct (stored_narrative_is_mailed ExampleWorlds.rough_month
              "2026-10-01" "2026-10-31" "2026-09-01" "2026-09-30"
              (Ga4.ApiResult
                 (Some [Ga4.ApiRow (Some ["Email"]) (Some ["12"])]))
              (Ga4.ApiResult
                 (Some [Ga4.ApiRow (Some ["Email"]) (Some ["12"])]))
              (Ga4.ApiResult
                 (Some [Ga4.ApiRow (Some ["Email"]) (Some ["12"])]))
              ExampleWorlds.rough_snapshot ExampleWorlds.rough_campaigns
              (Some ExampleWorlds.rough_snapshot))
    as (result & trace & Hrun & Hcalls & Hstored & _ & Htotal & _);
    [reflexivity | reflexivity | discriminate | reflexivity | reflexivity
    | reflexivity | reflexivity |].
  exists result, trace. split; [exact Hrun|].
  split; [exact Hcalls|]. split; [by rewrite Hstored | exact Htotal].
Defined.

(** A run whose campaign query fails: two analytics queries, and nothing
    else leaves the process. *)
Lemma failed_run_sends_nothing_witness :
  ∃ e trace,
    Job.run (Job.run_monthly_analysis ExampleFailures.no_campaigns
               "2026-10-01" "2026-10-31" "2026-09-01" "2026-09-30")
    = (Raise e, trace)
    ∧ Forall (λ ev, is_side_effect ev = false) trace
    ∧ omap call_of trace = [ToAnalytics; ToAnalytics].
Proof.
  eexists _, _. split; [vm_compute; reflexivity|].
  destruct (failed_run_sends_nothing (H:=Decimal.numerals)
              ExampleFailures.no_campaigns
              "2026-10-01" "2026-10-31" "2026-09-01" "2026-09-30" _ _
              ltac:(vm_compute; reflexivity))
    as (Hquiet & _ & _).
  split; [exact Hquiet | reflexivity].
Defined.

Section calendar.
Import Calendar.

Lemma days_in_month_bounds (y m : Z) : 28 ≤ days_in_month y m ≤ 31.
Proof.
  unfold days_in_month.
  destruct (m =? 2); [destruct (is_leap y); lia|].
  destruct ((m =? 4) || (m =? 6) || (m =? 9) || (m =? 11)); lia.
Qed.

(** The month before the month of a date: its first and last day. *)
Lemma month_before_Some (d f l : date) :
  valid d →
  month_before d = Some (f, l) →
  ((month d = 1 ∧ year l = year d - 1 ∧ month l = 12)
   ∨ (1 < month d ∧ year l = year d ∧ month l = month d - 1))
  ∧ f = Date (year l) (month l) 1
  ∧ day l = days_in_month (year l) (month l)
  ∧ valid f ∧ valid l
  ∧ plus_one_day l = first_of_month d.
Proof.
  intros (Hy & Hm & Hd).
  pose proof (days_in_month_bounds (year d) (month d - 1)) as Hb.
  unfold month_before, minus_one_day, first_of_month, plus_one_day, valid.
  cbn [year month day]. change (1 <? 1) with false. cbv iota.
  destruct (Z.ltb_spec 1 (month d)) as [Hm1|Hm1].
  - cbn. intros [= <- <-]. cbn [year month day].
    rewrite Z.ltb_irrefl.
    destruct (Z.ltb_spec (month d - 1) 12) as [_|?]; [|lia].
    replace (month d - 1 + 1) with (month d) by lia.
    repeat split; lia.
  - destruct (Z.ltb_spec 1 (year d)) as [Hy1|Hy1]; [|done].
    cbn. intros [= <- <-]. cbn [year month day].
    replace (year d - 1 + 1) with (year d) by lia.
    replace (month d) with 1 by lia.
    change (days_in_month (year d - 1) 12) with 31.
    repeat split; lia.
Qed.

Lemma month_before_None (d : date) :
  valid d →
  (month_before d = None ↔ year d = 1 ∧ month d = 1).
Proof.
  intros (Hy & Hm & Hd).
  unfold month_before, minus_one_day, first_of_month.
  cbn [year month day]. change (1 <? 1) with false. cbv iota.
  destruct (Z.ltb_spec 1 (month d)) as [Hm1|Hm1]; [cbn; split; [done|lia]|].
  destruct (Z.ltb_spec 1 (year d)) as [Hy1|Hy1]; cbn; split; try done; lia.
Qed.

#[local] Arguments month_before : simpl never.

(** X16.  The reporting periods of a run.  For a run started on any day
    of a month, the period reported is the whole calendar month before
    it, from its first to its last day, and the period it is compared
    with is the whole month before that; the two are adjacent, and the
    reported one ends the day before the month of the run begins.  The
    day of the month on which the run starts does not matter.  The
    computation fails exactly in the first two months of year 1, where a
    date before the first representable day would be needed. *)
Theorem reporting_periods (today : date) :
  valid today →
  (periods today = None ↔ year today = 1 ∧ month today ≤ 2)
  ∧ periods today = periods (first_of_month today)
  ∧ ∀ first_day last_day prev_first_day prev_last_day,
      periods today
      = Some ((first_day, last_day), (prev_first_day, prev_last_day)) →
      valid first_day ∧ valid last_day
      ∧ valid prev_first_day ∧ valid prev_last_day
      ∧ first_day = Date (year last_day) (month last_day) 1
      ∧ day last_day = days_in_month (year last_day) (month last_day)
      ∧ prev_first_day = Date (year prev_last_day) (month prev_last_day) 1
      ∧ day prev_last_day
        = days_in_month (year prev_last_day) (month prev_last_day)
      ∧ plus_one_day prev_last_day = first_day
      ∧ plus_one_day last_day = first_of_month today.
Proof.
  intros Hvalid. pose proof Hvalid as (Hy & Hm & Hd).
  split; [|split; [done|]].
  - unfold periods.
    destruct (month_before today) as [[f l]|] eqn:Hmb.
    + destruct (month_before_Some _ _ _ Hvalid Hmb)
        as (Hcase & -> & _ & Hf & _ & _).
      cbn. pose proof (month_before_None _ Hf) as Hnone.
      cbn [year month] in Hnone.
      pose proof Hf as (Hfy & Hfm & _). cbn [year month] in Hfy, Hfm.
      destruct (month_before (Date (year l) (month l) 1)) as [[f2 l2]|].
      * cbn. split; [done|]. intros [Hy1 Hm2].
        assert (year l = 1 ∧ month l = 1) as Hl by lia.
        apply Hnone in Hl. done.
      * cbn. split; [|done]. intros _.
        destruct Hnone as [Hnone _]. specialize (Hnone eq_refl). lia.
    + cbn. split; [|done]. intros _.
      apply (month_before_None _ Hvalid) in Hmb. lia.
  - intros f1 l1 f2 l2. unfold periods.
    destruct (month_before today) as [[f l]|] eqn:Hmb; [|done]. cbn.
    destruct (month_before_Some _ _ _ Hvalid Hmb)
      as (_ & Hf & Hl & Hvf & Hvl & Hnext).
    destruct (month_before f) as [[f' l']|] eqn:Hmb2; [|done]. cbn.
    intros [= <- <- <- <-].
    destruct (month_before_Some _ _ _ Hvf Hmb2)
      as (_ & Hf' & Hl' & Hvf' & Hvl' & Hnext').
    split_and!; try done.
    rewrite Hnext', Hf. done.
Qed.

Lemma digit_char_inj (a b : Z) :
  0 ≤ a ≤ 9 → 0 ≤ b ≤ 9 → digit_char a = digit_char b → a = b.
Proof.
  intros Ha Hb Hab. unfold digit_char in Hab.
  apply (f_equal nat_of_ascii) in Hab.
  rewrite !nat_ascii_embedding in Hab by lia. lia.
Qed.

Lemma two_digits_inj (a b : Z) :
  0 ≤ a < 100 → 0 ≤ b < 100 → two_digits a = two_digits b → a = b.
Proof.
  intros Ha Hb. unfold two_digits. intros [= Htens Hunits].
  apply digit_char_inj in Htens; [|Z.div_mod_to_equations; lia..].
  apply digit_char_inj in Hunits; [|Z.div_mod_to_equations; lia..].
  Z.div_mod_to_equations. lia.
Qed.

Lemma four_digits_inj (a b : Z) :
  0 ≤ a < 10000 → 0 ≤ b < 10000 → four_digits a = four_digits b → a = b.
Proof.
  intros Ha Hb. unfold four_digits.
  change (two_digits (a / 100) ++ two_digits (a mod 100))%string
    with (String (digit_char (a / 100 / 10))
            (String (digit_char ((a / 100) mod 10)) (two_digits (a mod 100)))).
  change (two_digits (b / 100) ++ two_digits (b mod 100))%string
    with (String (digit_char (b / 100 / 10))
            (String (digit_char ((b / 100) mod 10)) (two_digits (b mod 100)))).
  intros [= H1 H2 H3 H4].
  assert (a / 100 = b / 100) as Hhigh.
  { apply two_digits_inj; [Z.div_mod_to_equations; lia..|].
    unfold two_digits. by rewrite H1, H2. }
  assert (a mod 100 = b mod 100) as Hlow.
  { apply two_digits_inj; [Z.div_mod_to_equations; lia..|].
    unfold two_digits. by rewrite H3, H4. }
  Z.div_mod_to_equations. lia.
Qed.

Lemma strftime_length (d : date) : String.length (strftime d) = 10%nat.
Proof. reflexivity. Qed.

Lemma append_inv_length (s s' t t' : string) :
  String.length s = String.length s' →
  (s ++ t = s' ++ t')%string → s = s' ∧ t = t'.
Proof.
  revert s'. induction s as [|c s IH]; intros [|c' s']; try done.
  intros [= Hlen].
  change (String c (s ++ t) = String c' (s' ++ t') 
          → String c s = String c' s' ∧ t = t').
  intros [= -> Hrest]. destruct (IH _ Hlen Hrest) as [-> ->]. done.
Qed.

Lemma strftime_inj (d d' : date) :
  valid d → valid d' → strftime d = strftime d' → d = d'.
Proof.
  intros (Hy & Hm & Hd) (Hy' & Hm' & Hd').
  pose proof (days_in_month_bounds (year d) (month d)).
  pose proof (days_in_month_bounds (year d') (month d')).
  unfold strftime. intros Heq.
  apply append_inv_length in Heq as [Hyear Heq]; [|done].
  apply (append_inv_length "-" "-") in Heq as [_ Heq]; [|done].
  apply append_inv_length in Heq as [Hmonth Heq]; [|done].
  apply (append_inv_length "-" "-") in Heq as [_ Hday]; [|done].
  apply four_digits_inj in Hyear; [|lia..].
  apply two_digits_inj in Hmonth; [|lia..].
  apply two_digits_inj in Hday; [|lia..].
  destruct d, d'. simpl in *. by subst.
Qed.

Lemma blob_name_inj (d1 d2 d1' d2' : date) :
  Job.blob_name (strftime d1) (strftime d2)
  = Job.blob_name (strftime d1') (strftime d2') →
  strftime d1 = strftime d1' ∧ strftime d2 = strftime d2'.
Proof.
  unfold Job.blob_name. intros Heq.
  apply (append_inv_length "analytics_reports/report_"
           "analytics_reports/report_") in Heq as [_ Heq]; [|done].
  apply append_inv_length in Heq as [Hstart Heq]; [|done].
  apply (append_inv_length "_to_" "_to_") in Heq as [_ Heq]; [|done].
  apply append_inv_length in Heq as [Hend _]; [|done].
  done.
Qed.

(** X17.  One stored report per calendar month.  Two runs started in
    years of four digits write their report under the same name exactly
    when they start in the same month of the same year: a second run in
    the month overwrites the report of the first, and runs of different
    months never overwrite each other. *)
Theorem one_stored_report_per_month (today today' : date)
    (p q p' q' : date * date) :
  valid today → valid today' →
  1000 < year today → 1000 < year today' →
  periods today = Some (p, q) →
  periods today' = Some (p', q') →
  Job.blob_name (strftime p.1) (strftime p.2)
  = Job.blob_name (strftime p'.1) (strftime p'.2)
  ↔ year today = year today' ∧ month today = month today'.
Proof.
  intros Hv Hv' _ _ Hp Hp'.
  destruct p as [f l], p' as [f' l'].
  assert (∀ d f0 l0 q0,
            valid d → periods d = Some ((f0, l0), q0) →
            valid l0 ∧ plus_one_day l0 = first_of_month d) as Hlast.
  { intros d f0 l0 q0 Hd. unfold periods.
    destruct (month_before d) as [[f1 l1]|] eqn:Hmb; [|done]. simpl.
    destruct (month_before f1) as [[f3 l3]|]; [|done]. simpl.
    intros [= <- <- <-].
    by destruct (month_before_Some _ _ _ Hd Hmb) as (_ & _ & _ & _ & ? & ?). }
  destruct (Hlast _ _ _ _ Hv Hp) as [Hvl Hn].
  destruct (Hlast _ _ _ _ Hv' Hp') as [Hvl' Hn'].
  simpl. split.
  - intros [_ Hend]%blob_name_inj.
    apply strftime_inj in Hend; [|done..]. subst l'.
    rewrite Hn in Hn'. by injection Hn'.
  - intros [Hy Hm].
    assert (periods today = periods today') as Hsame.
    { change (periods (first_of_month today) = periods (first_of_month today')).
      unfold first_of_month. by rewrite Hy, Hm. }
    rewrite Hsame, Hp' in Hp. by injection Hp as <- <- _.
Qed.

End calendar.

(** A run in March of a leap year reports February with its 29 days and
    compares it with January. *)
Lemma reporting_periods_witness :
  Calendar.valid (Calendar.Date 2024 3 15)
  ∧ Calendar.periods (Calendar.Date 2024 3 15)
    = Some ((Calendar.Date 2024 2 1, Calendar.Date 2024 2 29),
            (Calendar.Date 2024 1 1, Calendar.Date 2024 1 31))
  ∧ Calendar.plus_one_day (Calendar.Date 2024 1 31) = Calendar.Date 2024 2 1
  ∧ Calendar.plus_one_day (Calendar.Date 2024 2 29) = Calendar.Date 2024 3 1.
Proof.
  assert (Calendar.valid (Calendar.Date 2024 3 15)) as Hvalid.
  { repeat split; by vm_compute. }
  split; [exact Hvalid|]. split; [reflexivity|].
  destruct (reporting_periods (Calendar.Date 2024 3 15) Hvalid)
    as (_ & _ & Hspec).
  destruct (Hspec (Calendar.Date 2024 2 1) (Calendar.Date 2024 2 29)
              (Calendar.Date 2024 1 1) (Calendar.Date 2024 1 31) eq_refl)
    as (_ & _ & _ & _ & _ & _ & _ & _ & Hprev & Hnext).
  split; [exact Hprev | exact Hnext].
Defined.

(** A run on 4 November and a run on 1 December of the same year store
    their reports under different names. *)
Lemma one_stored_report_per_month_witness :
  Job.blob_name (Calendar.strftime (Calendar.Date 2026 10 1))
                (Calendar.strftime (Calendar.Date 2026 10 31))
  = "analytics_reports/report_2026-10-01_to_2026-10-31.json"
  ∧ Job.blob_name (Calendar.strftime (Calendar.Date 2026 10 1))
                  (Calendar.strftime (Calendar.Date 2026 10 31))
    ≠ Job.blob_name (Calendar.strftime (Calendar.Date 2026 11 1))
                    (Calendar.strftime (Calendar.Date 2026 11 30)).
Proof.
  split; [reflexivity|]. intros Heq.
  apply (one_stored_report_per_month
           (Calendar.Date 2026 11 4) (Calendar.Date 2026 12 1)
           (Calendar.Date 2026 10 1, Calendar.Date 2026 10 31)
           (Calendar.Date 2026 9 1, Calendar.Date 2026 9 30)
           (Calendar.Date 2026 11 1, Calendar.Date 2026 11 30)
           (Calendar.Date 2026 10 1, Calendar.Date 2026 10 31)) in Heq.
  - destruct Heq as [_ Hmonth]. discriminate Hmonth.
  - repeat split; by vm_compute.
  - repeat split; by vm_compute.
  - by vm_compute.
  - by vm_compute.
  - reflexivity.
  - reflexivity.
Defined.
